(** * MetaMCP: a shallow embedding of the adapter / dispatch core

    The development follows the Python sources module by module:
    [errors.py], [config.py], [validators.py], the four adapters under
    [adapters/], [meta_client.py] and the tool handlers of [server.py].

    Python values are modelled as follows.
    - [str] is [string]; a character is read as a code point below 256
      (Latin-1), which is where [str.lower] and the regex class [\d] are
      given their Python meaning.
    - [int] is [Z]; durations passed to [sleep] and [timeout] are [Q].
    - [X | None] is [option X]; truthiness ([if x:], [not x], [x or y]) is
      written out per type.
    - decoded JSON ([dict[str, Any]]) is the inductive [json]; a dict is an
      association list in insertion order.
    - exceptions are values of [Exn]; a function that may raise returns an
      [Outcome].
    - network calls and sleeps are events appended to a trace; the remote
      host and the clock are functions of the trace so far, supplied by an
      environment [Env] together with the library functions the code calls
      but does not define ([urlparse], [hash], the text of an httpx error).
    Logging calls are not modelled: they do not influence any result. *)

From Stdlib Require Import ZArith QArith List String Ascii Bool Lia.
From Stdlib Require Import DecimalString.
Import ListNotations.

Local Open Scope string_scope.
Local Open Scope list_scope.
Local Open Scope Z_scope.

(** String concatenation, as in an f-string. *)
Notation "a +++ b" := (String.append a b) (at level 60, right associativity).

(* ===================================================================== *)
(** * Python strings *)
(* ===================================================================== *)

Module Py.

(** [bool(s)] for a [str]. *)
Definition truthy_str (s : string) : bool :=
  match s with EmptyString => false | String _ _ => true end.

(** [bool(x)] for [x : str | None]. *)
Definition truthy_opt (x : option string) : bool :=
  match x with None => false | Some s => truthy_str s end.

(** [bool(x)] for [x : list[str] | None]. *)
Definition truthy_list {A : Type} (x : option (list A)) : bool :=
  match x with None | Some [] => false | Some (_ :: _) => true end.

(** [if x: then_(x) else: else_] for [x : str | None]. *)
Definition if_truthy {A : Type} (x : option string) (then_ : string -> A)
    (else_ : A) : A :=
  match x with
  | Some s => if truthy_str s then then_ s else else_
  | None => else_
  end.

(** [x or default] for [x : str | None]. *)
Definition or_else (x : option string) (default : string) : string :=
  match x with
  | Some s => if truthy_str s then s else default
  | None => default
  end.

(** [hay.startswith(needle)]. *)
Fixpoint startswith (needle hay : string) : bool :=
  match needle, hay with
  | EmptyString, _ => true
  | String a n', String b h' => Ascii.eqb a b && startswith n' h'
  | String _ _, EmptyString => false
  end.

(** [needle in hay] for two strings. *)
Fixpoint contains (needle hay : string) : bool :=
  startswith needle hay ||
  match hay with
  | EmptyString => false
  | String _ h' => contains needle h'
  end.

(** [str.lower] on one code point below 256: [A-Z] and the Latin-1
    capitals U+00C0..U+00DE (U+00D7, the multiplication sign, excepted) move
    up by 32; every other code point is its own lowercase. *)
Definition lower_char (c : ascii) : ascii :=
  let n := N_of_ascii c in
  if ((65 <=? n) && (n <=? 90))%N then ascii_of_N (n + 32)
  else if ((192 <=? n) && (n <=? 222) && negb (n =? 215))%N
       then ascii_of_N (n + 32)
  else c.

Fixpoint lower (s : string) : string :=
  match s with
  | EmptyString => EmptyString
  | String c s' => String (lower_char c) (lower s')
  end.

End Py.

(* ===================================================================== *)
(** * Decoded JSON and Python dict / list operations on it *)
(* ===================================================================== *)

#[local] Set Warnings "-register-all".
Inductive json : Type :=
| JNull : json
| JBool (b : bool)
| JNum (n : Z)
| JFloat (q : Q)
| JStr (s : string)
| JArr (items : list json)
| JObj (fields : list (string * json)).

(** Python exceptions other than the project's own that the modelled code
    can raise. *)
Inductive PyError : Type :=
| AttributeError          (* [.get] / [.lower] on a value without it *)
| TypeError               (* [in] or subscript on an unsupported value *)
| KeyError                (* missing dict key under [d[k]] *)
| IndexError              (* [x[0]] on an empty sequence *)
| JSONDecodeError         (* [response.json()] on a body that is not JSON *)
| TransportError          (* httpx.RequestError: timeout, connection *)
| PydanticValidationError (* a model field refused by pydantic *).

(** errors.py: [class ErrorCode]. *)
Inductive ErrorCode : Type :=
| INVALID_PLATFORM | INVALID_RECIPIENT | AUTH_FAILED | API_ERROR
| MISSING_IDENTIFIER | PLATFORM_NOT_SUPPORTED | INVALID_METRIC
| INVALID_PERIOD | MISSING_CONTENT | MEDIA_UPLOAD_FAILED
| INSUFFICIENT_PERMISSIONS | RATE_LIMIT_EXCEEDED | NETWORK_ERROR
| VALIDATION_ERROR.

(** The string constant behind each member of [ErrorCode]. *)
Definition code_name (c : ErrorCode) : string :=
  match c with
  | INVALID_PLATFORM => "INVALID_PLATFORM"
  | INVALID_RECIPIENT => "INVALID_RECIPIENT"
  | AUTH_FAILED => "AUTH_FAILED"
  | API_ERROR => "API_ERROR"
  | MISSING_IDENTIFIER => "MISSING_IDENTIFIER"
  | PLATFORM_NOT_SUPPORTED => "PLATFORM_NOT_SUPPORTED"
  | INVALID_METRIC => "INVALID_METRIC"
  | INVALID_PERIOD => "INVALID_PERIOD"
  | MISSING_CONTENT => "MISSING_CONTENT"
  | MEDIA_UPLOAD_FAILED => "MEDIA_UPLOAD_FAILED"
  | INSUFFICIENT_PERMISSIONS => "INSUFFICIENT_PERMISSIONS"
  | RATE_LIMIT_EXCEEDED => "RATE_LIMIT_EXCEEDED"
  | NETWORK_ERROR => "NETWORK_ERROR"
  | VALIDATION_ERROR => "VALIDATION_ERROR"
  end.

(** ** HTTP requests and responses (httpx) *)

Inductive Method : Type := GET | POST.

(** One call of [client.get] / [client.post]: the URL, the [params=] query
    dict, the [json=] body and the [timeout=]. *)
Record HttpRequest : Type := mkRequest {
  req_method : Method;
  req_url : string;
  req_params : list (string * json);
  req_json : option json;
  req_timeout : Q
}.

(** What the remote end does with a request: it answers with a status code
    and a body ([None] when the body is not valid JSON), or the transport
    fails (timeout, connection refused). *)
Inductive HttpReply : Type :=
| Answer (status_code : Z) (body : option json)
| NoAnswer.

(** ** Exceptions *)

(** [MetaMCPError] carries [error_code] and [message]; its subclasses only
    fix the code, see the constructors below.  [HTTPStatusError] is what
    [raise_for_status] raises; it carries the response. *)
Inductive Exn : Type :=
| MetaMCPError (error_code : ErrorCode) (message : string)
| HTTPStatusError (request : HttpRequest) (status_code : Z) (body : option json)
| PyExn (e : PyError).

Inductive Outcome (A : Type) : Type :=
| Ok (a : A)
| Raise (e : Exn).
Arguments Ok {A} a.
Arguments Raise {A} e.

Definition bindO {A B : Type} (x : Outcome A) (k : A -> Outcome B) : Outcome B :=
  match x with
  | Ok a => k a
  | Raise e => Raise e
  end.

Notation "x <-? e ;; k" := (bindO e (fun x => k))
  (at level 61, e at next level, right associativity).

(** errors.py: the subclasses of [MetaMCPError]. *)
Definition PlatformNotSupportedError (platform operation : string) : Exn :=
  MetaMCPError PLATFORM_NOT_SUPPORTED
    ("Operation '" +++ operation +++ "' is not supported on platform '"
       +++ platform +++ "'").

Definition AuthenticationError (message : string) : Exn :=
  MetaMCPError AUTH_FAILED message.

Definition ValidationError (message : string) : Exn :=
  MetaMCPError VALIDATION_ERROR message.

Definition RateLimitError (message : string) : Exn :=
  MetaMCPError RATE_LIMIT_EXCEEDED message.

(** ** Dicts *)

Module Dict.

(** Lookup in an insertion-ordered dict. *)
Fixpoint find (key : string) (fields : list (string * json)) : option json :=
  match fields with
  | [] => None
  | (k, v) :: rest => if String.eqb k key then Some v else find key rest
  end.

(** [d[key] = v]: overwrite in place, or append a new key. *)
Fixpoint set (key : string) (v : json) (fields : list (string * json))
  : list (string * json) :=
  match fields with
  | [] => [(key, v)]
  | (k, w) :: rest =>
      if String.eqb k key then (k, v) :: rest else (k, w) :: set key v rest
  end.

(** [del d[key]] for a key that is present. *)
Fixpoint del (key : string) (fields : list (string * json))
  : list (string * json) :=
  match fields with
  | [] => []
  | (k, w) :: rest =>
      if String.eqb k key then rest else (k, w) :: del key rest
  end.

(** [key in d]. *)
Definition mem (key : string) (fields : list (string * json)) : bool :=
  match find key fields with Some _ => true | None => false end.

End Dict.

(** [x.get(key, default)]: defined on dicts only. *)
Definition py_get (x : json) (key : string) (default : json) : Outcome json :=
  match x with
  | JObj fields =>
      Ok (match Dict.find key fields with Some v => v | None => default end)
  | _ => Raise (PyExn AttributeError)
  end.

(** [bool(x)] for a decoded JSON value. *)
Definition py_truthy (x : json) : bool :=
  match x with
  | JNull => false
  | JBool b => b
  | JNum n => negb (n =? 0)
  | JFloat q => negb (Qeq_bool q 0)
  | JStr s => Py.truthy_str s
  | JArr items => match items with [] => false | _ => true end
  | JObj fields => match fields with [] => false | _ => true end
  end.

(** [x == needle] for a string [needle]. *)
Definition is_str (needle : string) (x : json) : bool :=
  match x with
  | JStr s => String.eqb s needle
  | _ => false
  end.

(** [needle in x] for a string [needle]: substring test on a [str],
    membership on a list, key membership on a dict, [TypeError] on the rest. *)
Definition py_str_in (needle : string) (x : json) : Outcome bool :=
  match x with
  | JStr s => Ok (Py.contains needle s)
  | JArr items => Ok (existsb (is_str needle) items)
  | JObj fields => Ok (Dict.mem needle fields)
  | _ => Raise (PyExn TypeError)
  end.

(** [x[0]]. *)
Definition py_first (x : json) : Outcome json :=
  match x with
  | JArr (item :: _) => Ok item
  | JArr [] => Raise (PyExn IndexError)
  | JStr (String c _) => Ok (JStr (String c EmptyString))
  | JStr EmptyString => Raise (PyExn IndexError)
  | JObj _ => Raise (PyExn KeyError)
  | _ => Raise (PyExn TypeError)
  end.

(** [x[key]] for a string [key]. *)
Definition py_item (x : json) (key : string) : Outcome json :=
  match x with
  | JObj fields =>
      match Dict.find key fields with
      | Some v => Ok v
      | None => Raise (PyExn KeyError)
      end
  | _ => Raise (PyExn TypeError)
  end.

(** [x.lower()]: a [str] method. *)
Definition py_lower (x : json) : Outcome string :=
  match x with
  | JStr s => Ok (Py.lower s)
  | _ => Raise (PyExn AttributeError)
  end.

(* ===================================================================== *)
(** * errors.py *)
(* ===================================================================== *)

Definition map_meta_api_error (status_code : Z) (response_data : json)
  : Outcome ErrorCode :=
  if (status_code =? 401) || (status_code =? 403) then Ok AUTH_FAILED
  else if status_code =? 429 then Ok RATE_LIMIT_EXCEEDED
  else if status_code =? 400 then
    error <-? py_get response_data "error" (JObj []) ;;
    error_type <-? py_get error "type" (JStr "") ;;
    is_oauth <-? py_str_in "OAuthException" error_type ;;
    if is_oauth then Ok AUTH_FAILED
    else
      message <-? py_get error "message" (JStr "") ;;
      lowered <-? py_lower message ;;
      if Py.contains "permission" lowered then Ok INSUFFICIENT_PERMISSIONS
      else Ok VALIDATION_ERROR
  else if status_code >=? 500 then Ok API_ERROR
  else Ok API_ERROR.

(* ===================================================================== *)
(** * Effects: the environment, the trace and the monad [M] *)
(* ===================================================================== *)

(** The observable effects of a call, oldest first. *)
Inductive Event : Type :=
| EvHttp (request : HttpRequest)
| EvSleep (seconds : Q).

Definition Trace : Type := list Event.

(** [urllib.parse.urlparse] as far as the validators look at it: the
    [scheme] and [netloc] of the result, or the text of the exception. *)
Inductive UrlParse : Type :=
| Parsed (scheme netloc : string)
| ParseFailure (text : string).

(** Everything the code takes from outside the repository. *)
Record Env : Type := mkEnv {
  (** the remote host: its answer to a request, given what happened before *)
  host : Trace -> HttpRequest -> HttpReply;
  (** [str(e)] for the [HTTPStatusError] of a request and status code *)
  status_error_text : HttpRequest -> Z -> string;
  (** [urllib.parse.urlparse] *)
  urlparse : string -> UrlParse;
  (** [str(datetime.now().timestamp())] *)
  now_timestamp : Trace -> string;
  (** [datetime.now(timezone.utc).isoformat()] *)
  now_isoformat : Trace -> string;
  (** the builtin [hash] on a [str] *)
  str_hash : string -> Z
}.

Definition M (A : Type) : Type := Env -> Trace -> Outcome A * Trace.

Definition ret {A : Type} (a : A) : M A := fun _ t => (Ok a, t).

Definition bind {A B : Type} (m : M A) (k : A -> M B) : M B :=
  fun env t =>
    match m env t with
    | (Ok a, t') => k a env t'
    | (Raise e, t') => (Raise e, t')
    end.

Definition raise {A : Type} (e : Exn) : M A := fun _ t => (Raise e, t).

(** A pure computation that may raise, run inside [M]. *)
Definition lift {A : Type} (o : Outcome A) : M A := fun _ t => (o, t).

(** Read a component of the environment at the current trace. *)
Definition ask {A : Type} (f : Env -> Trace -> A) : M A :=
  fun env t => (Ok (f env t), t).

Notation "x <- e ;; k" := (bind e (fun x => k))
  (at level 61, e at next level, right associativity).
Notation "e ;;; k" := (bind e (fun _ => k))
  (at level 61, right associativity).

(** [asyncio.sleep(seconds)]. *)
Definition sleep (seconds : Q) : M unit :=
  fun _ t => (Ok tt, t ++ [EvSleep seconds]).

(** [for x in xs: out.append(body(x))]. *)
Fixpoint for_each {A B : Type} (xs : list A) (body : A -> M B) : M (list B) :=
  match xs with
  | [] => ret []
  | x :: xs' => b <- body x ;; bs <- for_each xs' body ;; ret (b :: bs)
  end.

(** ** httpx *)

Module httpx.

(** A received response, with the request that produced it. *)
Record Response : Type := mkResponse {
  request : HttpRequest;
  status_code : Z;
  body : option json
}.

(** [await client.get(...)] / [await client.post(...)]: the request is
    issued; a transport failure raises. *)
Definition send (r : HttpRequest) : M Response :=
  fun env t =>
    match host env t r with
    | Answer st b => (Ok (mkResponse r st b), t ++ [EvHttp r])
    | NoAnswer => (Raise (PyExn TransportError), t ++ [EvHttp r])
    end.

Definition post (url : string) (params : list (string * json))
    (payload : json) (timeout : Q) : M Response :=
  send (mkRequest POST url params (Some payload) timeout).

Definition get (url : string) (params : list (string * json))
    (timeout : Q) : M Response :=
  send (mkRequest GET url params None timeout).

(** [Response.is_success]. *)
Definition is_success (st : Z) : bool := (200 <=? st) && (st <=? 299).

(** [response.raise_for_status()]: returns on a success status and raises
    [HTTPStatusError] on every other one. *)
Definition raise_for_status (r : Response) : M unit :=
  if is_success (status_code r) then ret tt
  else raise (HTTPStatusError (request r) (status_code r) (body r)).

(** [response.json()]. *)
Definition json_of (st_body : option json) : Outcome json :=
  match st_body with
  | Some j => Ok j
  | None => Raise (PyExn JSONDecodeError)
  end.

End httpx.

(** [try: body  except httpx.HTTPStatusError as e: handler(e)]: every other
    exception passes through. *)
Definition except_HTTPStatusError {A : Type} (body : M A)
    (handler : HttpRequest -> Z -> option json -> M A) : M A :=
  fun env t =>
    match body env t with
    | (Raise (HTTPStatusError rq st b), t') => handler rq st b env t'
    | r => r
    end.

(** The handler every adapter uses:
    [error_code = map_meta_api_error(e.response.status_code, e.response.json())]
    then [raise MetaMCPError(error_code, str(e))]. *)
Definition raise_mapped {A : Type} (rq : HttpRequest) (st : Z)
    (b : option json) : M A :=
  data <- lift (httpx.json_of b) ;;
  error_code <- lift (map_meta_api_error st data) ;;
  text <- ask (fun env _ => status_error_text env rq st) ;;
  raise (MetaMCPError error_code text).

(** [str(i)] for an [int]. *)
Definition str_of_int (i : Z) : string :=
  DecimalString.NilZero.string_of_int (Z.to_int i).

(** [range(n)]. *)
Definition py_range (n : Z) : list Z :=
  map Z.of_nat (seq 0 (Z.to_nat n)).

(* ===================================================================== *)
(** * config.py *)
(* ===================================================================== *)

Record Settings : Type := mkSettings {
  meta_app_id : string;
  meta_app_secret : string;
  facebook_page_access_token : string;
  instagram_access_token : string;
  whatsapp_access_token : string;
  whatsapp_phone_number_id : string;
  meta_api_version : string;
  log_level : string;
  demo_mode : bool
}.

(** The field defaults of [class Settings]. *)
Definition default_settings : Settings :=
  mkSettings "" "" "" "" "" "" "v21.0" "INFO" false.

(** [token_map.get(platform) or None]. *)
Definition get_platform_token (self : Settings) (platform : string)
  : option string :=
  let token_map :=
    [("facebook", facebook_page_access_token self);
     ("instagram", instagram_access_token self);
     ("whatsapp", whatsapp_access_token self)] in
  match find (fun kv => String.eqb (fst kv) platform) token_map with
  | Some (_, token) => if Py.truthy_str token then Some token else None
  | None => None
  end.

Definition validate_platform_config (self : Settings) (platform : string)
  : bool :=
  if demo_mode self then true
  else
    let token := get_platform_token self platform in
    if negb (Py.truthy_opt token) then false
    else if String.eqb platform "whatsapp"
            && negb (Py.truthy_str (whatsapp_phone_number_id self))
    then false
    else true.

(* ===================================================================== *)
(** * validators.py *)
(* ===================================================================== *)

(** The fragment of Python's [re] that [validate_e164_phone] uses. *)
Module re.

Inductive regex : Type :=
| Bol                              (* ^ *)
| Eol                              (* $ *)
| Chr (c : ascii)                  (* an escaped or literal character *)
| Range (lo hi : ascii)            (* [lo-hi] *)
| Digit                            (* \d *)
| Seq (r1 r2 : regex)
| Repeat (r : regex) (lo hi : nat) (* r{lo,hi}, greedy *).

(** A matching position: are we still at the start of the subject, and what
    is left of it. *)
Definition position : Type := (bool * string)%type.

Definition in_range (lo hi c : ascii) : bool :=
  ((N_of_ascii lo <=? N_of_ascii c) && (N_of_ascii c <=? N_of_ascii hi))%N.

(** [\d] on a [str] is any Unicode decimal digit; below code point 256
    those are [0-9]. *)
Definition is_digit (c : ascii) : bool := in_range "0" "9" c.

(** One character accepted by [ok]. *)
Definition take (ok : ascii -> bool) (p : position) : list position :=
  match snd p with
  | String c rest => if ok c then [(false, rest)] else []
  | EmptyString => []
  end.

(** Between [lo] and [hi] rounds of [f], the longest first. *)
Fixpoint iterate (f : position -> list position) (lo hi : nat) (p : position)
  : list position :=
  match hi with
  | O => match lo with O => [p] | S _ => [] end
  | S hi' =>
      flat_map (iterate f (Nat.pred lo) hi') (f p)
      ++ match lo with O => [p] | S _ => [] end
  end.

(** All the positions at which a match of [r] started at [p] can end, in
    the order the backtracking matcher tries them.  Without flags, [^]
    matches at the start of the subject only, and [$] at its end or just
    before a newline that ends it. *)
Fixpoint run (r : regex) (p : position) : list position :=
  match r with
  | Bol => if fst p then [p] else []
  | Eol =>
      match snd p with
      | EmptyString => [p]
      | String "010"%char EmptyString => [p]
      | _ => []
      end
  | Chr c => take (Ascii.eqb c) p
  | Range lo hi => take (in_range lo hi) p
  | Digit => take is_digit p
  | Seq r1 r2 => flat_map (run r2) (run r1 p)
  | Repeat r' lo hi => iterate (run r') lo hi p
  end.

(** [bool(re.match(pattern, subject))]. *)
Definition matches (pattern : regex) (subject : string) : bool :=
  match run pattern (true, subject) with
  | [] => false
  | _ :: _ => true
  end.

End re.

(** [r"^\+[1-9]\d{1,14}$"]. *)
Definition e164_pattern : re.regex :=
  re.Seq re.Bol
    (re.Seq (re.Chr "+")
       (re.Seq (re.Range "1" "9")
          (re.Seq (re.Repeat re.Digit 1 14) re.Eol))).

Definition validate_e164_phone (phone : string) : bool :=
  re.matches e164_pattern phone.

Definition validate_whatsapp_recipient (recipient_id : string) : Outcome unit :=
  if negb (validate_e164_phone recipient_id) then
    Raise (ValidationError
             ("WhatsApp recipient_id must be in E.164 format (e.g., +380991234567), "
                +++ "got: " +++ recipient_id))
  else Ok tt.

(** [str(e)] for the exceptions [validate_url] can see in its [try]. *)
Definition exn_text (e : Exn) : string :=
  match e with
  | MetaMCPError _ message => message
  | _ => ""
  end.

(** The body of the [try] block of [validate_url]: [None] when it runs to
    its end, the text of the exception otherwise. *)
Definition validate_url_try (parsed : UrlParse) (url : string) : option string :=
  match parsed with
  | ParseFailure text => Some text
  | Parsed scheme netloc =>
      if negb (Py.truthy_str scheme && Py.truthy_str netloc) then
        Some (exn_text (ValidationError ("Invalid URL: " +++ url)))
      else if negb (String.eqb scheme "http" || String.eqb scheme "https") then
        Some (exn_text (ValidationError
                          ("URL must use http or https protocol: " +++ url)))
      else None
  end.

(** The [except Exception] clause also catches the two [ValidationError]s
    raised inside the [try], and wraps their text once more. *)
Definition validate_url (url : string) : M unit :=
  parsed <- ask (fun env _ => urlparse env url) ;;
  match validate_url_try parsed url with
  | None => ret tt
  | Some text =>
      raise (ValidationError ("Invalid URL: " +++ url +++ " - " +++ text))
  end.

Definition validate_media_url (media_url : option string) : M unit :=
  Py.if_truthy media_url validate_url (ret tt).

Definition validate_get_messages_request
    (conversation_id recipient_id : option string) : Outcome unit :=
  if negb (Py.truthy_opt conversation_id) && negb (Py.truthy_opt recipient_id)
  then Raise (ValidationError
                "Either conversation_id or recipient_id must be provided")
  else Ok tt.

Definition validate_post_content_request (platform : string)
    (content : option string) (media_urls : option (list string)) : M unit :=
  if negb (Py.truthy_opt content) && negb (Py.truthy_list media_urls) then
    raise (ValidationError
             "At least one of content or media_urls must be provided")
  else if String.eqb platform "instagram" && negb (Py.truthy_list media_urls)
  then
    raise (ValidationError
             "Instagram posts require media_urls (text-only posts not supported)")
  else
    match media_urls with
    | Some (u :: us) => for_each (u :: us) validate_url ;;; ret tt
    | _ => ret tt
    end.

(* ===================================================================== *)
(** * adapters/ *)
(* ===================================================================== *)

(** adapters/base.py: the four operations every adapter implements.  A
    returned [dict] or [list] is a [json] value. *)
Class PlatformAdapter (A : Type) : Type := {
  send_message : A -> string -> string -> option string -> M json;
  get_messages : A -> option string -> option string -> Z -> M json;
  post_content :
    A -> option string -> option (list string) -> option string -> M json;
  get_analytics : A -> string -> string -> M json
}.

(** [f"https://graph.facebook.com/{api_version}"]. *)
Definition graph_url (api_version : string) : string :=
  "https://graph.facebook.com/" +++ api_version.

(** [params={"access_token": self.access_token}]. *)
Definition token_params (access_token : string) : list (string * json) :=
  [("access_token", JStr access_token)].

(** ** adapters/facebook.py *)

Module FacebookAdapter.

Record t : Type := mk {
  access_token : string;
  api_version : string;
  base_url : string
}.

Definition init (access_token api_version : string) : t :=
  mk access_token api_version (graph_url api_version).

(** The [payload] dict of [send_message], as posted. *)
Definition message_payload (recipient_id content : string)
    (media_url : option string) : list (string * json) :=
  let payload :=
    [("recipient", JObj [("id", JStr recipient_id)]);
     ("message", JObj [("text", JStr content)])] in
  Py.if_truthy media_url
    (fun url =>
       let message :=
         [("attachment",
           JObj [("type", JStr "image");
                 ("payload", JObj [("url", JStr url);
                                   ("is_reusable", JBool true)])])] in
       let message :=
         if Py.truthy_str content
         then Dict.set "text" (JStr content) message
         else message in
       Dict.set "message" (JObj message) payload)
    payload.

Definition send_message (self : t) (recipient_id content : string)
    (media_url : option string) : M json :=
  let url := base_url self +++ "/me/messages" in
  let payload := message_payload recipient_id content media_url in
  except_HTTPStatusError
    (response <- httpx.post url (token_params (access_token self))
                   (JObj payload) 30 ;;
     httpx.raise_for_status response ;;;
     data <- lift (httpx.json_of (httpx.body response)) ;;
     message_id <- lift (py_get data "message_id" JNull) ;;
     ret (JObj [("message_id", message_id)]))
    raise_mapped.

Definition get_messages (self : t) (conversation_id recipient_id : option string)
    (limit : Z) : M json :=
  Py.if_truthy conversation_id
    (fun conversation_id =>
       let url := base_url self +++ "/" +++ conversation_id +++ "/messages" in
       except_HTTPStatusError
         (response <- httpx.get url
                        (token_params (access_token self)
                           ++ [("limit", JNum limit)]) 30 ;;
          httpx.raise_for_status response ;;;
          data <- lift (httpx.json_of (httpx.body response)) ;;
          lift (py_get data "data" (JArr [])))
         raise_mapped)
    (raise (MetaMCPError MISSING_IDENTIFIER
              "conversation_id is required for Facebook messages")).

(** [media_urls and media_urls[0]]: the first URL when it is there and
    non-empty. *)
Definition first_media (media_urls : option (list string)) : option string :=
  match media_urls with
  | Some (u :: _) => if Py.truthy_str u then Some u else None
  | _ => None
  end.

Definition post_content (self : t) (content : option string)
    (media_urls : option (list string)) (target_id : option string) : M json :=
  let page_id := Py.or_else target_id "me" in
  let url := base_url self +++ "/" +++ page_id +++ "/feed" in
  let payload : list (string * json) := [] in
  let payload :=
    Py.if_truthy content
      (fun c => Dict.set "message" (JStr c) payload) payload in
  let payload :=
    match first_media media_urls with
    | Some u => Dict.set "link" (JStr u) payload
    | None => payload
    end in
  except_HTTPStatusError
    (response <- httpx.post url (token_params (access_token self))
                   (JObj payload) 30 ;;
     httpx.raise_for_status response ;;;
     data <- lift (httpx.json_of (httpx.body response)) ;;
     post_id <- lift (py_get data "id" JNull) ;;
     ret (JObj [("post_id", post_id)]))
    raise_mapped.

Definition get_analytics (self : t) (metric period : string) : M json :=
  let url := base_url self +++ "/me/insights/" +++ metric in
  except_HTTPStatusError
    (response <- httpx.get url
                   (token_params (access_token self)
                      ++ [("period", JStr period)]) 30 ;;
     httpx.raise_for_status response ;;;
     data <- lift (httpx.json_of (httpx.body response)) ;;
     values <- lift (py_get data "data" (JArr [])) ;;
     ret (JObj [("metric", JStr metric); ("period", JStr period);
                ("data", values)]))
    raise_mapped.

End FacebookAdapter.

(** ** adapters/instagram.py *)

Module InstagramAdapter.

Record t : Type := mk {
  access_token : string;
  api_version : string;
  base_url : string
}.

Definition init (access_token api_version : string) : t :=
  mk access_token api_version (graph_url api_version).

(** The [payload] dict of [send_message], as posted. *)
Definition message_payload (recipient_id content : string)
    (media_url : option string) : list (string * json) :=
  let payload :=
    [("recipient", JObj [("id", JStr recipient_id)]);
     ("message", JObj [("text", JStr content)])] in
  Py.if_truthy media_url
    (fun url =>
       Dict.set "message"
         (JObj [("attachment",
                 JObj [("type", JStr "image");
                       ("payload", JObj [("url", JStr url)])])])
         payload)
    payload.

Definition send_message (self : t) (recipient_id content : string)
    (media_url : option string) : M json :=
  let url := base_url self +++ "/me/messages" in
  let payload := message_payload recipient_id content media_url in
  except_HTTPStatusError
    (response <- httpx.post url (token_params (access_token self))
                   (JObj payload) 30 ;;
     httpx.raise_for_status response ;;;
     data <- lift (httpx.json_of (httpx.body response)) ;;
     message_id <- lift (py_get data "message_id" JNull) ;;
     ret (JObj [("message_id", message_id)]))
    raise_mapped.

Definition get_messages (self : t) (conversation_id recipient_id : option string)
    (limit : Z) : M json :=
  Py.if_truthy conversation_id
    (fun conversation_id =>
       let url := base_url self +++ "/" +++ conversation_id +++ "/messages" in
       except_HTTPStatusError
         (response <- httpx.get url
                        (token_params (access_token self)
                           ++ [("limit", JNum limit)]) 30 ;;
          httpx.raise_for_status response ;;;
          data <- lift (httpx.json_of (httpx.body response)) ;;
          lift (py_get data "data" (JArr [])))
         raise_mapped)
    (raise (MetaMCPError MISSING_IDENTIFIER
              "conversation_id is required for Instagram messages")).

(** [not media_urls or not media_urls[0]]. *)
Definition no_media (media_urls : option (list string)) : bool :=
  negb (Py.truthy_list media_urls)
  || match media_urls with
     | Some (u :: _) => negb (Py.truthy_str u)
     | _ => false
     end.

Definition post_content (self : t) (content : option string)
    (media_urls : option (list string)) (target_id : option string) : M json :=
  if no_media media_urls then
    raise (MetaMCPError MISSING_CONTENT "Instagram posts require media_urls")
  else
    (* [media_urls[0]]: present, by the test above *)
    let image_url :=
      match media_urls with Some (u :: _) => u | _ => "" end in
    let ig_user_id := Py.or_else target_id "me" in
    (* Step 1: create media container *)
    let container_url := base_url self +++ "/" +++ ig_user_id +++ "/media" in
    let container_payload :=
      [("image_url", JStr image_url);
       ("caption", JStr (Py.or_else content ""))] in
    except_HTTPStatusError
      (response <- httpx.post container_url
                     (token_params (access_token self))
                     (JObj container_payload) 30 ;;
       httpx.raise_for_status response ;;;
       container_data <- lift (httpx.json_of (httpx.body response)) ;;
       container_id <- lift (py_get container_data "id" JNull) ;;
       (* Step 2: publish container *)
       let publish_url :=
         base_url self +++ "/" +++ ig_user_id +++ "/media_publish" in
       let publish_payload := [("creation_id", container_id)] in
       response <- httpx.post publish_url
                     (token_params (access_token self))
                     (JObj publish_payload) 30 ;;
       httpx.raise_for_status response ;;;
       data <- lift (httpx.json_of (httpx.body response)) ;;
       post_id <- lift (py_get data "id" JNull) ;;
       ret (JObj [("post_id", post_id)]))
      raise_mapped.

Definition get_analytics (self : t) (metric period : string) : M json :=
  let url := base_url self +++ "/me/insights" in
  except_HTTPStatusError
    (response <- httpx.get url
                   (token_params (access_token self)
                      ++ [("metric", JStr metric); ("period", JStr period)])
                   30 ;;
     httpx.raise_for_status response ;;;
     data <- lift (httpx.json_of (httpx.body response)) ;;
     values <- lift (py_get data "data" (JArr [])) ;;
     ret (JObj [("metric", JStr metric); ("period", JStr period);
                ("data", values)]))
    raise_mapped.

End InstagramAdapter.

(** ** adapters/whatsapp.py *)

Module WhatsAppAdapter.

Record t : Type := mk {
  access_token : string;
  phone_number_id : string;
  api_version : string;
  base_url : string
}.

Definition init (access_token phone_number_id api_version : string) : t :=
  mk access_token phone_number_id api_version (graph_url api_version).

(** The [payload] dict of [send_message], as posted. *)
Definition message_payload (recipient_id content : string)
    (media_url : option string) : list (string * json) :=
  let payload :=
    [("messaging_product", JStr "whatsapp");
     ("to", JStr recipient_id);
     ("type", JStr "text");
     ("text", JObj [("body", JStr content)])] in
  Py.if_truthy media_url
    (fun url =>
       let payload := Dict.set "type" (JStr "image") payload in
       let payload := Dict.set "image" (JObj [("link", JStr url)]) payload in
       Dict.del "text" payload)
    payload.

(** [messages[0]["id"] if messages else "unknown"]. *)
Definition first_message_id (messages : json) : Outcome json :=
  if py_truthy messages then
    first <-? py_first messages ;;
    py_item first "id"
  else Ok (JStr "unknown").

Definition send_message (self : t) (recipient_id content : string)
    (media_url : option string) : M json :=
  let url := base_url self +++ "/" +++ phone_number_id self +++ "/messages" in
  let payload := message_payload recipient_id content media_url in
  except_HTTPStatusError
    (response <- httpx.post url (token_params (access_token self))
                   (JObj payload) 30 ;;
     httpx.raise_for_status response ;;;
     data <- lift (httpx.json_of (httpx.body response)) ;;
     messages <- lift (py_get data "messages" (JArr [])) ;;
     message_id <- lift (first_message_id messages) ;;
     ret (JObj [("message_id", message_id)]))
    raise_mapped.

Definition get_messages (self : t) (conversation_id recipient_id : option string)
    (limit : Z) : M json :=
  raise (PlatformNotSupportedError "whatsapp" "get_messages").

Definition post_content (self : t) (content : option string)
    (media_urls : option (list string)) (target_id : option string) : M json :=
  raise (PlatformNotSupportedError "whatsapp" "post_content").

Definition get_analytics (self : t) (metric period : string) : M json :=
  raise (PlatformNotSupportedError "whatsapp" "get_analytics").

End WhatsAppAdapter.

(** ** adapters/mock.py *)

Module MockPlatformAdapter.

Record t : Type := mk {
  access_token : string;
  platform : string
}.

Definition init (access_token platform : string) : t := mk access_token platform.

Definition send_message (self : t) (recipient_id content : string)
    (media_url : option string) : M json :=
  sleep (1 # 10) ;;;
  stamp <- ask now_timestamp ;;
  let message_id := "mock_msg_" +++ recipient_id +++ "_" +++ stamp in
  ret (JObj [("message_id", JStr message_id)]).

(** One record of the fake history. *)
Definition mock_message (i : Z) : M json :=
  created <- ask now_isoformat ;;
  ret (JObj [("id", JStr ("mock_msg_" +++ str_of_int i));
             ("created_time", JStr created);
             ("from", JObj [("id", JStr ("user_" +++ str_of_int i))]);
             ("to", JObj [("id", JStr "page_demo")]);
             ("message",
              JStr ("This is mock message #" +++ str_of_int (i + 1)))]).

Definition get_messages (self : t) (conversation_id recipient_id : option string)
    (limit : Z) : M json :=
  sleep (1 # 10) ;;;
  messages <- for_each (py_range (Z.min limit 3)) mock_message ;;
  ret (JArr messages).

Definition post_content (self : t) (content : option string)
    (media_urls : option (list string)) (target_id : option string) : M json :=
  sleep (2 # 10) ;;;
  stamp <- ask now_timestamp ;;
  let post_id := "mock_post_" +++ stamp in
  ret (JObj [("post_id", JStr post_id)]).

Definition get_analytics (self : t) (metric period : string) : M json :=
  sleep (1 # 10) ;;;
  fake_value <- ask (fun env _ => str_hash env (metric +++ period) mod 10000) ;;
  ret (JObj [("metric", JStr metric);
             ("period", JStr period);
             ("data",
              JArr [JObj [("name", JStr metric);
                          ("period", JStr period);
                          ("values",
                           JArr [JObj [("value", JNum fake_value)]])]])]).

End MockPlatformAdapter.

(** ** The adapters as implementations of the base interface *)

#[export] Instance Facebook_adapter : PlatformAdapter FacebookAdapter.t := {
  send_message := FacebookAdapter.send_message;
  get_messages := FacebookAdapter.get_messages;
  post_content := FacebookAdapter.post_content;
  get_analytics := FacebookAdapter.get_analytics
}.

#[export] Instance Instagram_adapter : PlatformAdapter InstagramAdapter.t := {
  send_message := InstagramAdapter.send_message;
  get_messages := InstagramAdapter.get_messages;
  post_content := InstagramAdapter.post_content;
  get_analytics := InstagramAdapter.get_analytics
}.

#[export] Instance WhatsApp_adapter : PlatformAdapter WhatsAppAdapter.t := {
  send_message := WhatsAppAdapter.send_message;
  get_messages := WhatsAppAdapter.get_messages;
  post_content := WhatsAppAdapter.post_content;
  get_analytics := WhatsAppAdapter.get_analytics
}.

#[export] Instance Mock_adapter : PlatformAdapter MockPlatformAdapter.t := {
  send_message := MockPlatformAdapter.send_message;
  get_messages := MockPlatformAdapter.get_messages;
  post_content := MockPlatformAdapter.post_content;
  get_analytics := MockPlatformAdapter.get_analytics
}.

(** A value of static type [BasePlatformAdapter]: one of the four concrete
    classes; a method call dispatches on the class. *)
Inductive BasePlatformAdapter : Type :=
| Facebook (a : FacebookAdapter.t)
| Instagram (a : InstagramAdapter.t)
| WhatsApp (a : WhatsAppAdapter.t)
| Mock (a : MockPlatformAdapter.t).

Definition dispatch {R : Type}
    (method : forall A : Type, PlatformAdapter A -> A -> R)
    (adapter : BasePlatformAdapter) : R :=
  match adapter with
  | Facebook a => method _ _ a
  | Instagram a => method _ _ a
  | WhatsApp a => method _ _ a
  | Mock a => method _ _ a
  end.

#[export] Instance Base_adapter : PlatformAdapter BasePlatformAdapter := {
  send_message := dispatch (@send_message);
  get_messages := dispatch (@get_messages);
  post_content := dispatch (@post_content);
  get_analytics := dispatch (@get_analytics)
}.

(* ===================================================================== *)
(** * meta_client.py *)
(* ===================================================================== *)

(** The part of [tenacity] that the decorator of
    [send_message_with_retry] configures. *)
Module tenacity.

(** [stop_after_attempt(max_attempt_number)]: stop once the number of the
    attempt just made reaches the bound. *)
Definition stop_after_attempt (max_attempt_number attempt_number : Z) : bool :=
  attempt_number >=? max_attempt_number.

(** [wait_exponential(multiplier, min, max)]: [multiplier * 2 ** (n - 1)]
    after attempt [n], clamped between [min] and [max]. *)
Definition wait_exponential (multiplier min max attempt_number : Z) : Z :=
  Z.max (Z.max 0 min) (Z.min (multiplier * 2 ^ (attempt_number - 1)) max).

(** The retry loop with [reraise=True] and the default retry condition
    (any exception): run [fn]; on an exception either stop and re-raise it,
    or sleep and go for the next attempt.  [fuel] bounds the number of
    further attempts; [retry] below supplies enough of it. *)
Fixpoint attempts {A : Type} (fuel : nat) (stop : Z -> bool) (wait : Z -> Z)
    (attempt_number : Z) (fn : M A) : M A :=
  fun env t =>
    match fn env t with
    | (Raise e, t') =>
        if stop attempt_number then (Raise e, t')
        else
          match fuel with
          | O => (Raise e, t')
          | S fuel' =>
              (sleep (inject_Z (wait attempt_number)) ;;;
               attempts fuel' stop wait (attempt_number + 1) fn) env t'
          end
    | done => done
    end.

(** [@retry(stop=stop_after_attempt(n), wait=wait, reraise=True)]. *)
Definition retry {A : Type} (max_attempt_number : Z) (wait : Z -> Z)
    (fn : M A) : M A :=
  attempts (Z.to_nat max_attempt_number)
    (stop_after_attempt max_attempt_number) wait 1 fn.

End tenacity.

Record MetaClient : Type := mkClient {
  settings : Settings;
  api_version : string
}.

Definition MetaClient_init (settings : Settings) : MetaClient :=
  mkClient settings (meta_api_version settings).

Definition get_adapter (self : MetaClient) (platform : string)
  : Outcome BasePlatformAdapter :=
  if demo_mode (settings self) then
    Ok (Mock (MockPlatformAdapter.init "demo" platform))
  else if negb (validate_platform_config (settings self) platform) then
    Raise (AuthenticationError
             ("Platform '" +++ platform +++ "' is not configured. "
                +++ "Please provide the required access token in .env file."))
  else
    Py.if_truthy (get_platform_token (settings self) platform)
      (fun token =>
         if String.eqb platform "facebook" then
           Ok (Facebook (FacebookAdapter.init token (api_version self)))
         else if String.eqb platform "instagram" then
           Ok (Instagram (InstagramAdapter.init token (api_version self)))
         else if String.eqb platform "whatsapp" then
           let phone_number_id := whatsapp_phone_number_id (settings self) in
           Ok (WhatsApp (WhatsAppAdapter.init token phone_number_id
                           (api_version self)))
         else
           Raise (MetaMCPError INVALID_PLATFORM
                    ("Unknown platform: " +++ platform)))
      (Raise (AuthenticationError
                ("No access token configured for platform: " +++ platform))).

(** The decorated body of [send_message_with_retry]: one attempt. *)
Definition send_message_once (self : MetaClient)
    (platform recipient_id content : string) (media_url : option string)
  : M json :=
  adapter <- lift (get_adapter self platform) ;;
  send_message adapter recipient_id content media_url.

(** [@retry(stop=stop_after_attempt(3),
            wait=wait_exponential(multiplier=1, min=1, max=10),
            reraise=True)]. *)
Definition send_message_with_retry (self : MetaClient)
    (platform recipient_id content : string) (media_url : option string)
  : M json :=
  tenacity.retry 3 (tenacity.wait_exponential 1 1 10)
    (send_message_once self platform recipient_id content media_url).

(* ===================================================================== *)
(** * models.py: the response envelopes *)
(* ===================================================================== *)

Module models.

Inductive Platform : Type := FACEBOOK | INSTAGRAM | WHATSAPP.

(** Coercion of a [str] to the enum, as pydantic does for a [Platform]
    field. *)
Definition Platform_of (value : string) : option Platform :=
  if String.eqb value "facebook" then Some FACEBOOK
  else if String.eqb value "instagram" then Some INSTAGRAM
  else if String.eqb value "whatsapp" then Some WHATSAPP
  else None.

(** [Platform | Literal["unknown"]]. *)
Inductive PlatformOrUnknown : Type :=
| Known (p : Platform)
| Unknown.

Definition PlatformOrUnknown_of (value : string) : option PlatformOrUnknown :=
  match Platform_of value with
  | Some p => Some (Known p)
  | None => if String.eqb value "unknown" then Some Unknown else None
  end.

Record MetaResponse : Type := mkMetaResponse {
  success : bool;
  platform : Platform;
  data : json;
  message : option string;
  timestamp : string
}.

Record MetaError : Type := mkMetaError {
  error_code : string;
  error_message : string;
  error_platform : PlatformOrUnknown;
  details : option json;
  error_timestamp : string
}.

Definition is_dict (x : json) : bool :=
  match x with JObj _ => true | _ => false end.

(** The [data] field accepts a dict, a list of dicts, or [None]. *)
Definition valid_data (x : json) : bool :=
  match x with
  | JObj _ | JNull => true
  | JArr items => forallb is_dict items
  | _ => false
  end.

(** [MetaResponse(success=True, platform=..., data=..., message=...)]. *)
Definition new_response (platform : string) (data : json) (message : string)
  : M MetaResponse :=
  match Platform_of platform with
  | Some p =>
      if valid_data data then
        stamp <- ask now_isoformat ;;
        ret (mkMetaResponse true p data (Some message) stamp)
      else raise (PyExn PydanticValidationError)
  | None => raise (PyExn PydanticValidationError)
  end.

(** [MetaError(error_code=..., error_message=..., platform=...)]. *)
Definition new_error (error_code error_message platform : string)
  : M MetaError :=
  match PlatformOrUnknown_of platform with
  | Some p =>
      stamp <- ask now_isoformat ;;
      ret (mkMetaError error_code error_message p None stamp)
  | None => raise (PyExn PydanticValidationError)
  end.

End models.

(* ===================================================================== *)
(** * server.py: the tool handlers *)
(* ===================================================================== *)

(** What a handler returns: the one text item whose content is the JSON dump
    of a [MetaResponse] or of a [MetaError]. *)
Inductive ToolResult : Type :=
| Success (response : models.MetaResponse)
| Failure (error : models.MetaError).

(** [try: body  except MetaMCPError as e: handler(e)]. *)
Definition except_MetaMCPError {A : Type} (body : M A)
    (handler : ErrorCode -> string -> M A) : M A :=
  fun env t =>
    match body env t with
    | (Raise (MetaMCPError code text), t') => handler code text env t'
    | r => r
    end.

(** The [except MetaMCPError] clause shared by the four handlers. *)
Definition error_envelope (platform : string) (code : ErrorCode)
    (text : string) : M ToolResult :=
  error <- models.new_error (code_name code) text platform ;;
  ret (Failure error).

(** [len(x)]. *)
Definition py_len (x : json) : Outcome Z :=
  match x with
  | JArr items => Ok (Z.of_nat (List.length items))
  | JObj fields => Ok (Z.of_nat (List.length fields))
  | JStr s => Ok (Z.of_nat (String.length s))
  | _ => Raise (PyExn TypeError)
  end.

(** The handlers take the values they read from [args] as parameters, and
    the module-level [meta_client] as [client]. *)
Definition handle_send_message (client : MetaClient)
    (platform recipient_id content : string) (media_url : option string)
  : M ToolResult :=
  except_MetaMCPError
    ((if String.eqb platform "whatsapp"
      then lift (validate_whatsapp_recipient recipient_id)
      else ret tt) ;;;
     adapter <- lift (get_adapter client platform) ;;
     result <- send_message adapter recipient_id content media_url ;;
     response <- models.new_response platform result
                   "Message sent successfully" ;;
     ret (Success response))
    (error_envelope platform).

Definition handle_get_messages (client : MetaClient) (platform : string)
    (conversation_id recipient_id : option string) (limit : Z)
  : M ToolResult :=
  except_MetaMCPError
    (lift (validate_get_messages_request conversation_id recipient_id) ;;;
     adapter <- lift (get_adapter client platform) ;;
     messages <- get_messages adapter conversation_id recipient_id limit ;;
     count <- lift (py_len messages) ;;
     response <- models.new_response platform messages
                   ("Retrieved " +++ str_of_int count +++ " messages") ;;
     ret (Success response))
    (error_envelope platform).

Definition handle_post_content (client : MetaClient) (platform : string)
    (content : option string) (media_urls : option (list string))
    (target_id : option string) : M ToolResult :=
  except_MetaMCPError
    (validate_post_content_request platform content media_urls ;;;
     adapter <- lift (get_adapter client platform) ;;
     result <- post_content adapter content media_urls target_id ;;
     response <- models.new_response platform result
                   "Content posted successfully" ;;
     ret (Success response))
    (error_envelope platform).

Definition handle_get_analytics (client : MetaClient)
    (platform metric period : string) : M ToolResult :=
  except_MetaMCPError
    (adapter <- lift (get_adapter client platform) ;;
     result <- get_analytics adapter metric period ;;
     response <- models.new_response platform result
                   "Analytics retrieved successfully" ;;
     ret (Success response))
    (error_envelope platform).

(** ** [call_tool] *)

(** A tool call: the [name] and the values [arguments] holds under the keys
    the handler of that name reads, each of the type the tool's input
    schema declares.  A key the handler reads with [args.get] may be
    absent.  A name that is none of the four tools comes with what
    [arguments.get("platform")] finds. *)
Inductive ToolCall : Type :=
| meta_send_message (platform recipient_id content : string)
    (media_url : option string)
| meta_get_messages (platform : string)
    (conversation_id recipient_id : option string) (limit : option Z)
| meta_post_content (platform : string) (content : option string)
    (media_urls : option (list string)) (target_id : option string)
| meta_get_analytics (platform metric : string) (period : option string)
| other_tool (name : string) (platform : option string).

(** [arguments.get("platform", "unknown")]. *)
Definition call_platform (call : ToolCall) : string :=
  match call with
  | meta_send_message platform _ _ _ => platform
  | meta_get_messages platform _ _ _ => platform
  | meta_post_content platform _ _ _ => platform
  | meta_get_analytics platform _ _ => platform
  | other_tool _ (Some platform) => platform
  | other_tool _ None => "unknown"
  end.

(** The [try] block of [call_tool]; [args.get("limit", 10)] and
    [args.get("period", "day")] are the handlers' own defaults. *)
Definition call_tool_try (client : MetaClient) (call : ToolCall) : M ToolResult :=
  match call with
  | meta_send_message platform recipient_id content media_url =>
      handle_send_message client platform recipient_id content media_url
  | meta_get_messages platform conversation_id recipient_id limit =>
      handle_get_messages client platform conversation_id recipient_id
        (match limit with Some n => n | None => 10 end)
  | meta_post_content platform content media_urls target_id =>
      handle_post_content client platform content media_urls target_id
  | meta_get_analytics platform metric period =>
      handle_get_analytics client platform metric
        (match period with Some p => p | None => "day" end)
  | other_tool name _ =>
      error <- models.new_error "UNKNOWN_TOOL" ("Unknown tool: " +++ name)
                 "unknown" ;;
      ret (Failure error)
  end.

(** [call_tool]: whatever the [try] block raises is turned into an
    EXECUTION_ERROR envelope.  [str_of_exn] is [str(e)]. *)
Definition call_tool (str_of_exn : Exn -> string) (client : MetaClient)
    (call : ToolCall) : M ToolResult :=
  fun env t =>
    match call_tool_try client call env t with
    | (Raise e, t') =>
        (error <- models.new_error "EXECUTION_ERROR" (str_of_exn e)
                    (call_platform call) ;;
         ret (Failure error)) env t'
    | done => done
    end.

(* ===================================================================== *)
(** * logging_config.py *)
(* ===================================================================== *)

Module SanitizingFormatter.

Definition SENSITIVE_KEYS : list string :=
  ["access_token"; "token"; "secret"; "password"; "api_key"].

(** [any(sensitive in key.lower() for sensitive in self.SENSITIVE_KEYS)]. *)
Definition is_sensitive (key : string) : bool :=
  existsb (fun sensitive => Py.contains sensitive (Py.lower key)) SENSITIVE_KEYS.

(** [for key in list(log_record.keys()): if ...: log_record[key] = ...]. *)
Definition process_log_record (log_record : list (string * json))
  : list (string * json) :=
  fold_left
    (fun record key =>
       if is_sensitive key
       then Dict.set key (JStr "***REDACTED***") record
       else record)
    (map fst log_record) log_record.

End SanitizingFormatter.

(* ===================================================================== *)
(** * Vocabulary of the statements *)
(* ===================================================================== *)

(** A field that the vendor's error object carries as a string; a field
    that is absent reads as the empty string, as the defaults of
    [map_meta_api_error] have it.  [None] when the field holds anything
    else. *)
Definition str_field (fields : list (string * json)) (key : string)
  : option string :=
  match Dict.find key fields with
  | None => Some ""
  | Some (JStr s) => Some s
  | Some _ => None
  end.

(** The error type and error message of a vendor error payload: the
    payload is a JSON object whose ["error"] entry, when present, is an
    object with string ["type"] and ["message"]. *)
Definition vendor_error (payload : json) : option (string * string) :=
  match payload with
  | JObj fields =>
      match Dict.find "error" fields with
      | None => Some ("", "")
      | Some (JObj error) =>
          match str_field error "type", str_field error "message" with
          | Some ty, Some msg => Some (ty, msg)
          | _, _ => None
          end
      | Some _ => None
      end
  | _ => None
  end.

(** ** Environments for concrete runs *)

(** How many requests a trace holds. *)
Definition http_count (t : Trace) : nat :=
  List.length (filter (fun ev => match ev with EvHttp _ => true | _ => false end) t).

(** The requests of a trace, oldest first. *)
Definition requests (t : Trace) : list HttpRequest :=
  flat_map (fun ev => match ev with EvHttp r => [r] | _ => [] end) t.

(** A stub of the remote host in the manner of the test suite's
    [httpx_mock]: the n-th request gets the n-th scripted reply, and no
    reply at all once the script is used up.  The clock stands still and
    [urlparse] is not consulted. *)
Definition stub_env (script : list HttpReply) : Env :=
  mkEnv (fun t _ => nth (http_count t) script NoAnswer)
        (fun _ st => "HTTP status " +++ str_of_int st)
        (fun _ => ParseFailure "urlparse is not stubbed")
        (fun _ => "0.0")
        (fun _ => "1970-01-01T00:00:00+00:00")
        (fun _ => 0).

(** ** The request behind [send_message] *)

(** [client.post(url, params={"access_token": token}, json=payload,
    timeout=30.0)], as the three real adapters issue it. *)
Definition token_post (url token : string) (payload : list (string * json))
  : HttpRequest :=
  mkRequest POST url (token_params token) (Some (JObj payload)) 30.

Definition facebook_send_request (self : FacebookAdapter.t)
    (recipient_id content : string) (media_url : option string) : HttpRequest :=
  token_post (FacebookAdapter.base_url self +++ "/me/messages")
    (FacebookAdapter.access_token self)
    (FacebookAdapter.message_payload recipient_id content media_url).

Definition instagram_send_request (self : InstagramAdapter.t)
    (recipient_id content : string) (media_url : option string) : HttpRequest :=
  token_post (InstagramAdapter.base_url self +++ "/me/messages")
    (InstagramAdapter.access_token self)
    (InstagramAdapter.message_payload recipient_id content media_url).

Definition whatsapp_send_request (self : WhatsAppAdapter.t)
    (recipient_id content : string) (media_url : option string) : HttpRequest :=
  token_post (WhatsAppAdapter.base_url self +++ "/"
                +++ WhatsAppAdapter.phone_number_id self +++ "/messages")
    (WhatsAppAdapter.access_token self)
    (WhatsAppAdapter.message_payload recipient_id content media_url).

(** What the [except httpx.HTTPStatusError] clause of an adapter turns a
    failed response into. *)
Definition mapped_failure {A : Type} (env : Env) (rq : HttpRequest) (st : Z)
    (b : option json) : Outcome A :=
  data <-? httpx.json_of b ;;
  error_code <-? map_meta_api_error st data ;;
  Raise (MetaMCPError error_code (status_error_text env rq st)).

(** ** Counting returned records *)

(** The number of records a [get_messages] call returned, when it returned
    a list. *)
Definition record_count (result : Outcome json * Trace) : option Z :=
  match fst result with
  | Ok (JArr records) => Some (Z.of_nat (List.length records))
  | _ => None
  end.

(** ** E.164 numbers *)

Fixpoint all_digits (s : string) : bool :=
  match s with
  | EmptyString => true
  | String c rest => re.is_digit c && all_digits rest
  end.



(** ** Bounding the requests of a computation *)

(** Whatever the environment and the trace so far, [m] only appends to the
    trace, and what it appends holds at most [n] requests. *)
Definition requests_at_most {A : Type} (n : nat) (m : M A) : Prop :=
  forall env t,
    exists evs,
      snd (m env t) = t ++ evs /\ (List.length (requests evs) <= n)%nat.


(** ** Accepted URLs *)

(** What [validate_url] lets through: [urlparse] finds the scheme http or
    https and a non-empty host. *)
Definition url_ok (env : Env) (url : string) : bool :=
  match urlparse env url with
  | Parsed scheme netloc =>
      (String.eqb scheme "http" || String.eqb scheme "https")
      && Py.truthy_str netloc
  | ParseFailure _ => false
  end.

(** The four strings an error envelope accepts as platform. *)
Definition envelope_platform (platform : string) : bool :=
  match models.PlatformOrUnknown_of platform with
  | Some _ => true
  | None => false
  end.

(** One of the three platform names. *)
Definition known_platform (platform : string) : bool :=
  match models.Platform_of platform with
  | Some _ => true
  | None => false
  end.

(** An adapter that talks to the network: any but the Mock. *)
Definition real_adapter (a : BasePlatformAdapter) : bool :=
  match a with
  | Mock _ => false
  | _ => true
  end.

(** The request a real adapter's [send_message] issues. *)
Definition send_request (a : BasePlatformAdapter)
    (recipient_id content : string) (media_url : option string)
  : option HttpRequest :=
  match a with
  | Facebook fb => Some (facebook_send_request fb recipient_id content media_url)
  | Instagram ig => Some (instagram_send_request ig recipient_id content media_url)
  | WhatsApp wa => Some (whatsapp_send_request wa recipient_id content media_url)
  | Mock _ => None
  end.


(** An environment whose [urlparse] is [parse]; no host is reachable. *)
Definition parsing_env (parse : string -> UrlParse) : Env :=
  mkEnv (host (stub_env [])) (status_error_text (stub_env [])) parse
        (now_timestamp (stub_env [])) (now_isoformat (stub_env []))
        (str_hash (stub_env [])).

(** A [urlparse] for the examples: it splits at the first ["://"] and takes
    what follows as the host; a URL without ["://"] has neither scheme nor
    host. *)
Fixpoint split_scheme (url : string) : option (string * string) :=
  match url with
  | EmptyString => None
  | String c rest =>
      if Py.startswith "://" url then
        Some (EmptyString, match rest with
                           | String _ (String _ host) => host
                           | _ => EmptyString
                           end)
      else
        match split_scheme rest with
        | Some (scheme, host) => Some (String c scheme, host)
        | None => None
        end
  end.

Definition simple_urlparse (url : string) : UrlParse :=
  match split_scheme url with
  | Some (scheme, host) => Parsed scheme host
  | None => Parsed "" ""
  end.


(** ** The requests behind the other adapter calls *)

(** [client.get(url, params={"access_token": token, ...more}, timeout=30.0)]. *)
Definition token_get (url token : string) (more : list (string * json))
  : HttpRequest :=
  mkRequest GET url (token_params token ++ more) None 30.

(** The history request of the Facebook and Instagram adapters. *)
Definition history_request (base_url token conversation_id : string)
    (limit : Z) : HttpRequest :=
  token_get (base_url +++ "/" +++ conversation_id +++ "/messages") token
    [("limit", JNum limit)].

(** [body.get(key)] on a decoded response body. *)
Definition body_field (fields : list (string * json)) (key : string)
    (default : json) : json :=
  match Dict.find key fields with
  | Some v => v
  | None => default
  end.

(** Phase one of an Instagram post: create the media container. *)
Definition container_request (self : InstagramAdapter.t)
    (content : option string) (image_url : string) (target_id : option string)
  : HttpRequest :=
  token_post
    (InstagramAdapter.base_url self +++ "/" +++ Py.or_else target_id "me"
       +++ "/media")
    (InstagramAdapter.access_token self)
    [("image_url", JStr image_url); ("caption", JStr (Py.or_else content ""))].

(** Phase two of an Instagram post: publish the container. *)
Definition publish_request (self : InstagramAdapter.t) (container_id : json)
    (target_id : option string) : HttpRequest :=
  token_post
    (InstagramAdapter.base_url self +++ "/" +++ Py.or_else target_id "me"
       +++ "/media_publish")
    (InstagramAdapter.access_token self)
    [("creation_id", container_id)].

(** The feed request of the Facebook adapter, for a given payload. *)
Definition feed_request (self : FacebookAdapter.t) (target_id : option string)
    (payload : list (string * json)) : HttpRequest :=
  token_post
    (FacebookAdapter.base_url self +++ "/" +++ Py.or_else target_id "me"
       +++ "/feed")
    (FacebookAdapter.access_token self) payload.

(** What an insights call returns on success. *)
Definition insights_result (metric period : string) (values : json) : json :=
  JObj [("metric", JStr metric); ("period", JStr period); ("data", values)].


(** ** Reading a handler's answer *)

(** The error code of the envelope a handler returned, when it returned an
    error envelope. *)
Definition failure_code (result : Outcome ToolResult * Trace) : option string :=
  match fst result with
  | Ok (Failure error) => Some (models.error_code error)
  | _ => None
  end.

(** One of the four tools of the server. *)
Definition named_tool (call : ToolCall) : bool :=
  match call with
  | other_tool _ _ => false
  | _ => true
  end.

(** A computation that raises whatever the environment and the trace. *)
Definition never_returns {A : Type} (m : M A) : Prop :=
  forall env t, exists e, fst (m env t) = Raise e.


(** ** Sanitized log records *)

(** What becomes of one entry of a log record: the value gives way to the
    marker when the key is sensitive. *)
Definition redact_entry (entry : string * json) : string * json :=
  if SanitizingFormatter.is_sensitive (fst entry)
  then (fst entry, JStr "***REDACTED***")
  else entry.

(* ===================================================================== *)
(** * Properties *)
(* ===================================================================== *)

(** ** Strings *)

Lemma startswith_iff (needle hay : string) :
  Py.startswith needle hay = true <-> exists rest, hay = needle +++ rest.
Proof.
  revert hay; induction needle as [|a n IH]; intros hay; simpl.
  - split; [intros _; now exists hay | reflexivity].
  - destruct hay as [|b h].
    + split; [discriminate | intros [r Hr]; discriminate].
    + rewrite andb_true_iff, IH. split.
      * intros [Hab [r ->]]. apply Ascii.eqb_eq in Hab. subst. now exists r.
      * intros [r Hr]. inversion Hr; subst. split; [apply Ascii.eqb_refl|].
        now exists r.
Qed.

Lemma contains_iff (needle hay : string) :
  Py.contains needle hay = true <->
  exists before after, hay = before +++ needle +++ after.
Proof.
  induction hay as [|c h IH]; simpl.
  - rewrite orb_false_r, startswith_iff. split.
    + intros [r Hr]. now exists "", r.
    + intros [b [a Hba]]. destruct b; [now exists a | discriminate].
  - rewrite orb_true_iff, startswith_iff, IH. split.
    + intros [[r Hr] | [b [a Hba]]].
      * now exists "", r.
      * exists (String c b), a. simpl. now rewrite Hba.
    + intros [b [a Hba]]. destruct b as [|c' b]; simpl in Hba.
      * left. now exists a.
      * right. inversion Hba; subst. now exists b, a.
Qed.

Lemma lower_app (a b : string) :
  Py.lower (a +++ b) = Py.lower a +++ Py.lower b.
Proof. induction a as [|c a IH]; simpl; [reflexivity | now rewrite IH]. Qed.

Lemma lower_split (s a' b' : string) :
  Py.lower s = a' +++ b' ->
  exists a b, s = a +++ b /\ Py.lower a = a' /\ Py.lower b = b'.
Proof.
  revert s; induction a' as [|c a' IH]; intros s H; simpl in H.
  - exists "", s. auto.
  - destruct s as [|d s]; simpl in H; [discriminate|].
    inversion H as [[Hc Hs]]. destruct (IH _ Hs) as (a & b & -> & Ha & Hb).
    exists (String d a), b. simpl. rewrite Ha. auto.
Qed.

(** Searching the lowered text is searching the text regardless of case:
    some stretch of [text] lowers to [needle]. *)
Lemma contains_lower_iff (needle text : string) :
  Py.contains needle (Py.lower text) = true <->
  exists before found after,
    text = before +++ found +++ after /\ Py.lower found = needle.
Proof.
  rewrite contains_iff. split.
  - intros (b' & a' & H).
    apply lower_split in H as (b & r & -> & Hb & Hr).
    apply lower_split in Hr as (f & a & -> & Hf & Ha).
    now exists b, f, a.
  - intros (b & f & a & -> & Hf).
    exists (Py.lower b), (Py.lower a).
    now rewrite !lower_app, Hf.
Qed.

(** ** errors.py *)

Lemma vendor_error_inv (payload : json) (ty msg : string) :
  vendor_error payload = Some (ty, msg) ->
  exists error,
    py_get payload "error" (JObj []) = Ok (JObj error) /\
    py_get (JObj error) "type" (JStr "") = Ok (JStr ty) /\
    py_get (JObj error) "message" (JStr "") = Ok (JStr msg).
Proof.
  unfold vendor_error, str_field, py_get.
  destruct payload as [| | | | |items|fields]; try discriminate.
  destruct (Dict.find "error" fields) as [[| | | | | |error]|]; try discriminate.
  - intros H. exists error. split; [reflexivity|].
    destruct (Dict.find "type" error) as [[]|]; try discriminate;
      destruct (Dict.find "message" error) as [[]|]; try discriminate;
      inversion H; subst; auto.
  - intros H. inversion H; subst. exists []. auto.
Qed.

(** Outside status 400 the payload is not looked at. *)
Lemma map_meta_api_error_not_400 (status_code : Z) (payload : json) :
  status_code <> 400 ->
  map_meta_api_error status_code payload =
  Ok (if (status_code =? 401) || (status_code =? 403) then AUTH_FAILED
      else if status_code =? 429 then RATE_LIMIT_EXCEEDED
      else API_ERROR).
Proof.
  intros H. unfold map_meta_api_error.
  destruct ((status_code =? 401) || (status_code =? 403)); [reflexivity|].
  destruct (status_code =? 429); [reflexivity|].
  destruct (Z.eqb_spec status_code 400); [contradiction|].
  now destruct (status_code >=? 500).
Qed.

Lemma map_meta_api_error_400 (payload : json) (ty msg : string) :
  vendor_error payload = Some (ty, msg) ->
  map_meta_api_error 400 payload =
  Ok (if Py.contains "OAuthException" ty then AUTH_FAILED
      else if Py.contains "permission" (Py.lower msg)
           then INSUFFICIENT_PERMISSIONS
      else VALIDATION_ERROR).
Proof.
  intros H. destruct (vendor_error_inv _ _ _ H) as (error & He & Ht & Hm).
  unfold map_meta_api_error.
  change ((400 =? 401) || (400 =? 403)) with false.
  change (400 =? 429) with false. change (400 =? 400) with true.
  cbv iota. rewrite He. cbn [bindO]. rewrite Ht. cbn [bindO py_str_in].
  destruct (Py.contains "OAuthException" ty); [reflexivity|].
  rewrite Hm. cbn [bindO py_lower].
  now destruct (Py.contains "permission" (Py.lower msg)).
Qed.

(** A payload that is not shaped like a vendor error makes the mapping
    itself fail on status 400. *)
Example map_meta_api_error_null_error :
  map_meta_api_error 400 (JObj [("error", JNull)]) = Raise (PyExn AttributeError).
Proof. reflexivity. Qed.

(** C1.  The status-to-kind mapping: 401 and 403 give AUTH_FAILED; 429 gives
    RATE_LIMIT_EXCEEDED; 400 on a vendor error payload gives AUTH_FAILED when
    the error type contains "OAuthException", else INSUFFICIENT_PERMISSIONS
    when the lowered error message contains "permission", else
    VALIDATION_ERROR; every status from 500 up, and every status not named
    before, gives API_ERROR. *)
Theorem map_meta_api_error_cases (status_code : Z) (payload : json) :
  (status_code = 401 \/ status_code = 403 ->
   map_meta_api_error status_code payload = Ok AUTH_FAILED) /\
  (status_code = 429 ->
   map_meta_api_error status_code payload = Ok RATE_LIMIT_EXCEEDED) /\
  (forall ty msg,
     status_code = 400 -> vendor_error payload = Some (ty, msg) ->
     (Py.contains "OAuthException" ty = true ->
      map_meta_api_error status_code payload = Ok AUTH_FAILED) /\
     (Py.contains "OAuthException" ty = false ->
      Py.contains "permission" (Py.lower msg) = true ->
      map_meta_api_error status_code payload = Ok INSUFFICIENT_PERMISSIONS) /\
     (Py.contains "OAuthException" ty = false ->
      Py.contains "permission" (Py.lower msg) = false ->
      map_meta_api_error status_code payload = Ok VALIDATION_ERROR)) /\
  (status_code >= 500 ->
   map_meta_api_error status_code payload = Ok API_ERROR) /\
  (status_code <> 400 -> status_code <> 401 -> status_code <> 403 ->
   status_code <> 429 ->
   map_meta_api_error status_code payload = Ok API_ERROR).
Proof.
  split; [|split; [|split; [|split]]].
  - intros [-> | ->]; reflexivity.
  - intros ->; reflexivity.
  - intros ty msg -> Hv. rewrite (map_meta_api_error_400 _ _ _ Hv).
    repeat split.
    + now intros ->.
    + now intros -> ->.
    + now intros -> ->.
  - intros H. rewrite map_meta_api_error_not_400 by lia.
    destruct (Z.eqb_spec status_code 401); [lia|].
    destruct (Z.eqb_spec status_code 403); [lia|].
    destruct (Z.eqb_spec status_code 429); [lia|]. reflexivity.
  - intros H0 H1 H3 H9. rewrite map_meta_api_error_not_400 by assumption.
    destruct (Z.eqb_spec status_code 401); [contradiction|].
    destruct (Z.eqb_spec status_code 403); [contradiction|].
    destruct (Z.eqb_spec status_code 429); [contradiction|]. reflexivity.
Qed.

Lemma map_meta_api_error_cases_witness :
  let oauth :=
    JObj [("error", JObj [("message", JStr "Invalid OAuth access token.");
                          ("type", JStr "OAuthException")])] in
  let denied :=
    JObj [("error", JObj [("message", JStr "Missing Permission");
                          ("type", JStr "GraphMethodException")])] in
  let other :=
    JObj [("error", JObj [("message", JStr "Unsupported post request");
                          ("type", JStr "GraphMethodException")])] in
  map_meta_api_error 401 JNull = Ok AUTH_FAILED /\
  map_meta_api_error 429 JNull = Ok RATE_LIMIT_EXCEEDED /\
  map_meta_api_error 400 oauth = Ok AUTH_FAILED /\
  map_meta_api_error 400 denied = Ok INSUFFICIENT_PERMISSIONS /\
  map_meta_api_error 400 other = Ok VALIDATION_ERROR /\
  map_meta_api_error 503 JNull = Ok API_ERROR /\
  map_meta_api_error 404 JNull = Ok API_ERROR.
Proof.
  intros oauth denied other. repeat apply conj.
  - destruct (map_meta_api_error_cases 401 JNull) as (H & _).
    apply H. now left.
  - destruct (map_meta_api_error_cases 429 JNull) as (_ & H & _).
    apply H. reflexivity.
  - destruct (map_meta_api_error_cases 400 oauth) as (_ & _ & H & _).
    destruct (H "OAuthException" "Invalid OAuth access token." eq_refl eq_refl)
      as (Hcase & _).
    apply Hcase. reflexivity.
  - destruct (map_meta_api_error_cases 400 denied) as (_ & _ & H & _).
    destruct (H "GraphMethodException" "Missing Permission" eq_refl eq_refl)
      as (_ & Hcase & _).
    apply Hcase; reflexivity.
  - destruct (map_meta_api_error_cases 400 other) as (_ & _ & H & _).
    destruct (H "GraphMethodException" "Unsupported post request"
                eq_refl eq_refl) as (_ & _ & Hcase).
    apply Hcase; reflexivity.
  - destruct (map_meta_api_error_cases 503 JNull) as (_ & _ & _ & H & _).
    apply H. lia.
  - destruct (map_meta_api_error_cases 404 JNull) as (_ & _ & _ & _ & H).
    apply H; lia.
Defined.

(** ** config.py and the adapter factory *)

Lemma get_platform_token_truthy (s : Settings) (platform token : string) :
  get_platform_token s platform = Some token -> Py.truthy_str token = true.
Proof.
  unfold get_platform_token.
  destruct (find _ _) as [[k v]|]; [|discriminate].
  destruct (Py.truthy_str v) eqn:E; [|discriminate].
  now intros [= <-].
Qed.

Lemma get_platform_token_unknown (s : Settings) (platform : string) :
  platform <> "facebook" -> platform <> "instagram" -> platform <> "whatsapp" ->
  get_platform_token s platform = None.
Proof.
  intros Hf Hi Hw. unfold get_platform_token. cbn [find fst].
  destruct (String.eqb_spec "facebook" platform); [congruence|].
  destruct (String.eqb_spec "instagram" platform); [congruence|].
  destruct (String.eqb_spec "whatsapp" platform); [congruence|].
  reflexivity.
Qed.

(** A platform's configuration is incomplete exactly when it has no token,
    or it is whatsapp without a phone-number identifier. *)
Lemma validate_platform_config_false (s : Settings) (platform : string) :
  validate_platform_config s platform = false <->
  demo_mode s = false /\
  (get_platform_token s platform = None \/
   (platform = "whatsapp" /\ whatsapp_phone_number_id s = "")).
Proof.
  unfold validate_platform_config.
  destruct (demo_mode s); [intuition discriminate|].
  destruct (get_platform_token s platform) as [token|] eqn:Et; cbn.
  - rewrite (get_platform_token_truthy _ _ _ Et). cbn.
    destruct (String.eqb_spec platform "whatsapp") as [->|Hne]; cbn.
    + destruct (whatsapp_phone_number_id s); cbn; intuition discriminate.
    + intuition (discriminate || congruence).
  - intuition.
Qed.

(** In demo mode the factory hands out the Mock adapter, whatever the
    platform name and whatever credentials are configured. *)
Lemma get_adapter_demo (c : MetaClient) (platform : string) :
  demo_mode (settings c) = true ->
  get_adapter c platform = Ok (Mock (MockPlatformAdapter.init "demo" platform)).
Proof. intros H. unfold get_adapter. now rewrite H. Qed.

(** Outside demo mode an incomplete configuration is an authentication
    error. *)
Lemma get_adapter_incomplete (c : MetaClient) (platform : string) :
  demo_mode (settings c) = false ->
  validate_platform_config (settings c) platform = false ->
  get_adapter c platform =
  Raise (MetaMCPError AUTH_FAILED
           ("Platform '" +++ platform +++ "' is not configured. "
              +++ "Please provide the required access token in .env file.")).
Proof. intros Hd Hv. unfold get_adapter. now rewrite Hd, Hv. Qed.

(** The branch that raises INVALID_PLATFORM cannot be reached: a name that
    is none of the three has no token, and that is reported first. *)
Lemma get_adapter_never_invalid_platform (c : MetaClient) (platform text : string) :
  get_adapter c platform <> Raise (MetaMCPError INVALID_PLATFORM text).
Proof.
  unfold get_adapter.
  destruct (demo_mode (settings c)) eqn:Hd; [discriminate|].
  destruct (validate_platform_config (settings c) platform) eqn:Hv; cbn;
    [|discriminate].
  destruct (get_platform_token (settings c) platform) as [token|] eqn:Et;
    cbn; [|discriminate].
  rewrite (get_platform_token_truthy _ _ _ Et).
  destruct (String.eqb_spec platform "facebook"); [discriminate|].
  destruct (String.eqb_spec platform "instagram"); [discriminate|].
  destruct (String.eqb_spec platform "whatsapp"); [discriminate|].
  now rewrite get_platform_token_unknown in Et.
Qed.

(** C2.  What the factory does with a platform name that is none of
    facebook / instagram / whatsapp when demo mode is off: it reports an
    authentication error, whatever is configured, and not INVALID_PLATFORM. *)
Theorem get_adapter_unknown_platform (c : MetaClient) (platform : string) :
  demo_mode (settings c) = false ->
  platform <> "facebook" -> platform <> "instagram" -> platform <> "whatsapp" ->
  get_adapter c platform =
  Raise (MetaMCPError AUTH_FAILED
           ("Platform '" +++ platform +++ "' is not configured. "
              +++ "Please provide the required access token in .env file.")).
Proof.
  intros Hd Hf Hi Hw. apply get_adapter_incomplete; [assumption|].
  apply validate_platform_config_false. split; [assumption|].
  left. now apply get_platform_token_unknown.
Qed.

Lemma get_adapter_unknown_platform_witness :
  get_adapter
    (MetaClient_init (mkSettings "app" "secret" "fb-token" "ig-token"
                        "wa-token" "12345" "v21.0" "INFO" false))
    "twitter" =
  Raise (MetaMCPError AUTH_FAILED
           "Platform 'twitter' is not configured. Please provide the required access token in .env file.").
Proof.
  apply (get_adapter_unknown_platform
           (MetaClient_init (mkSettings "app" "secret" "fb-token" "ig-token"
                               "wa-token" "12345" "v21.0" "INFO" false))
           "twitter"); [reflexivity | discriminate | discriminate | discriminate].
Defined.

(** ** adapters/whatsapp.py *)

(** C3.  The WhatsApp adapter's get_messages, post_content and get_analytics
    fail with PLATFORM_NOT_SUPPORTED on every input, in every environment,
    and leave the trace as it was: no request is issued. *)
Theorem whatsapp_unsupported_operations
    (self : WhatsAppAdapter.t)
    (conversation_id recipient_id content target_id : option string)
    (limit : Z) (media_urls : option (list string)) (metric period : string)
    (env : Env) (t : Trace) :
  get_messages (WhatsApp self) conversation_id recipient_id limit env t =
    (Raise (MetaMCPError PLATFORM_NOT_SUPPORTED
              "Operation 'get_messages' is not supported on platform 'whatsapp'"),
     t) /\
  post_content (WhatsApp self) content media_urls target_id env t =
    (Raise (MetaMCPError PLATFORM_NOT_SUPPORTED
              "Operation 'post_content' is not supported on platform 'whatsapp'"),
     t) /\
  get_analytics (WhatsApp self) metric period env t =
    (Raise (MetaMCPError PLATFORM_NOT_SUPPORTED
              "Operation 'get_analytics' is not supported on platform 'whatsapp'"),
     t).
Proof. repeat split. Qed.

(** ** Running an adapter call *)

Ltac unfold_m :=
  unfold except_HTTPStatusError, except_MetaMCPError, raise_mapped,
    httpx.post, httpx.get, httpx.send, httpx.raise_for_status,
    bind, ret, raise, lift, ask, sleep in *.

Lemma raise_mapped_run {A : Type} (rq : HttpRequest) (st : Z)
    (b : option json) (env : Env) (t : Trace) :
  @raise_mapped A rq st b env t = (mapped_failure env rq st b, t).
Proof.
  unfold mapped_failure. unfold_m.
  destruct (httpx.json_of b); cbn; [|reflexivity].
  now destruct (map_meta_api_error st a).
Qed.

(** One call of the Facebook [send_message]: exactly one request goes out;
    a 2xx answer is read for its [message_id], any other answer is mapped
    to an error kind. *)
Lemma facebook_send_message_run (self : FacebookAdapter.t)
    (recipient_id content : string) (media_url : option string)
    (env : Env) (t : Trace) :
  let rq := facebook_send_request self recipient_id content media_url in
  FacebookAdapter.send_message self recipient_id content media_url env t =
  (match host env t rq with
   | NoAnswer => Raise (PyExn TransportError)
   | Answer st b =>
       if httpx.is_success st then
         data <-? httpx.json_of b ;;
         message_id <-? py_get data "message_id" JNull ;;
         Ok (JObj [("message_id", message_id)])
       else mapped_failure env rq st b
   end, t ++ [EvHttp rq]).
Proof.
  intros rq. unfold FacebookAdapter.send_message. unfold_m.
  fold (token_post (FacebookAdapter.base_url self +++ "/me/messages")
          (FacebookAdapter.access_token self)
          (FacebookAdapter.message_payload recipient_id content media_url)).
  fold (facebook_send_request self recipient_id content media_url). fold rq.
  destruct (host env t rq) as [st b|]; [|reflexivity]. cbn.
  destruct (httpx.is_success st).
  - destruct b as [data|]; cbn; [|reflexivity].
    now destruct data.
  - apply (raise_mapped_run (A := json)).
Qed.

Lemma instagram_send_message_run (self : InstagramAdapter.t)
    (recipient_id content : string) (media_url : option string)
    (env : Env) (t : Trace) :
  let rq := instagram_send_request self recipient_id content media_url in
  InstagramAdapter.send_message self recipient_id content media_url env t =
  (match host env t rq with
   | NoAnswer => Raise (PyExn TransportError)
   | Answer st b =>
       if httpx.is_success st then
         data <-? httpx.json_of b ;;
         message_id <-? py_get data "message_id" JNull ;;
         Ok (JObj [("message_id", message_id)])
       else mapped_failure env rq st b
   end, t ++ [EvHttp rq]).
Proof.
  intros rq. unfold InstagramAdapter.send_message. unfold_m.
  fold (token_post (InstagramAdapter.base_url self +++ "/me/messages")
          (InstagramAdapter.access_token self)
          (InstagramAdapter.message_payload recipient_id content media_url)).
  fold (instagram_send_request self recipient_id content media_url). fold rq.
  destruct (host env t rq) as [st b|]; [|reflexivity]. cbn.
  destruct (httpx.is_success st).
  - destruct b as [data|]; cbn; [|reflexivity].
    now destruct data.
  - apply (raise_mapped_run (A := json)).
Qed.

(** The exceptions of [first_message_id] are Python's own. *)
Lemma first_message_id_exn (messages : json) (e : Exn) :
  WhatsAppAdapter.first_message_id messages = Raise e -> exists p, e = PyExn p.
Proof.
  unfold WhatsAppAdapter.first_message_id.
  destruct (py_truthy messages); [|discriminate].
  destruct messages as [| | | |s|items|fields]; cbn;
    try (intros [= <-]; eauto; fail).
  - destruct s; cbn; intros [= <-]; eauto.
  - destruct items as [|first rest]; cbn; [intros [= <-]; eauto|].
    destruct first; cbn; try (intros [= <-]; eauto; fail).
    destruct (Dict.find "id" fields); [discriminate | intros [= <-]; eauto].
Qed.

Lemma whatsapp_send_message_run (self : WhatsAppAdapter.t)
    (recipient_id content : string) (media_url : option string)
    (env : Env) (t : Trace) :
  let rq := whatsapp_send_request self recipient_id content media_url in
  WhatsAppAdapter.send_message self recipient_id content media_url env t =
  (match host env t rq with
   | NoAnswer => Raise (PyExn TransportError)
   | Answer st b =>
       if httpx.is_success st then
         data <-? httpx.json_of b ;;
         messages <-? py_get data "messages" (JArr []) ;;
         message_id <-? WhatsAppAdapter.first_message_id messages ;;
         Ok (JObj [("message_id", message_id)])
       else mapped_failure env rq st b
   end, t ++ [EvHttp rq]).
Proof.
  intros rq. unfold WhatsAppAdapter.send_message. unfold_m.
  fold (token_post (WhatsAppAdapter.base_url self +++ "/"
                      +++ WhatsAppAdapter.phone_number_id self +++ "/messages")
          (WhatsAppAdapter.access_token self)
          (WhatsAppAdapter.message_payload recipient_id content media_url)).
  fold (whatsapp_send_request self recipient_id content media_url). fold rq.
  destruct (host env t rq) as [st b|]; [|reflexivity]. cbn.
  destruct (httpx.is_success st).
  - destruct b as [data|]; cbn; [|reflexivity].
    destruct data; cbn; try reflexivity.
    destruct (WhatsAppAdapter.first_message_id _) as [id|e] eqn:E; cbn;
      [reflexivity|].
    now destruct (first_message_id_exn _ _ E) as [p ->].
  - apply (raise_mapped_run (A := json)).
Qed.

Lemma is_success_iff (st : Z) :
  httpx.is_success st = true <-> 200 <= st <= 299.
Proof. unfold httpx.is_success. rewrite andb_true_iff, !Z.leb_le. tauto. Qed.

(** ** Message bodies of the Facebook and Instagram adapters *)

(** C6.  [send_message] issues exactly the request built from
    [message_payload].  With a media URL and a non-empty text the Facebook
    message body holds the image attachment and the text, the Instagram
    message body the image attachment alone; without a media URL both hold
    the text alone. *)
Theorem send_message_media_and_text
    (fb : FacebookAdapter.t) (ig : InstagramAdapter.t)
    (recipient_id content : string) (media_url : option string)
    (env : Env) (t : Trace) :
  let fb_rq := facebook_send_request fb recipient_id content media_url in
  let ig_rq := instagram_send_request ig recipient_id content media_url in
  snd (send_message (Facebook fb) recipient_id content media_url env t)
    = t ++ [EvHttp fb_rq] /\
  snd (send_message (Instagram ig) recipient_id content media_url env t)
    = t ++ [EvHttp ig_rq] /\
  (forall url,
     media_url = Some url -> url <> "" -> content <> "" ->
     req_json fb_rq =
       Some (JObj [("recipient", JObj [("id", JStr recipient_id)]);
                   ("message",
                    JObj [("attachment",
                           JObj [("type", JStr "image");
                                 ("payload",
                                  JObj [("url", JStr url);
                                        ("is_reusable", JBool true)])]);
                          ("text", JStr content)])]) /\
     req_json ig_rq =
       Some (JObj [("recipient", JObj [("id", JStr recipient_id)]);
                   ("message",
                    JObj [("attachment",
                           JObj [("type", JStr "image");
                                 ("payload", JObj [("url", JStr url)])])])])) /\
  (Py.truthy_opt media_url = false ->
     req_json fb_rq =
       Some (JObj [("recipient", JObj [("id", JStr recipient_id)]);
                   ("message", JObj [("text", JStr content)])]) /\
     req_json ig_rq =
       Some (JObj [("recipient", JObj [("id", JStr recipient_id)]);
                   ("message", JObj [("text", JStr content)])])).
Proof.
  intros fb_rq ig_rq. repeat apply conj.
  - cbn [send_message Base_adapter dispatch Facebook_adapter].
    now rewrite facebook_send_message_run.
  - cbn [send_message Base_adapter dispatch Instagram_adapter].
    now rewrite instagram_send_message_run.
  - intros url -> Hu Hc. subst fb_rq ig_rq.
    destruct url as [|u url]; [contradiction|].
    destruct content as [|c content]; [contradiction|].
    split; reflexivity.
  - intros Hm. subst fb_rq ig_rq.
    destruct media_url as [[|u url]|]; [| discriminate |]; split; reflexivity.
Qed.

Lemma send_message_media_and_text_witness :
  let fb := FacebookAdapter.init "token" "v21.0" in
  let ig := InstagramAdapter.init "token" "v21.0" in
  let url := "https://example.com/a.jpg" in
  (req_json (facebook_send_request fb "psid-1" "look" (Some url)) =
     Some (JObj [("recipient", JObj [("id", JStr "psid-1")]);
                 ("message",
                  JObj [("attachment",
                         JObj [("type", JStr "image");
                               ("payload",
                                JObj [("url", JStr url);
                                      ("is_reusable", JBool true)])]);
                        ("text", JStr "look")])]) /\
   req_json (instagram_send_request ig "psid-1" "look" (Some url)) =
     Some (JObj [("recipient", JObj [("id", JStr "psid-1")]);
                 ("message",
                  JObj [("attachment",
                         JObj [("type", JStr "image");
                               ("payload", JObj [("url", JStr url)])])])])) /\
  (req_json (facebook_send_request fb "psid-1" "look" None) =
     Some (JObj [("recipient", JObj [("id", JStr "psid-1")]);
                 ("message", JObj [("text", JStr "look")])]) /\
   req_json (instagram_send_request ig "psid-1" "look" None) =
     Some (JObj [("recipient", JObj [("id", JStr "psid-1")]);
                 ("message", JObj [("text", JStr "look")])])).
Proof.
  intros fb ig url. split.
  - destruct (send_message_media_and_text fb ig "psid-1" "look" (Some url)
                (stub_env []) []) as (_ & _ & H & _).
    apply (H url); [reflexivity | discriminate | discriminate].
  - destruct (send_message_media_and_text fb ig "psid-1" "look" None
                (stub_env []) []) as (_ & _ & _ & H).
    apply H. reflexivity.
Defined.

(** C10.  On a 2xx answer whose body is a JSON object, the Facebook and the
    Instagram [send_message] succeed and return the body's [message_id]
    entry as it is; when the body has no such entry the returned
    [message_id] is null: no error, and no placeholder string. *)
Theorem send_message_message_id_as_is
    (fb : FacebookAdapter.t) (ig : InstagramAdapter.t)
    (recipient_id content : string) (media_url : option string)
    (env : Env) (t : Trace) (st : Z) (fields : list (string * json)) :
  let fb_rq := facebook_send_request fb recipient_id content media_url in
  let ig_rq := instagram_send_request ig recipient_id content media_url in
  let returned :=
    match Dict.find "message_id" fields with
    | Some v => v
    | None => JNull
    end in
  200 <= st <= 299 ->
  (host env t fb_rq = Answer st (Some (JObj fields)) ->
   send_message (Facebook fb) recipient_id content media_url env t =
     (Ok (JObj [("message_id", returned)]), t ++ [EvHttp fb_rq])) /\
  (host env t ig_rq = Answer st (Some (JObj fields)) ->
   send_message (Instagram ig) recipient_id content media_url env t =
     (Ok (JObj [("message_id", returned)]), t ++ [EvHttp ig_rq])) /\
  (Dict.find "message_id" fields = None -> returned = JNull).
Proof.
  intros fb_rq ig_rq returned Hst. apply is_success_iff in Hst.
  repeat apply conj.
  - intros Hh. cbn [send_message Base_adapter dispatch Facebook_adapter].
    rewrite facebook_send_message_run. fold fb_rq. now rewrite Hh, Hst.
  - intros Hh. cbn [send_message Base_adapter dispatch Instagram_adapter].
    rewrite instagram_send_message_run. fold ig_rq. now rewrite Hh, Hst.
  - intros Hf. subst returned. now rewrite Hf.
Qed.

Lemma send_message_message_id_as_is_witness :
  let fb := FacebookAdapter.init "token" "v21.0" in
  let ig := InstagramAdapter.init "token" "v21.0" in
  let env := stub_env [Answer 200 (Some (JObj []))] in
  send_message (Facebook fb) "psid-1" "hello" None env [] =
    (Ok (JObj [("message_id", JNull)]),
     [EvHttp (facebook_send_request fb "psid-1" "hello" None)]) /\
  send_message (Instagram ig) "psid-1" "hello" None env [] =
    (Ok (JObj [("message_id", JNull)]),
     [EvHttp (instagram_send_request ig "psid-1" "hello" None)]).
Proof.
  intros fb ig env.
  destruct (send_message_message_id_as_is fb ig "psid-1" "hello" None
              env [] 200 []) as (Hfb & Hig & _); [lia|].
  split; [apply Hfb | apply Hig]; reflexivity.
Defined.

(** ** adapters/whatsapp.py: [send_message] *)

(** C7.  The WhatsApp [send_message] issues exactly the request built from
    [message_payload].  With a media URL that payload has type "image", the
    link, and no "text" entry.  On a 2xx answer whose body is a JSON object
    the call returns the [id] of the first element of [messages], and the
    string "unknown" when [messages] is absent or empty. *)
Theorem whatsapp_send_message_payload_and_id
    (self : WhatsAppAdapter.t) (recipient_id content : string)
    (media_url : option string) (env : Env) (t : Trace)
    (st : Z) (fields : list (string * json)) :
  let rq := whatsapp_send_request self recipient_id content media_url in
  snd (send_message (WhatsApp self) recipient_id content media_url env t)
    = t ++ [EvHttp rq] /\
  (forall url,
     media_url = Some url -> url <> "" ->
     req_json rq =
       Some (JObj [("messaging_product", JStr "whatsapp");
                   ("to", JStr recipient_id);
                   ("type", JStr "image");
                   ("image", JObj [("link", JStr url)])]) /\
     Dict.find "text"
       (WhatsAppAdapter.message_payload recipient_id content media_url) = None) /\
  (200 <= st <= 299 ->
   host env t rq = Answer st (Some (JObj fields)) ->
   (forall first rest id,
      Dict.find "messages" fields = Some (JArr (JObj first :: rest)) ->
      Dict.find "id" first = Some id ->
      send_message (WhatsApp self) recipient_id content media_url env t =
        (Ok (JObj [("message_id", id)]), t ++ [EvHttp rq])) /\
   (Dict.find "messages" fields = None \/
    Dict.find "messages" fields = Some (JArr []) ->
    send_message (WhatsApp self) recipient_id content media_url env t =
      (Ok (JObj [("message_id", JStr "unknown")]), t ++ [EvHttp rq]))).
Proof.
  intros rq.
  cbn [send_message Base_adapter dispatch WhatsApp_adapter].
  rewrite whatsapp_send_message_run. fold rq.
  repeat apply conj.
  - reflexivity.
  - intros url -> Hu. subst rq.
    destruct url as [|u url]; [contradiction|]. split; reflexivity.
  - intros Hst Hh. apply is_success_iff in Hst. rewrite Hh, Hst. cbn.
    split.
    + intros first rest id Hm Hid. rewrite Hm. cbn. now rewrite Hid.
    + intros [Hm | Hm]; now rewrite Hm.
Qed.

Lemma whatsapp_send_message_payload_and_id_witness :
  let wa := WhatsAppAdapter.init "token" "12345" "v21.0" in
  let found := [("messages", JArr [JObj [("id", JStr "wamid.1")]])] in
  send_message (WhatsApp wa) "+380991234567" "hi" None
    (stub_env [Answer 200 (Some (JObj found))]) [] =
    (Ok (JObj [("message_id", JStr "wamid.1")]),
     [EvHttp (whatsapp_send_request wa "+380991234567" "hi" None)]) /\
  send_message (WhatsApp wa) "+380991234567" "hi" None
    (stub_env [Answer 200 (Some (JObj []))]) [] =
    (Ok (JObj [("message_id", JStr "unknown")]),
     [EvHttp (whatsapp_send_request wa "+380991234567" "hi" None)]) /\
  req_json (whatsapp_send_request wa "+380991234567" "hi"
              (Some "https://example.com/a.jpg")) =
    Some (JObj [("messaging_product", JStr "whatsapp");
                ("to", JStr "+380991234567");
                ("type", JStr "image");
                ("image", JObj [("link", JStr "https://example.com/a.jpg")])]).
Proof.
  intros wa found. repeat apply conj.
  - destruct (whatsapp_send_message_payload_and_id wa "+380991234567" "hi"
                None (stub_env [Answer 200 (Some (JObj found))]) [] 200 found)
      as (_ & _ & H).
    destruct H as (H & _); [lia | reflexivity |].
    apply (H [("id", JStr "wamid.1")] []); reflexivity.
  - destruct (whatsapp_send_message_payload_and_id wa "+380991234567" "hi"
                None (stub_env [Answer 200 (Some (JObj []))]) [] 200 [])
      as (_ & _ & H).
    destruct H as (_ & H); [lia | reflexivity |].
    apply H. now left.
  - destruct (whatsapp_send_message_payload_and_id wa "+380991234567" "hi"
                (Some "https://example.com/a.jpg") (stub_env []) [] 200 [])
      as (_ & H & _).
    apply (H "https://example.com/a.jpg"); [reflexivity | discriminate].
Defined.

(** An image goes out in place of the text, never beside it. *)
Example whatsapp_image_payload :
  WhatsAppAdapter.message_payload "+380991234567" "caption"
    (Some "https://example.com/a.jpg") =
  [("messaging_product", JStr "whatsapp");
   ("to", JStr "+380991234567");
   ("type", JStr "image");
   ("image", JObj [("link", JStr "https://example.com/a.jpg")])].
Proof. reflexivity. Qed.

(** ** adapters/mock.py *)

Lemma for_each_length {A B : Type} (xs : list A) (body : A -> M B)
    (env : Env) (t : Trace) :
  (forall x t', exists b, body x env t' = (Ok b, t')) ->
  exists bs,
    for_each xs body env t = (Ok bs, t) /\ List.length bs = List.length xs.
Proof.
  intros Hbody. induction xs as [|x xs IH]; cbn.
  - now exists [].
  - destruct (Hbody x t) as [b Hb]. destruct IH as (bs & Hbs & Hlen).
    exists (b :: bs). unfold bind, ret. rewrite Hb, Hbs. cbn. now rewrite Hlen.
Qed.

Lemma py_range_length (n : Z) : List.length (py_range n) = Z.to_nat n.
Proof. unfold py_range. now rewrite length_map, length_seq. Qed.

(** The mock history: one sleep, no request, and as many records as
    [range(min(limit, 3))] has elements. *)
Lemma mock_get_messages_run (self : MockPlatformAdapter.t)
    (conversation_id recipient_id : option string) (limit : Z)
    (env : Env) (t : Trace) :
  exists records,
    MockPlatformAdapter.get_messages self conversation_id recipient_id limit
      env t = (Ok (JArr records), t ++ [EvSleep (1 # 10)]) /\
    List.length records = Z.to_nat (Z.min limit 3).
Proof.
  destruct (for_each_length (py_range (Z.min limit 3))
              MockPlatformAdapter.mock_message env (t ++ [EvSleep (1 # 10)]))
    as (records & Hrun & Hlen).
  - intros i t'. eexists. reflexivity.
  - exists records. split.
    + unfold MockPlatformAdapter.get_messages, bind, sleep, ret.
      now rewrite Hrun.
    + now rewrite Hlen, py_range_length.
Qed.

(** C9.  For a limit that is not negative the Mock adapter's
    [get_messages] returns exactly [min(limit, 3)] records, whichever
    conversation or recipient is asked for; limit 5 gives 3 records and
    limit 1 gives 1.  (Over all integers the count is
    [max(0, min(limit, 3))]: a negative limit gives none.) *)
Theorem mock_get_messages_count (self : MockPlatformAdapter.t)
    (conversation_id recipient_id : option string) (limit : Z)
    (env : Env) (t : Trace) :
  (0 <= limit ->
   record_count
     (get_messages (Mock self) conversation_id recipient_id limit env t)
   = Some (Z.min limit 3)) /\
  record_count
    (get_messages (Mock self) conversation_id recipient_id limit env t)
  = Some (Z.max 0 (Z.min limit 3)) /\
  (forall conversation_id' recipient_id',
     get_messages (Mock self) conversation_id' recipient_id' limit env t =
     get_messages (Mock self) conversation_id recipient_id limit env t) /\
  record_count (get_messages (Mock self) conversation_id recipient_id 5 env t)
    = Some 3 /\
  record_count (get_messages (Mock self) conversation_id recipient_id 1 env t)
    = Some 1.
Proof.
  cbn [get_messages Base_adapter dispatch Mock_adapter].
  assert (Hcount : forall l,
            record_count
              (MockPlatformAdapter.get_messages self conversation_id
                 recipient_id l env t) = Some (Z.max 0 (Z.min l 3))).
  { intros l.
    destruct (mock_get_messages_run self conversation_id recipient_id l env t)
      as (records & Hrun & Hlen).
    unfold record_count. rewrite Hrun. cbn. f_equal. lia. }
  repeat apply conj.
  - intros Hl. rewrite Hcount. f_equal. lia.
  - apply Hcount.
  - reflexivity.
  - now rewrite Hcount.
  - now rewrite Hcount.
Qed.

Lemma mock_get_messages_count_witness :
  record_count
    (get_messages (Mock (MockPlatformAdapter.init "demo" "instagram"))
       (Some "conv-1") None 2 (stub_env []) [])
  = Some 2.
Proof.
  destruct (mock_get_messages_count
              (MockPlatformAdapter.init "demo" "instagram")
              (Some "conv-1") None 2 (stub_env []) []) as (H & _).
  apply H. lia.
Defined.

(** A negative limit gives no record at all. *)
Example mock_get_messages_negative_limit :
  fst (get_messages (Mock (MockPlatformAdapter.init "demo" "facebook"))
         None None (-1) (stub_env []) []) = Ok (JArr []).
Proof. reflexivity. Qed.

(** ** validators.py: the E.164 pattern *)






Lemma all_digits_app (a b : string) :
  all_digits (a +++ b) = all_digits a && all_digits b.
Proof.
  induction a as [|c a IH]; cbn; [reflexivity|].
  now rewrite IH, andb_assoc.
Qed.


(** ** server.py: [handle_send_message] on whatsapp *)

(** C8.  On platform whatsapp a recipient id that the E.164 pattern does
    not match makes [handle_send_message] answer with a VALIDATION_ERROR
    envelope, whatever the client's configuration and without any request:
    the adapter is not looked up.  A recipient id that the pattern matches
    passes the validation.  "380991234567" does not match and
    "+380991234567" does. *)
Theorem handle_send_message_whatsapp_recipient
    (client : MetaClient) (recipient_id content : string)
    (media_url : option string) (env : Env) (t : Trace) :
  (validate_e164_phone recipient_id = false ->
   handle_send_message client "whatsapp" recipient_id content media_url env t =
   (Ok (Failure
          (models.mkMetaError (code_name VALIDATION_ERROR)
             ("WhatsApp recipient_id must be in E.164 format (e.g., +380991234567), "
                +++ "got: " +++ recipient_id)
             (models.Known models.WHATSAPP) None (now_isoformat env t))),
    t)) /\
  (validate_e164_phone recipient_id = true ->
   validate_whatsapp_recipient recipient_id = Ok tt) /\
  validate_e164_phone "380991234567" = false /\
  validate_e164_phone "+380991234567" = true.
Proof.
  repeat apply conj; try reflexivity.
  - intros H. unfold handle_send_message, validate_whatsapp_recipient.
    rewrite H. reflexivity.
  - intros H. unfold validate_whatsapp_recipient. now rewrite H.
Qed.

Lemma handle_send_message_whatsapp_recipient_witness :
  handle_send_message (MetaClient_init default_settings) "whatsapp"
    "380991234567" "hi" None (stub_env []) [] =
  (Ok (Failure
         (models.mkMetaError "VALIDATION_ERROR"
            "WhatsApp recipient_id must be in E.164 format (e.g., +380991234567), got: 380991234567"
            (models.Known models.WHATSAPP) None "1970-01-01T00:00:00+00:00")),
   []) /\
  validate_whatsapp_recipient "+380991234567" = Ok tt.
Proof.
  split.
  - destruct (handle_send_message_whatsapp_recipient
                (MetaClient_init default_settings) "380991234567" "hi" None
                (stub_env []) []) as (H & _).
    apply H. reflexivity.
  - destruct (handle_send_message_whatsapp_recipient
                (MetaClient_init default_settings) "+380991234567" "hi" None
                (stub_env []) []) as (_ & H & _).
    apply H. reflexivity.
Defined.

(** With the same unconfigured client a well-formed recipient id gets as far
    as the adapter lookup, which is where the authentication error comes
    from. *)
Example handle_send_message_whatsapp_unconfigured :
  exists text stamp,
    handle_send_message (MetaClient_init default_settings) "whatsapp"
      "+380991234567" "hi" None (stub_env []) [] =
    (Ok (Failure (models.mkMetaError "AUTH_FAILED" text
                    (models.Known models.WHATSAPP) None stamp)), []).
Proof. do 2 eexists. reflexivity. Qed.

(** ** Instagram posts need media: the adapter and the validator *)

(** The adapter's test reads: no list, an empty list, or an empty first
    URL. *)
Lemma no_media_iff (media_urls : option (list string)) :
  InstagramAdapter.no_media media_urls = true <->
  media_urls = None \/ media_urls = Some [] \/
  exists rest, media_urls = Some ("" :: rest).
Proof.
  unfold InstagramAdapter.no_media.
  destruct media_urls as [[|u us]|]; cbn.
  - intuition.
  - destruct u; cbn.
    + split; [intros _; right; right; now exists us | reflexivity].
    + split; [discriminate|].
      intros [H | [H | [rest H]]]; discriminate.
  - intuition.
Qed.

(** The validator's test reads: no list, or an empty list. *)
Lemma truthy_list_false_iff {A : Type} (xs : option (list A)) :
  Py.truthy_list xs = false <-> xs = None \/ xs = Some [].
Proof.
  destruct xs as [[|x xs]|]; cbn; intuition discriminate.
Qed.

Lemma instagram_post_content_no_media (self : InstagramAdapter.t)
    (content : option string) (media_urls : option (list string))
    (target_id : option string) (env : Env) (t : Trace) :
  InstagramAdapter.no_media media_urls = true ->
  InstagramAdapter.post_content self content media_urls target_id env t =
  (Raise (MetaMCPError MISSING_CONTENT "Instagram posts require media_urls"), t).
Proof.
  intros H. unfold InstagramAdapter.post_content. now rewrite H.
Qed.

Lemma validate_post_content_instagram_no_media
    (content : option string) (media_urls : option (list string))
    (env : Env) (t : Trace) :
  Py.truthy_list media_urls = false ->
  validate_post_content_request "instagram" content media_urls env t =
  (Raise (MetaMCPError VALIDATION_ERROR
            (if Py.truthy_opt content
             then "Instagram posts require media_urls (text-only posts not supported)"
             else "At least one of content or media_urls must be provided")),
   t).
Proof.
  intros H. unfold validate_post_content_request. rewrite H.
  now destruct (Py.truthy_opt content).
Qed.

(** C5, as stated, fails: on a text-only Instagram post the validator and
    the adapter both refuse, but not with the same outcome: the validator
    raises VALIDATION_ERROR, the adapter MISSING_CONTENT. *)
Lemma instagram_text_only_outcomes_differ :
  exists from_validator from_adapter,
    fst (validate_post_content_request "instagram" (Some "Text only") None
           (stub_env []) []) = Raise from_validator /\
    fst (post_content (Instagram (InstagramAdapter.init "token" "v21.0"))
           (Some "Text only") None None (stub_env []) []) = Raise from_adapter /\
    from_validator =
      MetaMCPError VALIDATION_ERROR
        "Instagram posts require media_urls (text-only posts not supported)" /\
    from_adapter =
      MetaMCPError MISSING_CONTENT "Instagram posts require media_urls" /\
    from_validator <> from_adapter.
Proof.
  do 2 eexists. repeat apply conj; try reflexivity. discriminate.
Qed.

(** C5, amended.  The Instagram [post_content] with no media URL (no list,
    an empty list, or an empty first URL) fails with MISSING_CONTENT and
    issues no request.  The validator repeats the test for platform
    instagram on a missing or empty list, and whatever it refuses for that
    reason the adapter refuses too; the validator reports VALIDATION_ERROR
    where the adapter reports MISSING_CONTENT. *)
Theorem instagram_post_requires_media (self : InstagramAdapter.t)
    (content : option string) (media_urls : option (list string))
    (target_id : option string) (env : Env) (t : Trace) :
  (media_urls = None \/ media_urls = Some [] \/
   (exists rest, media_urls = Some ("" :: rest)) ->
   post_content (Instagram self) content media_urls target_id env t =
   (Raise (MetaMCPError MISSING_CONTENT "Instagram posts require media_urls"),
    t)) /\
  (media_urls = None \/ media_urls = Some [] ->
   (exists text,
      validate_post_content_request "instagram" content media_urls env t =
      (Raise (MetaMCPError VALIDATION_ERROR text), t)) /\
   post_content (Instagram self) content media_urls target_id env t =
   (Raise (MetaMCPError MISSING_CONTENT "Instagram posts require media_urls"),
    t)).
Proof.
  cbn [post_content Base_adapter dispatch Instagram_adapter]. split.
  - intros H. apply instagram_post_content_no_media. now apply no_media_iff.
  - intros H. split.
    + eexists. apply validate_post_content_instagram_no_media.
      now apply truthy_list_false_iff.
    + apply instagram_post_content_no_media. apply no_media_iff. tauto.
Qed.

Lemma instagram_post_requires_media_witness :
  let ig := InstagramAdapter.init "token" "v21.0" in
  post_content (Instagram ig) (Some "Text only") (Some [""; "x"]) None
    (stub_env []) [] =
  (Raise (MetaMCPError MISSING_CONTENT "Instagram posts require media_urls"),
   []) /\
  (exists text,
     validate_post_content_request "instagram" (Some "Text only") (Some [])
       (stub_env []) [] =
     (Raise (MetaMCPError VALIDATION_ERROR text), [])) /\
  post_content (Instagram ig) (Some "Text only") (Some []) None
    (stub_env []) [] =
  (Raise (MetaMCPError MISSING_CONTENT "Instagram posts require media_urls"),
   []).
Proof.
  intros ig. split.
  - destruct (instagram_post_requires_media ig (Some "Text only")
                (Some [""; "x"]) None (stub_env []) []) as (H & _).
    apply H. right. right. now exists ["x"].
  - destruct (instagram_post_requires_media ig (Some "Text only")
                (Some []) None (stub_env []) []) as (_ & H).
    apply H. now right.
Defined.

(** ** How many requests a call can issue *)

Section RequestBounds.

Context {A B : Type}.

Lemma requests_app (t1 t2 : Trace) :
  requests (t1 ++ t2) = requests t1 ++ requests t2.
Proof. unfold requests. apply flat_map_app. Qed.

Lemma ram_weaken (n k : nat) (m : M A) :
  (n <= k)%nat -> requests_at_most n m -> requests_at_most k m.
Proof.
  intros Hle H env t. destruct (H env t) as (evs & Ht & Hn).
  exists evs. split; [assumption | lia].
Qed.

Lemma ram_ret (n : nat) (a : A) : requests_at_most n (ret a).
Proof. intros env t. exists []. cbn. rewrite app_nil_r. split; [auto | lia]. Qed.

Lemma ram_raise (n : nat) (e : Exn) : requests_at_most n (@raise A e).
Proof. intros env t. exists []. cbn. rewrite app_nil_r. split; [auto | lia]. Qed.

Lemma ram_lift (n : nat) (o : Outcome A) : requests_at_most n (lift o).
Proof. intros env t. exists []. cbn. rewrite app_nil_r. split; [auto | lia]. Qed.

Lemma ram_ask (n : nat) (f : Env -> Trace -> A) : requests_at_most n (ask f).
Proof. intros env t. exists []. cbn. rewrite app_nil_r. split; [auto | lia]. Qed.

Lemma ram_bind (n k : nat) (m : M A) (f : A -> M B) :
  requests_at_most n m -> (forall a, requests_at_most k (f a)) ->
  requests_at_most (n + k) (bind m f).
Proof.
  intros Hm Hf env t. unfold bind.
  destruct (Hm env t) as (evs & Ht & Hn).
  destruct (m env t) as [[a|e] t']; cbn in Ht; subst t'.
  - destruct (Hf a env (t ++ evs)) as (evs' & Ht' & Hn').
    exists (evs ++ evs'). rewrite Ht', app_assoc. split; [reflexivity|].
    rewrite requests_app, length_app. lia.
  - exists evs. cbn. split; [reflexivity | lia].
Qed.

End RequestBounds.

Lemma ram_sleep (n : nat) (seconds : Q) : requests_at_most n (sleep seconds).
Proof. intros env t. exists [EvSleep seconds]. cbn. split; [auto | lia]. Qed.

Lemma ram_send (n : nat) (rq : HttpRequest) :
  requests_at_most (S n) (httpx.send rq).
Proof.
  intros env t. exists [EvHttp rq]. unfold httpx.send.
  destruct (host env t rq); cbn; (split; [reflexivity | lia]).
Qed.

Lemma ram_raise_mapped {A : Type} (n : nat) (rq : HttpRequest) (st : Z)
    (b : option json) :
  requests_at_most n (@raise_mapped A rq st b).
Proof.
  intros env t. exists []. rewrite raise_mapped_run. cbn.
  rewrite app_nil_r. split; [auto | lia].
Qed.

Lemma ram_except_status {A : Type} (n : nat) (body : M A) :
  requests_at_most n body ->
  requests_at_most n (except_HTTPStatusError body raise_mapped).
Proof.
  intros Hb env t. unfold except_HTTPStatusError.
  destruct (Hb env t) as (evs & Ht & Hn).
  destruct (body env t) as [[a|[code text|rq st b|p]] t']; cbn in Ht; subst t';
    try (exists evs; cbn; split; [reflexivity | assumption]).
  rewrite raise_mapped_run. exists evs. cbn. split; [reflexivity | assumption].
Qed.

Lemma ram_except_meta {A : Type} (n : nat) (body : M A)
    (handler : ErrorCode -> string -> M A) :
  requests_at_most n body ->
  (forall code text, requests_at_most 0 (handler code text)) ->
  requests_at_most n (except_MetaMCPError body handler).
Proof.
  intros Hb Hh env t. unfold except_MetaMCPError.
  destruct (Hb env t) as (evs & Ht & Hn).
  destruct (body env t) as [[a|[code text|rq st b|p]] t']; cbn in Ht; subst t';
    try (exists evs; cbn; split; [reflexivity | assumption]).
  destruct (Hh code text env (t ++ evs)) as (evs' & Ht' & Hn').
  exists (evs ++ evs'). rewrite Ht', app_assoc. split; [reflexivity|].
  rewrite requests_app, length_app. lia.
Qed.

(** The shape every real adapter call has: one request, then pure work on
    the answer. *)
Lemma ram_one_call {A : Type} (rq : HttpRequest) (k : httpx.Response -> M A) :
  (forall response, requests_at_most 0 (k response)) ->
  requests_at_most 1 (except_HTTPStatusError (bind (httpx.send rq) k) raise_mapped).
Proof.
  intros Hk. apply ram_except_status.
  apply (ram_bind 1 0); [apply ram_send | apply Hk].
Qed.

Create HintDb ram discriminated.
#[local] Hint Resolve ram_ret ram_raise ram_lift ram_ask ram_sleep
  ram_raise_mapped : ram.

Lemma ram_raise_for_status (n : nat) (r : httpx.Response) :
  requests_at_most n (httpx.raise_for_status r).
Proof.
  unfold httpx.raise_for_status. destruct (httpx.is_success _); auto with ram.
Qed.
#[local] Hint Resolve ram_raise_for_status : ram.

(** Pure work after a response: any chain of binds over steps that issue
    nothing. *)
Ltac ram_pure :=
  repeat first
    [ progress auto with ram
    | apply (ram_bind 0 0); [| intro ] ].

Lemma for_each_requests {A B : Type} (xs : list A) (body : A -> M B) :
  (forall x, requests_at_most 0 (body x)) ->
  requests_at_most 0 (for_each xs body).
Proof.
  intros Hb. induction xs as [|x xs IH]; cbn [for_each]; ram_pure.
Qed.

Lemma send_message_requests (a : BasePlatformAdapter)
    (recipient_id content : string) (media_url : option string) :
  requests_at_most 1 (send_message a recipient_id content media_url).
Proof.
  destruct a as [fb|ig|wa|mock];
    cbn [send_message Base_adapter dispatch Facebook_adapter
           Instagram_adapter WhatsApp_adapter Mock_adapter].
  - unfold FacebookAdapter.send_message, httpx.post.
    apply ram_one_call. intro. ram_pure.
  - unfold InstagramAdapter.send_message, httpx.post.
    apply ram_one_call. intro. ram_pure.
  - unfold WhatsAppAdapter.send_message, httpx.post.
    apply ram_one_call. intro. ram_pure.
  - unfold MockPlatformAdapter.send_message.
    apply (ram_weaken 0 1); [lia|]. ram_pure.
Qed.

Lemma get_messages_requests (a : BasePlatformAdapter)
    (conversation_id recipient_id : option string) (limit : Z) :
  requests_at_most 1 (get_messages a conversation_id recipient_id limit).
Proof.
  destruct a as [fb|ig|wa|mock];
    cbn [get_messages Base_adapter dispatch Facebook_adapter
           Instagram_adapter WhatsApp_adapter Mock_adapter].
  - unfold FacebookAdapter.get_messages, Py.if_truthy, httpx.get.
    destruct conversation_id as [[|c s]|]; cbn [Py.truthy_str]; auto with ram.
    apply ram_one_call. intro. ram_pure.
  - unfold InstagramAdapter.get_messages, Py.if_truthy, httpx.get.
    destruct conversation_id as [[|c s]|]; cbn [Py.truthy_str]; auto with ram.
    apply ram_one_call. intro. ram_pure.
  - unfold WhatsAppAdapter.get_messages. auto with ram.
  - unfold MockPlatformAdapter.get_messages.
    apply (ram_weaken 0 1); [lia|]. ram_pure.
    apply for_each_requests. intro. unfold MockPlatformAdapter.mock_message.
    ram_pure.
Qed.

Lemma get_analytics_requests (a : BasePlatformAdapter) (metric period : string) :
  requests_at_most 1 (get_analytics a metric period).
Proof.
  destruct a as [fb|ig|wa|mock];
    cbn [get_analytics Base_adapter dispatch Facebook_adapter
           Instagram_adapter WhatsApp_adapter Mock_adapter].
  - unfold FacebookAdapter.get_analytics, httpx.get.
    apply ram_one_call. intro. ram_pure.
  - unfold InstagramAdapter.get_analytics, httpx.get.
    apply ram_one_call. intro. ram_pure.
  - unfold WhatsAppAdapter.get_analytics. auto with ram.
  - unfold MockPlatformAdapter.get_analytics.
    apply (ram_weaken 0 1); [lia|]. ram_pure.
Qed.

(** Posting takes one request, except on Instagram, where the container is
    created first and published second. *)
Lemma post_content_requests (a : BasePlatformAdapter) (content : option string)
    (media_urls : option (list string)) (target_id : option string) :
  requests_at_most 2 (post_content a content media_urls target_id).
Proof.
  destruct a as [fb|ig|wa|mock];
    cbn [post_content Base_adapter dispatch Facebook_adapter
           Instagram_adapter WhatsApp_adapter Mock_adapter].
  - unfold FacebookAdapter.post_content, httpx.post.
    apply (ram_weaken 1 2); [lia|]. apply ram_one_call. intro. ram_pure.
  - unfold InstagramAdapter.post_content, httpx.post.
    destruct (InstagramAdapter.no_media media_urls); auto with ram.
    apply ram_except_status.
    apply (ram_bind 1 1); [apply ram_send | intro].
    apply (ram_bind 0 1); [auto with ram | intro].
    apply (ram_bind 0 1); [auto with ram | intro].
    apply (ram_bind 0 1); [auto with ram | intro].
    apply (ram_bind 1 0); [apply ram_send | intro]. ram_pure.
  - unfold WhatsAppAdapter.post_content. auto with ram.
  - unfold MockPlatformAdapter.post_content.
    apply (ram_weaken 0 2); [lia|]. ram_pure.
Qed.

(** ** server.py: no handler issues more than its adapter call *)

Lemma ram_new_response (platform : string) (data : json) (message : string) :
  requests_at_most 0 (models.new_response platform data message).
Proof.
  unfold models.new_response.
  destruct (models.Platform_of platform); [|auto with ram].
  destruct (models.valid_data data); ram_pure.
Qed.

Lemma ram_error_envelope (platform : string) (code : ErrorCode) (text : string) :
  requests_at_most 0 (error_envelope platform code text).
Proof.
  unfold error_envelope, models.new_error.
  apply (ram_bind 0 0); [|intro; auto with ram].
  destruct (models.PlatformOrUnknown_of platform); ram_pure.
Qed.
#[local] Hint Resolve ram_new_response ram_error_envelope : ram.

Lemma ram_validate_url (url : string) : requests_at_most 0 (validate_url url).
Proof.
  unfold validate_url. apply (ram_bind 0 0); [auto with ram | intro parsed].
  destruct (validate_url_try parsed url); auto with ram.
Qed.

Lemma ram_validate_post_content (platform : string) (content : option string)
    (media_urls : option (list string)) :
  requests_at_most 0 (validate_post_content_request platform content media_urls).
Proof.
  unfold validate_post_content_request.
  destruct (_ && _); [auto with ram|].
  destruct (_ && _); [auto with ram|].
  destruct media_urls as [[|u us]|]; auto with ram.
  apply (ram_bind 0 0); [|intro; auto with ram].
  apply for_each_requests. apply ram_validate_url.
Qed.

Lemma handle_send_message_requests (client : MetaClient)
    (platform recipient_id content : string) (media_url : option string) :
  requests_at_most 1
    (handle_send_message client platform recipient_id content media_url).
Proof.
  unfold handle_send_message. apply ram_except_meta; [|auto with ram].
  apply (ram_bind 0 1); [destruct (String.eqb _ _); auto with ram | intro].
  apply (ram_bind 0 1); [auto with ram | intro adapter].
  apply (ram_bind 1 0); [apply send_message_requests | intro]. ram_pure.
Qed.

Lemma handle_get_messages_requests (client : MetaClient) (platform : string)
    (conversation_id recipient_id : option string) (limit : Z) :
  requests_at_most 1
    (handle_get_messages client platform conversation_id recipient_id limit).
Proof.
  unfold handle_get_messages. apply ram_except_meta; [|auto with ram].
  apply (ram_bind 0 1); [auto with ram | intro].
  apply (ram_bind 0 1); [auto with ram | intro adapter].
  apply (ram_bind 1 0); [apply get_messages_requests | intro]. ram_pure.
Qed.

Lemma handle_post_content_requests (client : MetaClient) (platform : string)
    (content : option string) (media_urls : option (list string))
    (target_id : option string) :
  requests_at_most 2
    (handle_post_content client platform content media_urls target_id).
Proof.
  unfold handle_post_content. apply ram_except_meta; [|auto with ram].
  apply (ram_bind 0 2); [apply ram_validate_post_content | intro].
  apply (ram_bind 0 2); [auto with ram | intro adapter].
  apply (ram_bind 2 0); [apply post_content_requests | intro]. ram_pure.
Qed.

Lemma handle_get_analytics_requests (client : MetaClient)
    (platform metric period : string) :
  requests_at_most 1 (handle_get_analytics client platform metric period).
Proof.
  unfold handle_get_analytics. apply ram_except_meta; [|auto with ram].
  apply (ram_bind 0 1); [auto with ram | intro adapter].
  apply (ram_bind 1 0); [apply get_analytics_requests | intro]. ram_pure.
Qed.

(** ** meta_client.py: the retry wrapper *)

(** X27.  The wait after attempt [n] of the retry wrapper is
    [min(2 ** (n - 1), 10)]: 1, 2, 4, 8, then 10 for good; it never leaves
    the range from 1 to 10. *)
Lemma wait_exponential_policy (n : Z) :
  1 <= n ->
  tenacity.wait_exponential 1 1 10 n = Z.min (2 ^ (n - 1)) 10 /\
  1 <= tenacity.wait_exponential 1 1 10 n <= 10.
Proof.
  intros Hn. unfold tenacity.wait_exponential.
  assert (0 < 2 ^ (n - 1)) by (apply Z.pow_pos_nonneg; lia).
  lia.
Qed.

(** Fuel beyond the attempts that [stop_after_attempt] allows is not
    used. *)
Lemma attempts_enough_fuel {A : Type} (max_attempt_number : Z) (wait : Z -> Z)
    (fn : M A) (fuel fuel' : nat) (n : Z) (env : Env) (t : Trace) :
  max_attempt_number - n <= Z.of_nat fuel ->
  max_attempt_number - n <= Z.of_nat fuel' ->
  tenacity.attempts fuel (tenacity.stop_after_attempt max_attempt_number)
    wait n fn env t =
  tenacity.attempts fuel' (tenacity.stop_after_attempt max_attempt_number)
    wait n fn env t.
Proof.
  revert fuel' n t. induction fuel as [|fuel IH]; intros fuel' n t Hf Hf';
    destruct fuel' as [|fuel']; cbn [tenacity.attempts];
    destruct (fn env t) as [[a|e] t1]; try reflexivity;
    unfold tenacity.stop_after_attempt;
    destruct (Z.geb_spec n max_attempt_number) as [Hge|Hlt]; try reflexivity;
    try lia.
  unfold bind, sleep. apply IH; lia.
Qed.

(** Three attempts at most: the second and the third each come after a
    failure and a sleep, and what the third gives is the result. *)
Lemma retry_3_run {A : Type} (wait : Z -> Z) (fn : M A) (env : Env) (t : Trace) :
  tenacity.retry 3 wait fn env t =
  match fn env t with
  | (Raise e1, t1) =>
      match fn env (t1 ++ [EvSleep (inject_Z (wait 1))]) with
      | (Raise e2, t2) => fn env (t2 ++ [EvSleep (inject_Z (wait 2))])
      | done => done
      end
  | done => done
  end.
Proof.
  unfold tenacity.retry. change (Z.to_nat 3) with 3%nat.
  cbn [tenacity.attempts]. unfold bind, sleep.
  change (tenacity.stop_after_attempt 3 1) with false.
  change (tenacity.stop_after_attempt 3 (1 + 1)) with false.
  change (tenacity.stop_after_attempt 3 (1 + 1 + 1)) with true.
  destruct (fn env t) as [[a|e1] t1]; [reflexivity|]. cbv iota.
  destruct (fn env (t1 ++ _)) as [[a|e2] t2]; [reflexivity|]. cbv iota.
  destruct (fn env (t2 ++ _)) as [[a|e3] t3]; reflexivity.
Qed.

(** X29.  When all three attempts of [send_message_with_retry] fail, the
    wrapper has slept 1 after the first and 2 after the second, and the
    third failure is what the caller sees, unchanged. *)
Lemma send_message_with_retry_exhausted (client : MetaClient)
    (platform recipient_id content : string) (media_url : option string)
    (env : Env) (t t1 t2 t3 : Trace) (e1 e2 e3 : Exn) :
  let once :=
    send_message_once client platform recipient_id content media_url in
  once env t = (Raise e1, t1) ->
  once env (t1 ++ [EvSleep 1]) = (Raise e2, t2) ->
  once env (t2 ++ [EvSleep 2]) = (Raise e3, t3) ->
  send_message_with_retry client platform recipient_id content media_url env t
  = (Raise e3, t3).
Proof.
  intros once H1 H2 H3. unfold send_message_with_retry.
  rewrite retry_3_run. fold once.
  change (inject_Z (tenacity.wait_exponential 1 1 10 1)) with 1%Q.
  change (inject_Z (tenacity.wait_exponential 1 1 10 2)) with 2%Q.
  now rewrite H1, H2, H3.
Qed.

Lemma send_message_once_requests (client : MetaClient)
    (platform recipient_id content : string) (media_url : option string) :
  requests_at_most 1
    (send_message_once client platform recipient_id content media_url).
Proof.
  unfold send_message_once.
  apply (ram_bind 0 1); [auto with ram | intro adapter].
  apply send_message_requests.
Qed.

(** X28.  Whatever the host answers, [send_message_with_retry] issues at
    most three requests. *)
Lemma send_message_with_retry_requests (client : MetaClient)
    (platform recipient_id content : string) (media_url : option string) :
  requests_at_most 3
    (send_message_with_retry client platform recipient_id content media_url).
Proof.
  intros env t. unfold send_message_with_retry. rewrite retry_3_run.
  pose proof (send_message_once_requests client platform recipient_id content
                media_url) as Honce.
  set (once := send_message_once _ _ _ _ _) in *.
  destruct (Honce env t) as (evs1 & Ht1 & Hn1).
  destruct (once env t) as [[a|e1] t1]; cbn in Ht1; subst t1.
  { exists evs1. cbn. split; [reflexivity | lia]. }
  set (s1 := EvSleep _).
  destruct (Honce env ((t ++ evs1) ++ [s1])) as (evs2 & Ht2 & Hn2).
  destruct (once env ((t ++ evs1) ++ [s1])) as [[a|e2] t2]; cbn in Ht2; subst t2.
  { exists (evs1 ++ [s1] ++ evs2). cbn [snd]. rewrite !app_assoc.
    split; [reflexivity|]. rewrite !requests_app, !length_app. cbn. lia. }
  set (s2 := EvSleep _).
  destruct (Honce env ((((t ++ evs1) ++ [s1]) ++ evs2) ++ [s2]))
    as (evs3 & Ht3 & Hn3).
  exists (evs1 ++ [s1] ++ evs2 ++ [s2] ++ evs3). rewrite Ht3, !app_assoc.
  split; [reflexivity|]. rewrite !requests_app, !length_app. cbn. lia.
Qed.

(** ** The send-message tool does not go through the retry wrapper *)

(** C4.  Against a host that answers every request with status 500,
    [send_message_with_retry] makes three attempts, sleeping 1 and then 2
    in between, and re-raises the third failure; [handle_send_message], the
    send-message operation the server exposes, calls the adapter directly:
    on the same input it issues one request, does not sleep, and reports
    that first failure. *)
Theorem handle_send_message_makes_one_attempt :
  let client :=
    MetaClient_init
      (mkSettings "" "" "fb-token" "" "" "" "v21.0" "INFO" false) in
  let env :=
    stub_env [Answer 500 (Some (JObj [])); Answer 500 (Some (JObj []));
              Answer 500 (Some (JObj []))] in
  let rq :=
    facebook_send_request (FacebookAdapter.init "fb-token" "v21.0")
      "psid-1" "hi" None in
  send_message_with_retry client "facebook" "psid-1" "hi" None env [] =
    (Raise (MetaMCPError API_ERROR "HTTP status 500"),
     [EvHttp rq; EvSleep 1; EvHttp rq; EvSleep 2; EvHttp rq]) /\
  handle_send_message client "facebook" "psid-1" "hi" None env [] =
    (Ok (Failure
           (models.mkMetaError "API_ERROR" "HTTP status 500"
              (models.Known models.FACEBOOK) None
              "1970-01-01T00:00:00+00:00")),
     [EvHttp rq]).
Proof. split; reflexivity. Qed.

(* ===================================================================== *)
(** * Further properties of the code *)
(* ===================================================================== *)

(** ** validators.py *)

Lemma validate_url_run (url : string) (env : Env) (t : Trace) :
  validate_url url env t =
  (match validate_url_try (urlparse env url) url with
   | None => Ok tt
   | Some text =>
       Raise (ValidationError ("Invalid URL: " +++ url +++ " - " +++ text))
   end, t).
Proof.
  unfold validate_url, bind, ask.
  now destruct (validate_url_try (urlparse env url) url).
Qed.

Lemma validate_url_try_ok (env : Env) (url : string) :
  validate_url_try (urlparse env url) url = None <-> url_ok env url = true.
Proof.
  unfold validate_url_try, url_ok.
  destruct (urlparse env url) as [scheme netloc|text]; [|split; discriminate].
  destruct (Py.truthy_str scheme) eqn:Es, (Py.truthy_str netloc) eqn:En;
    cbn; rewrite ?andb_false_r, ?andb_true_r;
    try (split; discriminate).
  - destruct (_ || _); cbn; split; (discriminate || reflexivity).
  - destruct scheme; [|discriminate]. cbn. split; discriminate.
Qed.

(** X1.  [validate_url] lets a URL through exactly when [urlparse] finds
    scheme http or https and a non-empty host.  Every refusal is a
    VALIDATION_ERROR whose text starts with "Invalid URL: <url> - "; a
    scheme other than http or https is reported inside that wrapper, as
    "Invalid URL: <url> - URL must use http or https protocol: <url>".  The
    trace is left as it was. *)
Theorem validate_url_outcome (url : string) (env : Env) (t : Trace) :
  (url_ok env url = true -> validate_url url env t = (Ok tt, t)) /\
  (url_ok env url = false ->
   exists text,
     validate_url url env t =
     (Raise (MetaMCPError VALIDATION_ERROR
               ("Invalid URL: " +++ url +++ " - " +++ text)), t)) /\
  (forall scheme netloc,
     urlparse env url = Parsed scheme netloc ->
     scheme <> "" -> netloc <> "" -> scheme <> "http" -> scheme <> "https" ->
     validate_url url env t =
     (Raise (MetaMCPError VALIDATION_ERROR
               ("Invalid URL: " +++ url +++ " - "
                  +++ "URL must use http or https protocol: " +++ url)), t)).
Proof.
  rewrite validate_url_run. repeat apply conj.
  - intros H. apply validate_url_try_ok in H. now rewrite H.
  - intros H. destruct (validate_url_try (urlparse env url) url) as [text|] eqn:E.
    + now exists text.
    + apply validate_url_try_ok in E. congruence.
  - intros scheme netloc Hp Hs Hn Hh Hhs. rewrite Hp. unfold validate_url_try.
    destruct scheme; [contradiction|]. destruct netloc; [contradiction|]. cbn [Py.truthy_str andb negb].
    destruct (String.eqb_spec (String a scheme) "http"); [contradiction|].
    destruct (String.eqb_spec (String a scheme) "https"); [contradiction|].
    reflexivity.
Qed.

Lemma validate_url_outcome_witness :
  let env := parsing_env simple_urlparse in
  validate_url "https://example.com/x.jpg" env [] = (Ok tt, []) /\
  (exists text,
     validate_url "not-a-url" env [] =
     (Raise (MetaMCPError VALIDATION_ERROR
               ("Invalid URL: not-a-url - " +++ text)), [])) /\
  validate_url "ftp://example.com" env [] =
  (Raise (MetaMCPError VALIDATION_ERROR
            "Invalid URL: ftp://example.com - URL must use http or https protocol: ftp://example.com"),
   []).
Proof.
  intros env. repeat apply conj.
  - destruct (validate_url_outcome "https://example.com/x.jpg" env [])
      as (H & _).
    apply H. reflexivity.
  - destruct (validate_url_outcome "not-a-url" env []) as (_ & H & _).
    apply H. reflexivity.
  - destruct (validate_url_outcome "ftp://example.com" env []) as (_ & _ & H).
    apply (H "ftp" "example.com"); (reflexivity || discriminate).
Defined.

Lemma validate_url_cases (url : string) (env : Env) (t : Trace) :
  if url_ok env url
  then validate_url url env t = (Ok tt, t)
  else exists text,
      validate_url url env t = (Raise (MetaMCPError VALIDATION_ERROR text), t).
Proof.
  rewrite validate_url_run.
  destruct (validate_url_try (urlparse env url) url) as [text|] eqn:E.
  - destruct (url_ok env url) eqn:Eu.
    + apply validate_url_try_ok in Eu. congruence.
    + eexists. reflexivity.
  - apply validate_url_try_ok in E. now rewrite E.
Qed.

Lemma for_each_validate_url (urls : list string) (env : Env) (t : Trace) :
  if forallb (url_ok env) urls
  then exists done, for_each urls validate_url env t = (Ok done, t)
  else exists text,
      for_each urls validate_url env t =
      (Raise (MetaMCPError VALIDATION_ERROR text), t).
Proof.
  induction urls as [|u us IH]; cbn [for_each forallb].
  - now exists [].
  - unfold bind. pose proof (validate_url_cases u env t) as Hu.
    destruct (url_ok env u); cbn [andb].
    + rewrite Hu. destruct (forallb (url_ok env) us).
      * destruct IH as [done ->]. now eexists.
      * destruct IH as [text ->]. now exists text.
    + destruct Hu as [text ->]. now eexists.
Qed.

Lemma validate_post_content_request_run (platform : string)
    (content : option string) (media_urls : option (list string))
    (env : Env) (t : Trace) :
  if (Py.truthy_opt content || Py.truthy_list media_urls)
     && (negb (String.eqb platform "instagram") || Py.truthy_list media_urls)
     && forallb (url_ok env) (match media_urls with Some us => us | None => [] end)
  then validate_post_content_request platform content media_urls env t
       = (Ok tt, t)
  else exists text,
      validate_post_content_request platform content media_urls env t
      = (Raise (MetaMCPError VALIDATION_ERROR text), t).
Proof.
  unfold validate_post_content_request.
  destruct (Py.truthy_opt content) eqn:Ec;
    destruct (Py.truthy_list media_urls) eqn:Em; cbn [negb andb orb];
    destruct (String.eqb platform "instagram"); cbn [negb andb orb];
    try (eexists; reflexivity);
    try (destruct media_urls as [[|u us]|]; try discriminate; reflexivity).
  all: destruct media_urls as [[|u us]|]; try discriminate;
    pose proof (for_each_validate_url (u :: us) env t) as Hall;
    unfold bind, ret;
    destruct (forallb (url_ok env) (u :: us));
    [ destruct Hall as [done ->]; reflexivity
    | destruct Hall as [text ->]; now exists text ].
Qed.

(** X2.  [validate_post_content_request] accepts a request exactly when it
    has a non-empty text or at least one media URL, has at least one media
    URL if the platform is instagram, and every media URL passes
    [validate_url]; every refusal is a VALIDATION_ERROR, and the trace is
    left as it was. *)
Theorem validate_post_content_request_outcome (platform : string)
    (content : option string) (media_urls : option (list string))
    (env : Env) (t : Trace) :
  let urls := match media_urls with Some us => us | None => [] end in
  let acceptable :=
    (Py.truthy_opt content || Py.truthy_list media_urls)
    && (negb (String.eqb platform "instagram") || Py.truthy_list media_urls)
    && forallb (url_ok env) urls in
  if acceptable
  then validate_post_content_request platform content media_urls env t
       = (Ok tt, t)
  else exists text,
      validate_post_content_request platform content media_urls env t
      = (Raise (MetaMCPError VALIDATION_ERROR text), t).
Proof.
  intros urls acceptable. subst urls acceptable.
  apply validate_post_content_request_run.
Qed.

(** ** errors.py *)

(** X3.  [map_meta_api_error] only ever answers with one of five kinds:
    AUTH_FAILED, RATE_LIMIT_EXCEEDED, INSUFFICIENT_PERMISSIONS,
    VALIDATION_ERROR or API_ERROR.  It can fail itself only on status 400,
    and whatever the payload it does not fail on any other status. *)
Theorem map_meta_api_error_range (status_code : Z) (payload : json) :
  (forall code,
     map_meta_api_error status_code payload = Ok code ->
     In code [AUTH_FAILED; RATE_LIMIT_EXCEEDED; INSUFFICIENT_PERMISSIONS;
              VALIDATION_ERROR; API_ERROR]) /\
  (forall e,
     map_meta_api_error status_code payload = Raise e -> status_code = 400) /\
  (forall code,
     map_meta_api_error status_code payload = Ok code ->
     (code = INSUFFICIENT_PERMISSIONS \/ code = VALIDATION_ERROR) ->
     status_code = 400).
Proof.
  destruct (Z.eq_dec status_code 400) as [->|Hne].
  - repeat apply conj; try (intros; reflexivity).
    intros code. unfold map_meta_api_error.
    change ((400 =? 401) || (400 =? 403)) with false.
    change (400 =? 429) with false. change (400 =? 400) with true. cbv iota.
    destruct (py_get payload "error" (JObj [])) as [error|]; cbn [bindO];
      [|discriminate].
    destruct (py_get error "type" (JStr "")) as [ty|]; cbn [bindO];
      [|discriminate].
    destruct (py_str_in "OAuthException" ty) as [[]|]; cbn [bindO];
      try discriminate.
    + intros [= <-]. cbn. tauto.
    + destruct (py_get error "message" (JStr "")) as [msg|]; cbn [bindO];
        [|discriminate].
      destruct (py_lower msg) as [lowered|]; cbn [bindO]; [|discriminate].
      destruct (Py.contains "permission" lowered); intros [= <-]; cbn; tauto.
  - rewrite (map_meta_api_error_not_400 _ _ Hne). repeat apply conj.
    + intros code [= <-].
      destruct (_ || _); [cbn; tauto|]. destruct (_ =? _); cbn; tauto.
    + discriminate.
    + intros code [= <-].
      destruct (_ || _); [intros [|]; discriminate|].
      destruct (_ =? _); intros [|]; discriminate.
Qed.

Lemma map_meta_api_error_range_witness :
  In INSUFFICIENT_PERMISSIONS
     [AUTH_FAILED; RATE_LIMIT_EXCEEDED; INSUFFICIENT_PERMISSIONS;
      VALIDATION_ERROR; API_ERROR] /\
  400 = 400.
Proof.
  pose (payload := JObj [("error", JObj [("message", JStr "No Permission")])]).
  destruct (map_meta_api_error_range 400 payload) as (Hin & _ & Hst).
  split.
  - apply (Hin INSUFFICIENT_PERMISSIONS). reflexivity.
  - apply (Hst INSUFFICIENT_PERMISSIONS); [reflexivity | now left].
Defined.

(** ** config.py and the adapter factory *)

(** X4.  [get_platform_token] finds a token exactly for the three platform
    names, spelled in lower case, and only when the configured token is not
    empty; the token found is the one configured for that platform. *)
Theorem get_platform_token_iff (s : Settings) (platform token : string) :
  get_platform_token s platform = Some token <->
  token <> "" /\
  ((platform = "facebook" /\ token = facebook_page_access_token s) \/
   (platform = "instagram" /\ token = instagram_access_token s) \/
   (platform = "whatsapp" /\ token = whatsapp_access_token s)).
Proof.
  unfold get_platform_token. cbn [find fst].
  destruct (String.eqb_spec "facebook" platform) as [<-|Hf].
  { destruct (facebook_page_access_token s) as [|c r] eqn:E; cbn.
    - split; [discriminate|]. intros [Hne [[_ ->] | [[H _] | [H _]]]];
        (contradiction || discriminate).
    - split.
      + intros [= <-]. split; [discriminate | auto].
      + intros [_ [[_ ->] | [[H _] | [H _]]]]; (reflexivity || discriminate). }
  destruct (String.eqb_spec "instagram" platform) as [<-|Hi].
  { destruct (instagram_access_token s) as [|c r] eqn:E; cbn.
    - split; [discriminate|]. intros [Hne [[H _] | [[_ ->] | [H _]]]];
        (contradiction || discriminate).
    - split.
      + intros [= <-]. split; [discriminate | auto].
      + intros [_ [[H _] | [[_ ->] | [H _]]]]; (reflexivity || discriminate). }
  destruct (String.eqb_spec "whatsapp" platform) as [<-|Hw].
  { destruct (whatsapp_access_token s) as [|c r] eqn:E; cbn.
    - split; [discriminate|]. intros [Hne [[H _] | [[H _] | [_ ->]]]];
        (contradiction || discriminate).
    - split.
      + intros [= <-]. split; [discriminate | auto].
      + intros [_ [[H _] | [[H _] | [_ ->]]]]; (reflexivity || discriminate). }
  split; [discriminate|].
  intros [_ [[H _] | [[H _] | [H _]]]]; congruence.
Qed.

(** X5.  Outside demo mode [get_adapter] builds, for each of the three
    platforms whose configuration is complete, the adapter of that platform
    with that platform's own token, the configured API version and, for
    whatsapp, the configured phone-number identifier. *)
Theorem get_adapter_configured (s : Settings) :
  demo_mode s = false ->
  let c := MetaClient_init s in
  (facebook_page_access_token s <> "" ->
   get_adapter c "facebook" =
   Ok (Facebook (FacebookAdapter.init (facebook_page_access_token s)
                   (meta_api_version s)))) /\
  (instagram_access_token s <> "" ->
   get_adapter c "instagram" =
   Ok (Instagram (InstagramAdapter.init (instagram_access_token s)
                    (meta_api_version s)))) /\
  (whatsapp_access_token s <> "" -> whatsapp_phone_number_id s <> "" ->
   get_adapter c "whatsapp" =
   Ok (WhatsApp (WhatsAppAdapter.init (whatsapp_access_token s)
                   (whatsapp_phone_number_id s) (meta_api_version s)))).
Proof.
  intros Hd c. subst c. unfold get_adapter, MetaClient_init.
  cbn [settings api_version]. rewrite Hd.
  unfold validate_platform_config, get_platform_token. rewrite Hd.
  cbn [find fst String.eqb Ascii.eqb Bool.eqb andb].
  repeat apply conj.
  - destruct (facebook_page_access_token s); [contradiction | reflexivity].
  - destruct (instagram_access_token s); [contradiction | reflexivity].
  - destruct (whatsapp_access_token s); [contradiction|].
    destruct (whatsapp_phone_number_id s); [contradiction | reflexivity].
Qed.

Lemma get_adapter_configured_witness :
  let s := mkSettings "app" "secret" "fb-token" "ig-token" "wa-token" "12345"
             "v21.0" "INFO" false in
  get_adapter (MetaClient_init s) "facebook" =
    Ok (Facebook (FacebookAdapter.init "fb-token" "v21.0")) /\
  get_adapter (MetaClient_init s) "instagram" =
    Ok (Instagram (InstagramAdapter.init "ig-token" "v21.0")) /\
  get_adapter (MetaClient_init s) "whatsapp" =
    Ok (WhatsApp (WhatsAppAdapter.init "wa-token" "12345" "v21.0")).
Proof.
  intros s.
  destruct (get_adapter_configured s eq_refl) as (Hf & Hi & Hw).
  repeat apply conj; [apply Hf | apply Hi | apply Hw]; discriminate.
Defined.

(** X6.  [get_adapter] hands out an adapter exactly in demo mode or when
    the platform's configuration is complete, and every failure it reports
    is an AUTH_FAILED error: no other kind, INVALID_PLATFORM included, and no
    other exception. *)
Theorem get_adapter_outcomes (c : MetaClient) (platform : string) :
  ((exists adapter, get_adapter c platform = Ok adapter) <->
   validate_platform_config (settings c) platform = true) /\
  (forall e,
     get_adapter c platform = Raise e ->
     exists text, e = MetaMCPError AUTH_FAILED text).
Proof.
  unfold get_adapter, validate_platform_config.
  destruct (demo_mode (settings c)) eqn:Hd.
  { split; [split; eauto | discriminate]. }
  destruct (get_platform_token (settings c) platform) as [token|] eqn:Et;
    cbn [Py.truthy_opt negb].
  2: { split; [split; [intros [a H]|]; discriminate | intros e [= <-]; eauto]. }
  rewrite (get_platform_token_truthy _ _ _ Et). cbn [negb Py.if_truthy].
  destruct (String.eqb_spec platform "whatsapp") as [->|Hw].
  - cbn [andb]. change (String.eqb "whatsapp" "facebook") with false.
    change (String.eqb "whatsapp" "instagram") with false.
    destruct (Py.truthy_str (whatsapp_phone_number_id (settings c))); cbn.
    + rewrite (get_platform_token_truthy _ _ _ Et).
      split; [split; eauto | discriminate].
    + split; [split; [intros [a H]|]; discriminate | intros e [= <-]; eauto].
  - cbn [andb negb]. rewrite (get_platform_token_truthy _ _ _ Et).
    destruct (String.eqb_spec platform "facebook");
      [split; [split; eauto | discriminate]|].
    destruct (String.eqb_spec platform "instagram");
      [split; [split; eauto | discriminate]|].
    now rewrite get_platform_token_unknown in Et.
Qed.

Lemma get_adapter_outcomes_witness :
  exists text,
    MetaMCPError AUTH_FAILED
      "Platform 'whatsapp' is not configured. Please provide the required access token in .env file."
    = MetaMCPError AUTH_FAILED text.
Proof.
  pose (s := mkSettings "" "" "" "" "wa-token" "" "v21.0" "INFO" false).
  destruct (get_adapter_outcomes (MetaClient_init s) "whatsapp") as (_ & H).
  apply H. reflexivity.
Defined.

(** ** adapters: message history *)

Lemma facebook_get_messages_run (self : FacebookAdapter.t)
    (conversation_id : string) (recipient_id : option string) (limit : Z)
    (env : Env) (t : Trace) :
  conversation_id <> "" ->
  let rq := history_request (FacebookAdapter.base_url self)
              (FacebookAdapter.access_token self) conversation_id limit in
  FacebookAdapter.get_messages self (Some conversation_id) recipient_id limit
    env t =
  (match host env t rq with
   | NoAnswer => Raise (PyExn TransportError)
   | Answer st b =>
       if httpx.is_success st then
         data <-? httpx.json_of b ;; py_get data "data" (JArr [])
       else mapped_failure env rq st b
   end, t ++ [EvHttp rq]).
Proof.
  intros Hc rq. unfold FacebookAdapter.get_messages, Py.if_truthy.
  destruct conversation_id as [|c s]; [contradiction|]. cbn [Py.truthy_str].
  unfold_m. subst rq. unfold history_request, token_get.
  set (rq := mkRequest _ _ _ _ _).
  destruct (host env t rq) as [st b|]; [|reflexivity]. cbn.
  destruct (httpx.is_success st).
  - destruct b as [data|]; cbn; [|reflexivity]. now destruct data.
  - apply (raise_mapped_run (A := json)).
Qed.

Lemma instagram_get_messages_run (self : InstagramAdapter.t)
    (conversation_id : string) (recipient_id : option string) (limit : Z)
    (env : Env) (t : Trace) :
  conversation_id <> "" ->
  let rq := history_request (InstagramAdapter.base_url self)
              (InstagramAdapter.access_token self) conversation_id limit in
  InstagramAdapter.get_messages self (Some conversation_id) recipient_id limit
    env t =
  (match host env t rq with
   | NoAnswer => Raise (PyExn TransportError)
   | Answer st b =>
       if httpx.is_success st then
         data <-? httpx.json_of b ;; py_get data "data" (JArr [])
       else mapped_failure env rq st b
   end, t ++ [EvHttp rq]).
Proof.
  intros Hc rq. unfold InstagramAdapter.get_messages, Py.if_truthy.
  destruct conversation_id as [|c s]; [contradiction|]. cbn [Py.truthy_str].
  unfold_m. subst rq. unfold history_request, token_get.
  set (rq := mkRequest _ _ _ _ _).
  destruct (host env t rq) as [st b|]; [|reflexivity]. cbn.
  destruct (httpx.is_success st).
  - destruct b as [data|]; cbn; [|reflexivity]. now destruct data.
  - apply (raise_mapped_run (A := json)).
Qed.

(** Without a conversation id (none, or an empty one) the Facebook and
    Instagram [get_messages] fail with MISSING_IDENTIFIER and issue no
    request, also when a recipient id is given. *)
Lemma get_messages_needs_conversation
    (fb : FacebookAdapter.t) (ig : InstagramAdapter.t)
    (conversation_id recipient_id : option string) (limit : Z)
    (env : Env) (t : Trace) :
  conversation_id = None \/ conversation_id = Some "" ->
  get_messages (Facebook fb) conversation_id recipient_id limit env t =
    (Raise (MetaMCPError MISSING_IDENTIFIER
              "conversation_id is required for Facebook messages"), t) /\
  get_messages (Instagram ig) conversation_id recipient_id limit env t =
    (Raise (MetaMCPError MISSING_IDENTIFIER
              "conversation_id is required for Instagram messages"), t).
Proof. intros [-> | ->]; split; reflexivity. Qed.

Lemma get_messages_needs_conversation_witness :
  get_messages (Facebook (FacebookAdapter.init "token" "v21.0"))
    None (Some "psid-1") 10 (stub_env [Answer 200 (Some (JObj []))]) [] =
  (Raise (MetaMCPError MISSING_IDENTIFIER
            "conversation_id is required for Facebook messages"), []).
Proof.
  apply (get_messages_needs_conversation
           (FacebookAdapter.init "token" "v21.0")
           (InstagramAdapter.init "token" "v21.0")
           None (Some "psid-1") 10
           (stub_env [Answer 200 (Some (JObj []))]) []).
  now left.
Defined.

(** X7.  With a conversation id the Facebook and Instagram [get_messages]
    issue one GET to <base>/<conversation_id>/messages carrying the token
    and the limit exactly as passed; on a 2xx answer whose body is a JSON
    object they return its [data] entry, and an empty list when there is
    none. *)
Theorem get_messages_history
    (fb : FacebookAdapter.t) (ig : InstagramAdapter.t)
    (conversation_id : string) (recipient_id : option string) (limit : Z)
    (env : Env) (t : Trace) (st : Z) (fields : list (string * json)) :
  conversation_id <> "" ->
  200 <= st <= 299 ->
  let fb_rq := history_request (FacebookAdapter.base_url fb)
                 (FacebookAdapter.access_token fb) conversation_id limit in
  let ig_rq := history_request (InstagramAdapter.base_url ig)
                 (InstagramAdapter.access_token ig) conversation_id limit in
  (host env t fb_rq = Answer st (Some (JObj fields)) ->
   get_messages (Facebook fb) (Some conversation_id) recipient_id limit env t
   = (Ok (body_field fields "data" (JArr [])), t ++ [EvHttp fb_rq])) /\
  (host env t ig_rq = Answer st (Some (JObj fields)) ->
   get_messages (Instagram ig) (Some conversation_id) recipient_id limit env t
   = (Ok (body_field fields "data" (JArr [])), t ++ [EvHttp ig_rq])).
Proof.
  intros Hc Hst fb_rq ig_rq. apply is_success_iff in Hst. split; intros Hh.
  - cbn [get_messages Base_adapter dispatch Facebook_adapter].
    rewrite facebook_get_messages_run by assumption. fold fb_rq.
    now rewrite Hh, Hst.
  - cbn [get_messages Base_adapter dispatch Instagram_adapter].
    rewrite instagram_get_messages_run by assumption. fold ig_rq.
    now rewrite Hh, Hst.
Qed.

Lemma get_messages_history_witness :
  let fb := FacebookAdapter.init "token" "v21.0" in
  get_messages (Facebook fb) (Some "t_1") None 250
    (stub_env [Answer 200 (Some (JObj []))]) [] =
  (Ok (JArr []),
   [EvHttp (mkRequest GET "https://graph.facebook.com/v21.0/t_1/messages"
              [("access_token", JStr "token"); ("limit", JNum 250)] None 30)]).
Proof.
  intros fb.
  destruct (get_messages_history fb (InstagramAdapter.init "token" "v21.0")
              "t_1" None 250 (stub_env [Answer 200 (Some (JObj []))]) []
              200 []) as (H & _); [discriminate | lia |].
  apply H. reflexivity.
Defined.

(** ** adapters: how a failed send surfaces *)

(** X8.  When a real adapter's [send_message] gets no answer the transport
    error passes through as it is; a non-2xx answer whose body is not JSON
    gives a JSON decoding error; a non-2xx answer with a JSON body gives a
    [MetaMCPError] of the kind [map_meta_api_error] assigns.  In each case
    exactly the one request has gone out. *)
Theorem send_message_failures (a : BasePlatformAdapter)
    (recipient_id content : string) (media_url : option string)
    (rq : HttpRequest) (env : Env) (t : Trace) :
  send_request a recipient_id content media_url = Some rq ->
  (host env t rq = NoAnswer ->
   send_message a recipient_id content media_url env t =
   (Raise (PyExn TransportError), t ++ [EvHttp rq])) /\
  (forall st,
     ~ 200 <= st <= 299 -> host env t rq = Answer st None ->
     send_message a recipient_id content media_url env t =
     (Raise (PyExn JSONDecodeError), t ++ [EvHttp rq])) /\
  (forall st data code,
     ~ 200 <= st <= 299 -> host env t rq = Answer st (Some data) ->
     map_meta_api_error st data = Ok code ->
     send_message a recipient_id content media_url env t =
     (Raise (MetaMCPError code (status_error_text env rq st)),
      t ++ [EvHttp rq])).
Proof.
  intros Hrq.
  assert (Hrun :
    send_message a recipient_id content media_url env t =
    (match host env t rq with
     | NoAnswer => Raise (PyExn TransportError)
     | Answer st b =>
         if httpx.is_success st
         then fst (send_message a recipient_id content media_url env t)
         else mapped_failure env rq st b
     end, t ++ [EvHttp rq])).
  { destruct a as [fb|ig|wa|mock]; cbn in Hrq; try discriminate;
      injection Hrq as <-;
      cbn [send_message Base_adapter dispatch Facebook_adapter
             Instagram_adapter WhatsApp_adapter];
      [ rewrite facebook_send_message_run
      | rewrite instagram_send_message_run
      | rewrite whatsapp_send_message_run ];
      cbn [fst]; destruct (host env t _) as [st b|]; try reflexivity;
      destruct (httpx.is_success st); reflexivity. }
  assert (Hfail : forall st, ~ 200 <= st <= 299 -> httpx.is_success st = false).
  { intros st H. destruct (httpx.is_success st) eqn:E; [|reflexivity].
    apply is_success_iff in E. contradiction. }
  repeat apply conj.
  - intros Hh. rewrite Hrun, Hh. reflexivity.
  - intros st Hst Hh. rewrite Hrun, Hh, (Hfail st Hst). reflexivity.
  - intros st data code Hst Hh Hmap. rewrite Hrun, Hh, (Hfail st Hst).
    unfold mapped_failure. cbn. now rewrite Hmap.
Qed.

Lemma send_message_failures_witness :
  let wa := WhatsAppAdapter.init "token" "12345" "v21.0" in
  let rq := whatsapp_send_request wa "+380991234567" "hi" None in
  send_message (WhatsApp wa) "+380991234567" "hi" None (stub_env []) [] =
    (Raise (PyExn TransportError), [EvHttp rq]) /\
  send_message (WhatsApp wa) "+380991234567" "hi" None
    (stub_env [Answer 502 None]) [] =
    (Raise (PyExn JSONDecodeError), [EvHttp rq]) /\
  send_message (WhatsApp wa) "+380991234567" "hi" None
    (stub_env [Answer 429 (Some (JObj []))]) [] =
    (Raise (MetaMCPError RATE_LIMIT_EXCEEDED "HTTP status 429"), [EvHttp rq]).
Proof.
  intros wa rq. repeat apply conj.
  - destruct (send_message_failures (WhatsApp wa) "+380991234567" "hi" None
                rq (stub_env []) [] eq_refl) as (H & _).
    apply H. reflexivity.
  - destruct (send_message_failures (WhatsApp wa) "+380991234567" "hi" None
                rq (stub_env [Answer 502 None]) [] eq_refl) as (_ & H & _).
    apply (H 502); [lia | reflexivity].
  - destruct (send_message_failures (WhatsApp wa) "+380991234567" "hi" None
                rq (stub_env [Answer 429 (Some (JObj []))]) [] eq_refl)
      as (_ & _ & H).
    apply (H 429 (JObj []) RATE_LIMIT_EXCEEDED); [lia | reflexivity | reflexivity].
Defined.

(** ** adapters: posting *)

Lemma instagram_post_content_run (self : InstagramAdapter.t)
    (content : option string) (image_url : string) (more : list string)
    (target_id : option string) (env : Env) (t : Trace) :
  image_url <> "" ->
  let rq1 := container_request self content image_url target_id in
  InstagramAdapter.post_content self content (Some (image_url :: more))
    target_id env t =
  match host env t rq1 with
  | NoAnswer => (Raise (PyExn TransportError), t ++ [EvHttp rq1])
  | Answer st1 b1 =>
      if httpx.is_success st1 then
        match (data <-? httpx.json_of b1 ;; py_get data "id" JNull) with
        | Raise e => (Raise e, t ++ [EvHttp rq1])
        | Ok container_id =>
            let rq2 := publish_request self container_id target_id in
            (match host env (t ++ [EvHttp rq1]) rq2 with
             | NoAnswer => Raise (PyExn TransportError)
             | Answer st2 b2 =>
                 if httpx.is_success st2 then
                   data <-? httpx.json_of b2 ;;
                   post_id <-? py_get data "id" JNull ;;
                   Ok (JObj [("post_id", post_id)])
                 else mapped_failure env rq2 st2 b2
             end, (t ++ [EvHttp rq1]) ++ [EvHttp rq2])
        end
      else (mapped_failure env rq1 st1 b1, t ++ [EvHttp rq1])
  end.
Proof.
  intros Hu rq1. unfold InstagramAdapter.post_content, InstagramAdapter.no_media.
  destruct image_url as [|c s]; [contradiction|].
  cbn [Py.truthy_list Py.truthy_str negb orb]. unfold_m.
  subst rq1. unfold container_request, token_post.
  set (rq1 := mkRequest _ _ _ _ _).
  destruct (host env t rq1) as [st1 b1|]; [|reflexivity]. cbn.
  destruct (httpx.is_success st1); [|apply (raise_mapped_run (A := json))].
  destruct b1 as [data1|]; cbn; [|reflexivity].
  destruct data1; cbn; try reflexivity.
  unfold publish_request, token_post.
  set (rq2 := mkRequest _ _ _ _ _).
  destruct (host env (t ++ [EvHttp rq1]) rq2) as [st2 b2|]; [|reflexivity]. cbn.
  destruct (httpx.is_success st2); [|apply (raise_mapped_run (A := json))].
  destruct b2 as [data2|]; cbn; [|reflexivity]. now destruct data2.
Qed.

(** X9.  The Instagram [post_content] is a two-step exchange.  When the
    container request is answered with a non-2xx status the publish request
    is never issued.  When it is answered 2xx with a JSON object, the
    publish request carries that object's [id] as [creation_id] (null when
    there is none); a 2xx JSON answer to it gives [post_id], and a non-2xx
    answer to it fails the call after both requests have gone out. *)
Theorem instagram_post_two_steps (self : InstagramAdapter.t)
    (content : option string) (image_url : string) (more : list string)
    (target_id : option string) (env : Env) (t : Trace) :
  image_url <> "" ->
  let rq1 := container_request self content image_url target_id in
  let post :=
    post_content (Instagram self) content (Some (image_url :: more))
      target_id env t in
  (forall st1 b1,
     ~ 200 <= st1 <= 299 -> host env t rq1 = Answer st1 b1 ->
     post = (mapped_failure env rq1 st1 b1, t ++ [EvHttp rq1])) /\
  (forall st1 fields1,
     200 <= st1 <= 299 -> host env t rq1 = Answer st1 (Some (JObj fields1)) ->
     let rq2 :=
       publish_request self (body_field fields1 "id" JNull) target_id in
     snd post = t ++ [EvHttp rq1; EvHttp rq2] /\
     (forall st2 fields2,
        200 <= st2 <= 299 ->
        host env (t ++ [EvHttp rq1]) rq2 = Answer st2 (Some (JObj fields2)) ->
        fst post = Ok (JObj [("post_id", body_field fields2 "id" JNull)])) /\
     (forall st2 b2,
        ~ 200 <= st2 <= 299 ->
        host env (t ++ [EvHttp rq1]) rq2 = Answer st2 b2 ->
        fst post = mapped_failure env rq2 st2 b2)).
Proof.
  intros Hu rq1 post. subst post.
  cbn [post_content Base_adapter dispatch Instagram_adapter].
  rewrite instagram_post_content_run by assumption. fold rq1.
  assert (Hfail : forall st, ~ 200 <= st <= 299 -> httpx.is_success st = false).
  { intros st H. destruct (httpx.is_success st) eqn:E; [|reflexivity].
    apply is_success_iff in E. contradiction. }
  split.
  - intros st1 b1 Hst Hh. now rewrite Hh, (Hfail _ Hst).
  - intros st1 fields1 Hst Hh. apply is_success_iff in Hst.
    rewrite Hh, Hst. cbn [httpx.json_of bindO py_get].
    fold (body_field fields1 "id" JNull).
    set (rq2 := publish_request self (body_field fields1 "id" JNull) target_id).
    cbn [fst snd].
    repeat apply conj.
    + now rewrite <- app_assoc.
    + intros st2 fields2 Hst2 Hh2. apply is_success_iff in Hst2.
      now rewrite Hh2, Hst2.
    + intros st2 b2 Hst2 Hh2. now rewrite Hh2, (Hfail _ Hst2).
Qed.

Lemma instagram_post_two_steps_witness :
  let ig := InstagramAdapter.init "token" "v21.0" in
  let url := "https://example.com/a.jpg" in
  let rq1 := container_request ig (Some "caption") url None in
  post_content (Instagram ig) (Some "caption") (Some [url]) None
    (stub_env [Answer 500 (Some (JObj []))]) [] =
    (Raise (MetaMCPError API_ERROR "HTTP status 500"), [EvHttp rq1]) /\
  post_content (Instagram ig) (Some "caption") (Some [url]) None
    (stub_env [Answer 200 (Some (JObj [("id", JStr "c1")]));
               Answer 200 (Some (JObj [("id", JStr "p1")]))]) [] =
    (Ok (JObj [("post_id", JStr "p1")]),
     [EvHttp rq1; EvHttp (publish_request ig (JStr "c1") None)]) /\
  post_content (Instagram ig) (Some "caption") (Some [url]) None
    (stub_env [Answer 200 (Some (JObj [("id", JStr "c1")]));
               Answer 400 (Some (JObj []))]) [] =
    (Raise (MetaMCPError VALIDATION_ERROR "HTTP status 400"),
     [EvHttp rq1; EvHttp (publish_request ig (JStr "c1") None)]).
Proof.
  intros ig url rq1. repeat apply conj.
  - destruct (instagram_post_two_steps ig (Some "caption") url [] None
                (stub_env [Answer 500 (Some (JObj []))]) [])
      as (H & _); [discriminate|].
    apply (H 500 (Some (JObj []))); [lia | reflexivity].
  - destruct (instagram_post_two_steps ig (Some "caption") url [] None
                (stub_env [Answer 200 (Some (JObj [("id", JStr "c1")]));
                           Answer 200 (Some (JObj [("id", JStr "p1")]))]) [])
      as (_ & H); [discriminate|].
    destruct (H 200 [("id", JStr "c1")]) as (Htrace & Hok & _);
      [lia | reflexivity |].
    apply injective_projections.
    + apply (Hok 200 [("id", JStr "p1")]); [lia | reflexivity].
    + exact Htrace.
  - destruct (instagram_post_two_steps ig (Some "caption") url [] None
                (stub_env [Answer 200 (Some (JObj [("id", JStr "c1")]));
                           Answer 400 (Some (JObj []))]) [])
      as (_ & H); [discriminate|].
    destruct (H 200 [("id", JStr "c1")]) as (Htrace & _ & Hbad);
      [lia | reflexivity |].
    apply injective_projections.
    + apply (Hbad 400 (Some (JObj []))); [lia | reflexivity].
    + exact Htrace.
Defined.

Lemma facebook_post_content_run (self : FacebookAdapter.t)
    (content : option string) (media_urls : option (list string))
    (target_id : option string) (env : Env) (t : Trace) :
  let payload :=
    Py.if_truthy content (fun c => [("message", JStr c)]) []
    ++ match FacebookAdapter.first_media media_urls with
       | Some u => [("link", JStr u)]
       | None => []
       end in
  let rq := feed_request self target_id payload in
  FacebookAdapter.post_content self content media_urls target_id env t =
  (match host env t rq with
   | NoAnswer => Raise (PyExn TransportError)
   | Answer st b =>
       if httpx.is_success st then
         data <-? httpx.json_of b ;;
         post_id <-? py_get data "id" JNull ;;
         Ok (JObj [("post_id", post_id)])
       else mapped_failure env rq st b
   end, t ++ [EvHttp rq]).
Proof.
  intros payload rq. unfold FacebookAdapter.post_content. unfold_m.
  assert (Hp :
    match FacebookAdapter.first_media media_urls with
    | Some u =>
        Dict.set "link" (JStr u)
          (Py.if_truthy content
             (fun c => Dict.set "message" (JStr c) []) [])
    | None =>
        Py.if_truthy content (fun c => Dict.set "message" (JStr c) []) []
    end = payload).
  { subst payload. unfold Py.if_truthy.
    destruct (FacebookAdapter.first_media media_urls);
      destruct content as [[|c0 s0]|]; cbn; rewrite ?app_nil_r; reflexivity. }
  rewrite Hp. subst rq. unfold feed_request, token_post.
  set (rq := mkRequest _ _ _ _ _).
  destruct (host env t rq) as [st b|]; [|reflexivity]. cbn.
  destruct (httpx.is_success st); [|apply (raise_mapped_run (A := json))].
  destruct b as [data|]; cbn; [|reflexivity]. now destruct data.
Qed.

(** X10.  The Facebook [post_content] issues one POST to the feed of the
    target (or of "me") whose body holds the text under [message] when it is
    not empty and the first media URL under [link] when it is not empty.
    Media URLs after the first are ignored, and with neither text nor a
    first URL an empty object is still posted. *)
Theorem facebook_post_uses_first_media (self : FacebookAdapter.t)
    (content : option string) (target_id : option string)
    (env : Env) (t : Trace) :
  (forall url more,
     post_content (Facebook self) content (Some (url :: more)) target_id env t
     = post_content (Facebook self) content (Some [url]) target_id env t) /\
  (forall text url more,
     content = Some text -> text <> "" -> url <> "" ->
     snd (post_content (Facebook self) content (Some (url :: more))
            target_id env t)
     = t ++ [EvHttp (feed_request self target_id
                       [("message", JStr text); ("link", JStr url)])]) /\
  (forall media_urls,
     Py.truthy_opt content = false ->
     FacebookAdapter.first_media media_urls = None ->
     snd (post_content (Facebook self) content media_urls target_id env t)
     = t ++ [EvHttp (feed_request self target_id [])]).
Proof.
  cbn [post_content Base_adapter dispatch Facebook_adapter].
  repeat apply conj.
  - intros url more. now rewrite !facebook_post_content_run.
  - intros text url more -> Ht Hu. rewrite facebook_post_content_run.
    destruct text; [contradiction|]. destruct url; [contradiction|]. reflexivity.
  - intros media_urls Hc Hm. rewrite facebook_post_content_run. rewrite Hm.
    destruct content as [[|c s]|]; try discriminate; reflexivity.
Qed.

Lemma facebook_post_uses_first_media_witness :
  let fb := FacebookAdapter.init "token" "v21.0" in
  snd (post_content (Facebook fb) (Some "hello")
         (Some ["https://example.com/a.jpg"; "https://example.com/b.jpg"])
         None (stub_env []) [])
  = [EvHttp (feed_request fb None
               [("message", JStr "hello");
                ("link", JStr "https://example.com/a.jpg")])] /\
  snd (post_content (Facebook fb) None (Some [""]) (Some "page-7")
         (stub_env []) [])
  = [EvHttp (feed_request fb (Some "page-7") [])].
Proof.
  intros fb. split.
  - destruct (facebook_post_uses_first_media fb (Some "hello") None
                (stub_env []) []) as (_ & H & _).
    apply (H "hello"); [reflexivity | discriminate | discriminate].
  - destruct (facebook_post_uses_first_media fb None (Some "page-7")
                (stub_env []) []) as (_ & _ & H).
    apply H; reflexivity.
Defined.

(** ** adapters: insights *)

Lemma facebook_get_analytics_run (self : FacebookAdapter.t)
    (metric period : string) (env : Env) (t : Trace) :
  let rq := token_get (FacebookAdapter.base_url self +++ "/me/insights/" +++ metric)
              (FacebookAdapter.access_token self) [("period", JStr period)] in
  FacebookAdapter.get_analytics self metric period env t =
  (match host env t rq with
   | NoAnswer => Raise (PyExn TransportError)
   | Answer st b =>
       if httpx.is_success st then
         data <-? httpx.json_of b ;;
         values <-? py_get data "data" (JArr []) ;;
         Ok (insights_result metric period values)
       else mapped_failure env rq st b
   end, t ++ [EvHttp rq]).
Proof.
  intros rq. unfold FacebookAdapter.get_analytics. unfold_m.
  subst rq. unfold token_get. set (rq := mkRequest _ _ _ _ _).
  destruct (host env t rq) as [st b|]; [|reflexivity]. cbn.
  destruct (httpx.is_success st); [|apply (raise_mapped_run (A := json))].
  destruct b as [data|]; cbn; [|reflexivity]. now destruct data.
Qed.

Lemma instagram_get_analytics_run (self : InstagramAdapter.t)
    (metric period : string) (env : Env) (t : Trace) :
  let rq := token_get (InstagramAdapter.base_url self +++ "/me/insights")
              (InstagramAdapter.access_token self)
              [("metric", JStr metric); ("period", JStr period)] in
  InstagramAdapter.get_analytics self metric period env t =
  (match host env t rq with
   | NoAnswer => Raise (PyExn TransportError)
   | Answer st b =>
       if httpx.is_success st then
         data <-? httpx.json_of b ;;
         values <-? py_get data "data" (JArr []) ;;
         Ok (insights_result metric period values)
       else mapped_failure env rq st b
   end, t ++ [EvHttp rq]).
Proof.
  intros rq. unfold InstagramAdapter.get_analytics. unfold_m.
  subst rq. unfold token_get. set (rq := mkRequest _ _ _ _ _).
  destruct (host env t rq) as [st b|]; [|reflexivity]. cbn.
  destruct (httpx.is_success st); [|apply (raise_mapped_run (A := json))].
  destruct b as [data|]; cbn; [|reflexivity]. now destruct data.
Qed.

(** X11.  [get_analytics] issues one GET: on Facebook to
    <base>/me/insights/<metric> with the period as a query parameter, on
    Instagram to <base>/me/insights with the metric and the period both as
    query parameters.  On a 2xx answer whose body is a JSON object both
    return the metric and the period they were called with and the body's
    [data] entry, an empty list when there is none. *)
Theorem get_analytics_requests_and_result
    (fb : FacebookAdapter.t) (ig : InstagramAdapter.t)
    (metric period : string) (env : Env) (t : Trace)
    (st : Z) (fields : list (string * json)) :
  let fb_rq :=
    mkRequest GET (FacebookAdapter.base_url fb +++ "/me/insights/" +++ metric)
      [("access_token", JStr (FacebookAdapter.access_token fb));
       ("period", JStr period)] None 30 in
  let ig_rq :=
    mkRequest GET (InstagramAdapter.base_url ig +++ "/me/insights")
      [("access_token", JStr (InstagramAdapter.access_token ig));
       ("metric", JStr metric); ("period", JStr period)] None 30 in
  snd (get_analytics (Facebook fb) metric period env t) = t ++ [EvHttp fb_rq] /\
  snd (get_analytics (Instagram ig) metric period env t) = t ++ [EvHttp ig_rq] /\
  (200 <= st <= 299 ->
   (host env t fb_rq = Answer st (Some (JObj fields)) ->
    fst (get_analytics (Facebook fb) metric period env t) =
    Ok (insights_result metric period (body_field fields "data" (JArr [])))) /\
   (host env t ig_rq = Answer st (Some (JObj fields)) ->
    fst (get_analytics (Instagram ig) metric period env t) =
    Ok (insights_result metric period (body_field fields "data" (JArr []))))).
Proof.
  intros fb_rq ig_rq.
  cbn [get_analytics Base_adapter dispatch Facebook_adapter Instagram_adapter].
  rewrite facebook_get_analytics_run, instagram_get_analytics_run.
  repeat apply conj; try reflexivity.
  intros Hst. apply is_success_iff in Hst. split; intros Hh.
  - change (token_get _ _ _) with fb_rq. now rewrite Hh, Hst.
  - change (token_get _ _ _) with ig_rq. now rewrite Hh, Hst.
Qed.

Lemma get_analytics_requests_and_result_witness :
  let ig := InstagramAdapter.init "token" "v21.0" in
  fst (get_analytics (Instagram ig) "reach" "week"
         (stub_env [Answer 200 (Some (JObj [("data", JArr [JNum 7])]))]) [])
  = Ok (JObj [("metric", JStr "reach"); ("period", JStr "week");
              ("data", JArr [JNum 7])]).
Proof.
  intros ig.
  destruct (get_analytics_requests_and_result
              (FacebookAdapter.init "token" "v21.0") ig "reach" "week"
              (stub_env [Answer 200 (Some (JObj [("data", JArr [JNum 7])]))])
              [] 200 [("data", JArr [JNum 7])]) as (_ & _ & H).
  destruct H as (_ & H); [lia|]. apply H. reflexivity.
Defined.

(** ** adapters/mock.py *)

(** X12.  The Mock adapter never touches the network and never fails: each
    of its four operations returns a result after one sleep (0.2 for
    [post_content], 0.1 for the others), whatever it is given. *)
Theorem mock_always_succeeds_offline (self : MockPlatformAdapter.t)
    (recipient_id content metric period : string)
    (media_url conversation_id recipient target_id text : option string)
    (media_urls : option (list string)) (limit : Z)
    (env : Env) (t : Trace) :
  (exists result,
     send_message (Mock self) recipient_id content media_url env t =
     (Ok result, t ++ [EvSleep (1 # 10)])) /\
  (exists result,
     get_messages (Mock self) conversation_id recipient limit env t =
     (Ok result, t ++ [EvSleep (1 # 10)])) /\
  (exists result,
     post_content (Mock self) text media_urls target_id env t =
     (Ok result, t ++ [EvSleep (2 # 10)])) /\
  (exists result,
     get_analytics (Mock self) metric period env t =
     (Ok result, t ++ [EvSleep (1 # 10)])).
Proof.
  cbn [send_message get_messages post_content get_analytics Base_adapter
         dispatch Mock_adapter].
  repeat apply conj.
  - unfold MockPlatformAdapter.send_message. unfold_m. eexists. reflexivity.
  - destruct (mock_get_messages_run self conversation_id recipient limit env t)
      as (records & Hrun & _).
    now exists (JArr records).
  - unfold MockPlatformAdapter.post_content. unfold_m. eexists. reflexivity.
  - unfold MockPlatformAdapter.get_analytics. unfold_m. eexists. reflexivity.
Qed.

(** X13.  The Mock [get_analytics] reports one value, taken from the hash
    of metric and period joined; it lies from 0 to 9999 also when the hash
    is negative, and the metric and the period are handed back as given. *)
Theorem mock_get_analytics_value (self : MockPlatformAdapter.t)
    (metric period : string) (env : Env) (t : Trace) :
  let value := str_hash env (metric +++ period) mod 10000 in
  fst (get_analytics (Mock self) metric period env t) =
  Ok (insights_result metric period
        (JArr [JObj [("name", JStr metric); ("period", JStr period);
                     ("values", JArr [JObj [("value", JNum value)]])]])) /\
  0 <= value < 10000.
Proof.
  intros value. split; [reflexivity|].
  subst value. apply Z.mod_pos_bound. lia.
Qed.

(** ** adapters/whatsapp.py: the message id *)

(** X14.  After a 2xx answer the WhatsApp [send_message] takes the id from
    the first element of [messages].  Any empty or null [messages] gives
    "unknown"; a first element that is an object without [id] makes the
    call fail with a key error, the message having been sent. *)
Theorem whatsapp_message_id_edges (self : WhatsAppAdapter.t)
    (recipient_id content : string) (media_url : option string)
    (env : Env) (t : Trace) (st : Z) (fields : list (string * json)) :
  let rq := whatsapp_send_request self recipient_id content media_url in
  200 <= st <= 299 ->
  host env t rq = Answer st (Some (JObj fields)) ->
  (forall messages,
     Dict.find "messages" fields = Some messages ->
     py_truthy messages = false ->
     send_message (WhatsApp self) recipient_id content media_url env t =
     (Ok (JObj [("message_id", JStr "unknown")]), t ++ [EvHttp rq])) /\
  (forall first rest,
     Dict.find "messages" fields = Some (JArr (JObj first :: rest)) ->
     Dict.find "id" first = None ->
     send_message (WhatsApp self) recipient_id content media_url env t =
     (Raise (PyExn KeyError), t ++ [EvHttp rq])).
Proof.
  intros rq Hst Hh. apply is_success_iff in Hst.
  cbn [send_message Base_adapter dispatch WhatsApp_adapter].
  rewrite whatsapp_send_message_run. fold rq. rewrite Hh, Hst.
  cbn [httpx.json_of bindO py_get]. split.
  - intros messages Hm Hfalse. rewrite Hm.
    unfold WhatsAppAdapter.first_message_id. now rewrite Hfalse.
  - intros first rest Hm Hid. rewrite Hm. cbn. now rewrite Hid.
Qed.

Lemma whatsapp_message_id_edges_witness :
  let wa := WhatsAppAdapter.init "token" "12345" "v21.0" in
  let rq := whatsapp_send_request wa "+380991234567" "hi" None in
  send_message (WhatsApp wa) "+380991234567" "hi" None
    (stub_env [Answer 200 (Some (JObj [("messages", JNull)]))]) [] =
    (Ok (JObj [("message_id", JStr "unknown")]), [EvHttp rq]) /\
  send_message (WhatsApp wa) "+380991234567" "hi" None
    (stub_env [Answer 200 (Some (JObj [("messages", JArr [JObj []])]))]) [] =
    (Raise (PyExn KeyError), [EvHttp rq]).
Proof.
  intros wa rq. split.
  - destruct (whatsapp_message_id_edges wa "+380991234567" "hi" None
                (stub_env [Answer 200 (Some (JObj [("messages", JNull)]))]) []
                200 [("messages", JNull)]) as (H & _);
      [lia | reflexivity |].
    apply (H JNull); reflexivity.
  - destruct (whatsapp_message_id_edges wa "+380991234567" "hi" None
                (stub_env [Answer 200 (Some (JObj [("messages", JArr [JObj []])]))])
                [] 200 [("messages", JArr [JObj []])]) as (_ & H);
      [lia | reflexivity |].
    apply (H [] []); reflexivity.
Defined.

(** ** meta_client.py: more on the retry wrapper *)

(** X15.  [send_message_with_retry] stops at the first attempt that
    succeeds: a success at once is returned with nothing added, and a
    success on the second attempt comes after exactly one sleep of 1. *)
Theorem send_message_with_retry_stops_at_success (client : MetaClient)
    (platform recipient_id content : string) (media_url : option string)
    (env : Env) (t : Trace) :
  let once :=
    send_message_once client platform recipient_id content media_url in
  let retried :=
    send_message_with_retry client platform recipient_id content media_url
      env t in
  (forall result t1, once env t = (Ok result, t1) -> retried = (Ok result, t1)) /\
  (forall e1 t1 result t2,
     once env t = (Raise e1, t1) ->
     once env (t1 ++ [EvSleep 1]) = (Ok result, t2) ->
     retried = (Ok result, t2)).
Proof.
  intros once retried. subst retried. unfold send_message_with_retry.
  rewrite retry_3_run. fold once.
  change (inject_Z (tenacity.wait_exponential 1 1 10 1)) with 1%Q.
  split.
  - intros result t1 H. now rewrite H.
  - intros e1 t1 result t2 H1 H2. now rewrite H1, H2.
Qed.

Lemma send_message_with_retry_stops_at_success_witness :
  let client :=
    MetaClient_init
      (mkSettings "" "" "fb-token" "" "" "" "v21.0" "INFO" false) in
  let rq :=
    facebook_send_request (FacebookAdapter.init "fb-token" "v21.0")
      "psid-1" "hi" None in
  send_message_with_retry client "facebook" "psid-1" "hi" None
    (stub_env [Answer 200 (Some (JObj [("message_id", JStr "m1")]))]) [] =
    (Ok (JObj [("message_id", JStr "m1")]), [EvHttp rq]) /\
  send_message_with_retry client "facebook" "psid-1" "hi" None
    (stub_env [Answer 503 (Some (JObj []));
               Answer 200 (Some (JObj [("message_id", JStr "m2")]))]) [] =
    (Ok (JObj [("message_id", JStr "m2")]),
     [EvHttp rq; EvSleep 1; EvHttp rq]).
Proof.
  intros client rq. split.
  - destruct (send_message_with_retry_stops_at_success client "facebook"
                "psid-1" "hi" None
                (stub_env [Answer 200 (Some (JObj [("message_id", JStr "m1")]))])
                []) as (H & _).
    apply H. reflexivity.
  - destruct (send_message_with_retry_stops_at_success client "facebook"
                "psid-1" "hi" None
                (stub_env [Answer 503 (Some (JObj []));
                           Answer 200 (Some (JObj [("message_id", JStr "m2")]))])
                []) as (_ & H).
    apply (H (MetaMCPError API_ERROR "HTTP status 503") [EvHttp rq]);
      reflexivity.
Defined.

(** X16.  The wrapper retries whatever the failure: when the adapter cannot
    even be looked up, it still sleeps 1 and then 2 before it re-raises that
    same error, and no request is issued. *)
Theorem send_message_with_retry_on_lookup_failure (client : MetaClient)
    (platform recipient_id content : string) (media_url : option string)
    (e : Exn) (env : Env) (t : Trace) :
  get_adapter client platform = Raise e ->
  send_message_with_retry client platform recipient_id content media_url env t
  = (Raise e, t ++ [EvSleep 1; EvSleep 2]).
Proof.
  intros Hg.
  assert (Honce : forall t',
            send_message_once client platform recipient_id content media_url
              env t' = (Raise e, t')).
  { intros t'. unfold send_message_once, bind, lift. now rewrite Hg. }
  unfold send_message_with_retry. rewrite retry_3_run.
  change (inject_Z (tenacity.wait_exponential 1 1 10 1)) with 1%Q.
  change (inject_Z (tenacity.wait_exponential 1 1 10 2)) with 2%Q.
  rewrite !Honce. now rewrite <- app_assoc.
Qed.

Lemma send_message_with_retry_on_lookup_failure_witness :
  send_message_with_retry (MetaClient_init default_settings) "facebook"
    "psid-1" "hi" None (stub_env []) [] =
  (Raise (MetaMCPError AUTH_FAILED
            "Platform 'facebook' is not configured. Please provide the required access token in .env file."),
   [EvSleep 1; EvSleep 2]).
Proof.
  apply (send_message_with_retry_on_lookup_failure
           (MetaClient_init default_settings) "facebook" "psid-1" "hi" None
           (MetaMCPError AUTH_FAILED
              "Platform 'facebook' is not configured. Please provide the required access token in .env file.")
           (stub_env []) []).
  reflexivity.
Defined.

Lemma send_message_with_retry_exhausted_witness :
  let client :=
    MetaClient_init
      (mkSettings "" "" "" "ig-token" "" "" "v21.0" "INFO" false) in
  let rq :=
    instagram_send_request (InstagramAdapter.init "ig-token" "v21.0")
      "igsid-1" "hi" None in
  send_message_with_retry client "instagram" "igsid-1" "hi" None
    (stub_env [Answer 500 (Some (JObj [])); Answer 429 (Some (JObj []));
               Answer 401 (Some (JObj []))]) [] =
  (Raise (MetaMCPError AUTH_FAILED "HTTP status 401"),
   [EvHttp rq; EvSleep 1; EvHttp rq; EvSleep 2; EvHttp rq]).
Proof.
  intros client rq.
  apply (send_message_with_retry_exhausted client "instagram" "igsid-1" "hi"
           None
           (stub_env [Answer 500 (Some (JObj [])); Answer 429 (Some (JObj []));
                      Answer 401 (Some (JObj []))])
           [] [EvHttp rq] [EvHttp rq; EvSleep 1; EvHttp rq]
           [EvHttp rq; EvSleep 1; EvHttp rq; EvSleep 2; EvHttp rq]
           (MetaMCPError API_ERROR "HTTP status 500")
           (MetaMCPError RATE_LIMIT_EXCEEDED "HTTP status 429")
           (MetaMCPError AUTH_FAILED "HTTP status 401")); reflexivity.
Defined.

Lemma wait_exponential_policy_witness :
  tenacity.wait_exponential 1 1 10 4 = Z.min (2 ^ (4 - 1)) 10 /\
  1 <= tenacity.wait_exponential 1 1 10 4 <= 10.
Proof. apply (wait_exponential_policy 4). lia. Defined.

(** ** server.py: the handlers *)

(** X17.  No handler repeats a request: sending, reading the history and
    reading insights issue at most one request per tool call, posting at
    most two (the two steps of an Instagram post). *)
Theorem handlers_issue_bounded_requests (client : MetaClient)
    (platform recipient_id content metric period : string)
    (media_url conversation_id recipient text target_id : option string)
    (media_urls : option (list string)) (limit : Z) :
  requests_at_most 1
    (handle_send_message client platform recipient_id content media_url) /\
  requests_at_most 1
    (handle_get_messages client platform conversation_id recipient limit) /\
  requests_at_most 2
    (handle_post_content client platform text media_urls target_id) /\
  requests_at_most 1 (handle_get_analytics client platform metric period).
Proof.
  repeat apply conj.
  - apply handle_send_message_requests.
  - apply handle_get_messages_requests.
  - apply handle_post_content_requests.
  - apply handle_get_analytics_requests.
Qed.

Lemma bind_raise {A B : Type} (m : M A) (k : A -> M B) (e : Exn)
    (env : Env) (t t' : Trace) :
  m env t = (Raise e, t') -> bind m k env t = (Raise e, t').
Proof. intros H. unfold bind. now rewrite H. Qed.

Lemma bind_ok {A B : Type} (m : M A) (k : A -> M B) (a : A)
    (env : Env) (t t' : Trace) :
  m env t = (Ok a, t') -> bind m k env t = k a env t'.
Proof. intros H. unfold bind. now rewrite H. Qed.

Lemma known_platform_envelope (platform : string) :
  known_platform platform = true ->
  exists p,
    models.Platform_of platform = Some p /\
    models.PlatformOrUnknown_of platform = Some (models.Known p).
Proof.
  unfold known_platform, models.PlatformOrUnknown_of.
  destruct (models.Platform_of platform) as [p|]; [|discriminate].
  intros _. now exists p.
Qed.

(** X18.  On a known platform the handlers check the request before they
    look up the adapter: a history request with no usable identifier, and
    a post that [validate_post_content_request] refuses, are answered with
    a VALIDATION_ERROR envelope whatever the client's configuration, and
    nothing is sent. *)
Theorem handlers_validate_first (client : MetaClient) (platform : string)
    (conversation_id recipient_id content target_id : option string)
    (media_urls : option (list string)) (limit : Z) (env : Env) (t : Trace) :
  known_platform platform = true ->
  (Py.truthy_opt conversation_id = false ->
   Py.truthy_opt recipient_id = false ->
   let answer :=
     handle_get_messages client platform conversation_id recipient_id limit
       env t in
   failure_code answer = Some "VALIDATION_ERROR" /\ snd answer = t) /\
  ((Py.truthy_opt content || Py.truthy_list media_urls)
   && (negb (String.eqb platform "instagram") || Py.truthy_list media_urls)
   && forallb (url_ok env)
        (match media_urls with Some us => us | None => [] end) = false ->
   let answer :=
     handle_post_content client platform content media_urls target_id env t in
   failure_code answer = Some "VALIDATION_ERROR" /\ snd answer = t).
Proof.
  intros Hk. destruct (known_platform_envelope _ Hk) as (p & Hp & Hpu).
  split.
  - intros Hc Hr answer. subst answer.
    unfold handle_get_messages, validate_get_messages_request,
      except_MetaMCPError, error_envelope, models.new_error, failure_code.
    rewrite Hc, Hr. unfold_m. cbn. rewrite Hpu. now cbn.
  - intros Hbad answer. subst answer.
    pose proof (validate_post_content_request_run platform content media_urls
                  env t) as Hv.
    rewrite Hbad in Hv. destruct Hv as [text Hv].
    unfold handle_post_content, except_MetaMCPError, error_envelope,
      models.new_error, failure_code.
    erewrite bind_raise by exact Hv. unfold_m. rewrite Hpu. now cbn.
Qed.

Lemma handlers_validate_first_witness :
  let client := MetaClient_init default_settings in
  failure_code (handle_get_messages client "facebook" (Some "") None 10
                  (stub_env []) [])
    = Some "VALIDATION_ERROR" /\
  failure_code (handle_post_content client "instagram" (Some "Text only")
                  None None (stub_env []) [])
    = Some "VALIDATION_ERROR".
Proof.
  intros client. split.
  - destruct (handlers_validate_first client "facebook" (Some "") None
                None None None 10 (stub_env []) [] eq_refl) as (H & _).
    apply H; reflexivity.
  - destruct (handlers_validate_first client "instagram" None None
                (Some "Text only") None None 10 (stub_env []) [] eq_refl)
      as (_ & H).
    apply H. reflexivity.
Defined.

(** X19.  A recipient id alone passes the history validator and is then
    refused by the Facebook and Instagram adapters: the handler answers
    with a MISSING_IDENTIFIER envelope, and sends nothing. *)
Theorem handle_get_messages_recipient_only (client : MetaClient)
    (platform : string) (adapter : BasePlatformAdapter)
    (conversation_id recipient_id : option string) (limit : Z)
    (env : Env) (t : Trace) :
  known_platform platform = true ->
  get_adapter client platform = Ok adapter ->
  (exists fb, adapter = Facebook fb) \/ (exists ig, adapter = Instagram ig) ->
  Py.truthy_opt conversation_id = false ->
  Py.truthy_opt recipient_id = true ->
  let answer :=
    handle_get_messages client platform conversation_id recipient_id limit
      env t in
  failure_code answer = Some "MISSING_IDENTIFIER" /\ snd answer = t.
Proof.
  intros Hk Hg Ha Hc Hr answer. subst answer.
  destruct (known_platform_envelope _ Hk) as (p & Hp & Hpu).
  unfold handle_get_messages, validate_get_messages_request,
    except_MetaMCPError, error_envelope, models.new_error, failure_code.
  rewrite Hc, Hr, Hg. cbn [negb andb].
  assert (Hraise : exists text,
            get_messages adapter conversation_id recipient_id limit env t =
            (Raise (MetaMCPError MISSING_IDENTIFIER text), t)).
  { destruct Ha as [[fb ->] | [ig ->]];
      cbn [get_messages Base_adapter dispatch Facebook_adapter
             Instagram_adapter];
      unfold FacebookAdapter.get_messages, InstagramAdapter.get_messages,
        Py.if_truthy;
      destruct conversation_id as [[|c s]|]; try discriminate;
      eexists; reflexivity. }
  destruct Hraise as [text Hraise].
  unfold bind, lift. rewrite Hraise. unfold ret, ask. rewrite Hpu. now cbn.
Qed.

Lemma handle_get_messages_recipient_only_witness :
  let client :=
    MetaClient_init
      (mkSettings "" "" "fb-token" "" "" "" "v21.0" "INFO" false) in
  failure_code (handle_get_messages client "facebook" None (Some "psid-1") 10
                  (stub_env [Answer 200 (Some (JObj []))]) [])
    = Some "MISSING_IDENTIFIER" /\
  snd (handle_get_messages client "facebook" None (Some "psid-1") 10
         (stub_env [Answer 200 (Some (JObj []))]) []) = [].
Proof.
  intros client.
  apply (handle_get_messages_recipient_only client "facebook"
           (Facebook (FacebookAdapter.init "fb-token" "v21.0"))
           None (Some "psid-1") 10 (stub_env [Answer 200 (Some (JObj []))]) []);
    try reflexivity.
  left. eexists. reflexivity.
Defined.

Lemma ram_bind_lift_ok {A B : Type} (n : nat) (a : A) (k : A -> M B) :
  requests_at_most n (k a) -> requests_at_most n (bind (lift (Ok a)) k).
Proof. intros H env t. apply H. Qed.

Lemma mock_operations_offline (mock : MockPlatformAdapter.t)
    (recipient_id content metric period : string)
    (media_url conversation_id recipient text target_id : option string)
    (media_urls : option (list string)) (limit : Z) :
  requests_at_most 0 (send_message (Mock mock) recipient_id content media_url) /\
  requests_at_most 0
    (get_messages (Mock mock) conversation_id recipient limit) /\
  requests_at_most 0 (post_content (Mock mock) text media_urls target_id) /\
  requests_at_most 0 (get_analytics (Mock mock) metric period).
Proof.
  cbn [send_message get_messages post_content get_analytics Base_adapter
         dispatch Mock_adapter].
  repeat apply conj.
  - unfold MockPlatformAdapter.send_message. ram_pure.
  - unfold MockPlatformAdapter.get_messages. ram_pure.
    apply for_each_requests. intro. unfold MockPlatformAdapter.mock_message.
    ram_pure.
  - unfold MockPlatformAdapter.post_content. ram_pure.
  - unfold MockPlatformAdapter.get_analytics. ram_pure.
Qed.

(** X20.  In demo mode no tool call reaches the network: whatever the
    platform name and the arguments, none of the four handlers issues a
    request. *)
Theorem demo_mode_is_offline (client : MetaClient)
    (platform recipient_id content metric period : string)
    (media_url conversation_id recipient text target_id : option string)
    (media_urls : option (list string)) (limit : Z) :
  demo_mode (settings client) = true ->
  requests_at_most 0
    (handle_send_message client platform recipient_id content media_url) /\
  requests_at_most 0
    (handle_get_messages client platform conversation_id recipient limit) /\
  requests_at_most 0
    (handle_post_content client platform text media_urls target_id) /\
  requests_at_most 0 (handle_get_analytics client platform metric period).
Proof.
  intros Hd.
  pose proof (get_adapter_demo client platform Hd) as Hg.
  destruct (mock_operations_offline (MockPlatformAdapter.init "demo" platform)
              recipient_id content metric period media_url conversation_id
              recipient text target_id media_urls limit)
    as (Hsend & Hget & Hpost & Hana).
  repeat apply conj.
  - unfold handle_send_message. rewrite Hg.
    apply ram_except_meta; [|auto with ram].
    apply (ram_bind 0 0); [destruct (String.eqb _ _); auto with ram | intro].
    apply ram_bind_lift_ok.
    apply (ram_bind 0 0); [exact Hsend | intro]. ram_pure.
  - unfold handle_get_messages. rewrite Hg.
    apply ram_except_meta; [|auto with ram].
    apply (ram_bind 0 0); [auto with ram | intro].
    apply ram_bind_lift_ok.
    apply (ram_bind 0 0); [exact Hget | intro]. ram_pure.
  - unfold handle_post_content. rewrite Hg.
    apply ram_except_meta; [|auto with ram].
    apply (ram_bind 0 0); [apply ram_validate_post_content | intro].
    apply ram_bind_lift_ok.
    apply (ram_bind 0 0); [exact Hpost | intro]. ram_pure.
  - unfold handle_get_analytics. rewrite Hg.
    apply ram_except_meta; [|auto with ram].
    apply ram_bind_lift_ok.
    apply (ram_bind 0 0); [exact Hana | intro]. ram_pure.
Qed.

Lemma demo_mode_is_offline_witness :
  requests_at_most 0
    (handle_send_message
       (MetaClient_init (mkSettings "" "" "" "" "" "" "v21.0" "INFO" true))
       "facebook" "psid-1" "hi" None).
Proof.
  destruct (demo_mode_is_offline
              (MetaClient_init (mkSettings "" "" "" "" "" "" "v21.0" "INFO" true))
              "facebook" "psid-1" "hi" "reach" "day" None None None None None
              None 10 eq_refl) as (H & _).
  exact H.
Defined.

(** ** server.py: [call_tool] *)

Section NeverReturns.

Context {A B : Type}.

Lemma never_returns_bind_l (m : M A) (k : A -> M B) :
  never_returns m -> never_returns (bind m k).
Proof.
  intros H env t. unfold bind. destruct (H env t) as [e He].
  destruct (m env t) as [[a|e'] t']; cbn in *; [discriminate | eauto].
Qed.

Lemma never_returns_bind_r (m : M A) (k : A -> M B) :
  (forall a, never_returns (k a)) -> never_returns (bind m k).
Proof.
  intros H env t. unfold bind.
  destruct (m env t) as [[a|e] t']; [apply H | cbn; eauto].
Qed.

End NeverReturns.

Lemma never_returns_new_response (platform : string) (data : json)
    (message : string) :
  models.Platform_of platform = None ->
  never_returns (models.new_response platform data message).
Proof.
  intros H env t. unfold models.new_response. rewrite H. cbn. eauto.
Qed.

Lemma never_returns_new_error (code text platform : string) (env : Env)
    (t : Trace) :
  models.PlatformOrUnknown_of platform = None ->
  models.new_error code text platform env t =
  (Raise (PyExn PydanticValidationError), t).
Proof. intros H. unfold models.new_error. now rewrite H. Qed.

Lemma never_returns_except {A : Type} (body : M A) (platform : string)
    (wrap : models.MetaError -> A) :
  models.PlatformOrUnknown_of platform = None ->
  never_returns body ->
  never_returns
    (except_MetaMCPError body
       (fun code text =>
          error <- models.new_error (code_name code) text platform ;;
          ret (wrap error))).
Proof.
  intros Hp Hb env t. unfold except_MetaMCPError.
  destruct (Hb env t) as [e He].
  destruct (body env t) as [[a|e'] t']; cbn in He; [discriminate|].
  destruct e' as [code text|rq st b|p]; cbn; eauto.
  unfold bind. rewrite never_returns_new_error by assumption. cbn. eauto.
Qed.

Lemma unknown_platform_not_known (platform : string) :
  models.PlatformOrUnknown_of platform = None ->
  models.Platform_of platform = None.
Proof.
  unfold models.PlatformOrUnknown_of.
  now destruct (models.Platform_of platform).
Qed.

Lemma call_tool_try_never_returns (client : MetaClient) (call : ToolCall) :
  named_tool call = true ->
  models.PlatformOrUnknown_of (call_platform call) = None ->
  never_returns (call_tool_try client call).
Proof.
  intros Hn Hp. pose proof (unknown_platform_not_known _ Hp) as Hk.
  destruct call as [p r c m|p cv r l|p c ms tg|p mt pd|name p];
    try discriminate; cbn [call_tool_try call_platform] in *;
    unfold handle_send_message, handle_get_messages, handle_post_content,
      handle_get_analytics, error_envelope;
    apply never_returns_except; try assumption;
    repeat first
      [ apply never_returns_bind_l; now apply never_returns_new_response
      | apply never_returns_bind_r; intro ].
Qed.

(** X21.  When the platform argument is one of facebook, instagram,
    whatsapp or "unknown", [call_tool] always returns an envelope: whatever
    its handler raises comes back as an EXECUTION_ERROR envelope, and
    nothing is raised to the caller. *)
Theorem call_tool_returns_an_envelope (str_of_exn : Exn -> string)
    (client : MetaClient) (call : ToolCall) (env : Env) (t : Trace) :
  envelope_platform (call_platform call) = true ->
  (exists result, fst (call_tool str_of_exn client call env t) = Ok result) /\
  (forall e t',
     call_tool_try client call env t = (Raise e, t') ->
     failure_code (call_tool str_of_exn client call env t)
     = Some "EXECUTION_ERROR" /\
     snd (call_tool str_of_exn client call env t) = t').
Proof.
  unfold envelope_platform. intros Hp.
  destruct (models.PlatformOrUnknown_of (call_platform call)) as [p|] eqn:Ep;
    [|discriminate].
  unfold call_tool, failure_code.
  destruct (call_tool_try client call env t) as [[result|e] t'] eqn:Etry.
  - split; [now exists result | discriminate].
  - unfold models.new_error, bind, ret, ask. rewrite Ep. cbn. split.
    + eauto.
    + intros e0 t0 [= <- <-]. auto.
Qed.

Lemma call_tool_returns_an_envelope_witness :
  let client :=
    MetaClient_init
      (mkSettings "" "" "fb-token" "" "" "" "v21.0" "INFO" false) in
  failure_code
    (call_tool (fun _ => "connection failed") client
       (meta_send_message "facebook" "psid-1" "hi" None) (stub_env []) [])
  = Some "EXECUTION_ERROR".
Proof.
  intros client.
  destruct (call_tool_returns_an_envelope (fun _ => "connection failed") client
              (meta_send_message "facebook" "psid-1" "hi" None)
              (stub_env []) [] eq_refl) as (_ & H).
  destruct (H (PyExn TransportError)
              [EvHttp (facebook_send_request
                         (FacebookAdapter.init "fb-token" "v21.0")
                         "psid-1" "hi" None)] eq_refl) as (Hcode & _).
  exact Hcode.
Defined.

(** X22.  When one of the four tools is called with a platform argument
    that is none of facebook, instagram, whatsapp and "unknown",
    [call_tool] returns no envelope at all: whatever the configuration and
    whatever the handler did, building the error envelope fails and a
    pydantic validation error reaches the caller. *)
Theorem call_tool_rejects_foreign_platform (str_of_exn : Exn -> string)
    (client : MetaClient) (call : ToolCall) (env : Env) (t : Trace) :
  named_tool call = true ->
  envelope_platform (call_platform call) = false ->
  fst (call_tool str_of_exn client call env t)
  = Raise (PyExn PydanticValidationError).
Proof.
  unfold envelope_platform. intros Hn Hp.
  destruct (models.PlatformOrUnknown_of (call_platform call)) eqn:Ep;
    [discriminate|].
  destruct (call_tool_try_never_returns client call Hn Ep env t) as [e He].
  unfold call_tool.
  destruct (call_tool_try client call env t) as [[result|e'] t'];
    cbn in He; [discriminate|].
  unfold bind. now rewrite never_returns_new_error.
Qed.

Lemma call_tool_rejects_foreign_platform_witness :
  fst (call_tool (fun _ => "")
         (MetaClient_init (mkSettings "" "" "" "" "" "" "v21.0" "INFO" true))
         (meta_send_message "telegram" "user-1" "hi" None) (stub_env []) [])
  = Raise (PyExn PydanticValidationError).
Proof.
  apply (call_tool_rejects_foreign_platform (fun _ => "")
           (MetaClient_init (mkSettings "" "" "" "" "" "" "v21.0" "INFO" true))
           (meta_send_message "telegram" "user-1" "hi" None) (stub_env []) []);
    reflexivity.
Defined.

(** A tool name that is none of the four is answered with an
    UNKNOWN_TOOL envelope whose platform is "unknown", whatever platform
    the arguments name; nothing is sent and nothing is raised. *)
Lemma call_tool_unknown_tool (str_of_exn : Exn -> string)
    (client : MetaClient) (name : string) (platform : option string)
    (env : Env) (t : Trace) :
  call_tool str_of_exn client (other_tool name platform) env t =
  (Ok (Failure
         (models.mkMetaError "UNKNOWN_TOOL" ("Unknown tool: " +++ name)
            models.Unknown None (now_isoformat env t))), t).
Proof. reflexivity. Qed.

(** ** logging_config.py *)

Lemma map_untouched (k : string) (v : json) (rec : list (string * json)) :
  ~ In k (map fst rec) ->
  map (fun kv => if String.eqb (fst kv) k then (fst kv, v) else kv) rec = rec.
Proof.
  induction rec as [|[k0 w] rest IH]; cbn; [reflexivity|].
  intros Hn. destruct (String.eqb_spec k0 k) as [->|Hne]; [tauto|].
  rewrite IH; tauto.
Qed.

(** Assigning to a key a dict holds rewrites that entry in place. *)
Lemma set_existing (k : string) (v : json) (rec : list (string * json)) :
  NoDup (map fst rec) -> In k (map fst rec) ->
  Dict.set k v rec =
  map (fun kv => if String.eqb (fst kv) k then (fst kv, v) else kv) rec.
Proof.
  induction rec as [|[k0 w] rest IH]; cbn; [intros _ []|].
  intros Hnd Hin. inversion Hnd as [|? ? Hn0 Hnd']; subst.
  destruct (String.eqb_spec k0 k) as [->|Hne].
  - now rewrite map_untouched.
  - rewrite IH; [reflexivity | assumption | tauto].
Qed.

#[local] Arguments SanitizingFormatter.is_sensitive : simpl never.

Lemma sanitize_keys (ks : list string) (rec : list (string * json)) :
  NoDup (map fst rec) -> incl ks (map fst rec) ->
  fold_left
    (fun record key =>
       if SanitizingFormatter.is_sensitive key
       then Dict.set key (JStr "***REDACTED***") record
       else record) ks rec =
  map (fun kv =>
         if SanitizingFormatter.is_sensitive (fst kv)
            && existsb (String.eqb (fst kv)) ks
         then (fst kv, JStr "***REDACTED***") else kv) rec.
Proof.
  revert rec. induction ks as [|k ks IH]; intros rec Hnd Hin; cbn [fold_left].
  - cbn. symmetry. erewrite map_ext; [apply map_id|].
    intros kv. cbn. now rewrite andb_false_r.
  - assert (Hk : In k (map fst rec)) by (apply Hin; now left).
    assert (Hks : incl ks (map fst rec)) by (intros x Hx; apply Hin; now right).
    destruct (SanitizingFormatter.is_sensitive k) eqn:Es.
    + rewrite set_existing by assumption.
      rewrite IH.
      * rewrite map_map. apply map_ext. intros [k0 w]. cbn.
        destruct (String.eqb_spec k0 k) as [->|Hne]; cbn.
        -- rewrite Es. cbn. now destruct (existsb _ ks).
        -- reflexivity.
      * rewrite map_map. cbn. erewrite map_ext; [exact Hnd|].
        intros [k0 w]. cbn. now destruct (String.eqb k0 k).
      * rewrite map_map. cbn. erewrite map_ext; [exact Hks|].
        intros [k0 w]. cbn. now destruct (String.eqb k0 k).
    + rewrite IH by assumption. apply map_ext. intros [k0 w]. cbn.
      destruct (String.eqb_spec k0 k) as [->|Hne]; cbn; [|reflexivity].
      now rewrite Es.
Qed.

Lemma process_log_record_map (rec : list (string * json)) :
  NoDup (map fst rec) ->
  SanitizingFormatter.process_log_record rec = map redact_entry rec.
Proof.
  intros Hnd. unfold SanitizingFormatter.process_log_record.
  rewrite sanitize_keys; [|assumption|apply incl_refl].
  apply map_ext_in. intros [k w] Hin. unfold redact_entry. cbn.
  assert (He : existsb (String.eqb k) (map fst rec) = true).
  { apply existsb_exists. exists k. split; [|apply String.eqb_refl].
    apply in_map_iff. now exists (k, w). }
  now rewrite He, andb_true_r.
Qed.

(** X23.  On a log record (a dict: no key twice) [process_log_record]
    replaces the value under every key whose lowered name contains one of
    the sensitive words by the marker and leaves every other entry as it
    was; the keys and their order are kept, and sanitizing twice changes
    nothing more. *)
Theorem process_log_record_redacts (rec : list (string * json)) :
  NoDup (map fst rec) ->
  SanitizingFormatter.process_log_record rec = map redact_entry rec /\
  map fst (SanitizingFormatter.process_log_record rec) = map fst rec /\
  SanitizingFormatter.process_log_record
    (SanitizingFormatter.process_log_record rec)
  = SanitizingFormatter.process_log_record rec.
Proof.
  intros Hnd.
  assert (Hkeys : map fst (map redact_entry rec) = map fst rec).
  { rewrite map_map. apply map_ext. intros [k w]. unfold redact_entry. cbn.
    now destruct (SanitizingFormatter.is_sensitive k). }
  rewrite process_log_record_map by assumption. repeat apply conj.
  - reflexivity.
  - exact Hkeys.
  - rewrite process_log_record_map by now rewrite Hkeys.
    rewrite map_map. apply map_ext. intros [k w]. unfold redact_entry. cbn.
    destruct (SanitizingFormatter.is_sensitive k) eqn:E; cbn; now rewrite E.
Qed.

Lemma process_log_record_redacts_witness :
  SanitizingFormatter.process_log_record
    [("message", JStr "Sent"); ("Access_Token", JStr "EAAB");
     ("recipient", JStr "psid-1"); ("app_secret", JStr "s3")] =
  [("message", JStr "Sent"); ("Access_Token", JStr "***REDACTED***");
   ("recipient", JStr "psid-1"); ("app_secret", JStr "***REDACTED***")].
Proof.
  destruct (process_log_record_redacts
              [("message", JStr "Sent"); ("Access_Token", JStr "EAAB");
               ("recipient", JStr "psid-1"); ("app_secret", JStr "s3")])
    as (H & _).
  - repeat constructor; cbn; intuition discriminate.
  - exact H.
Defined.

(** The sanitizer looks at the keys of the record itself: a token inside a
    nested value stays. *)
Example process_log_record_is_shallow :
  SanitizingFormatter.process_log_record
    [("params", JObj [("access_token", JStr "EAAB")])] =
  [("params", JObj [("access_token", JStr "EAAB")])].
Proof. reflexivity. Qed.

(** ** server.py: what the handlers answer *)

Lemma except_meta_failure (body : M ToolResult) (platform : string)
    (p : models.Platform) (code : ErrorCode) (text : string)
    (env : Env) (t t' : Trace) :
  models.PlatformOrUnknown_of platform = Some (models.Known p) ->
  body env t = (Raise (MetaMCPError code text), t') ->
  except_MetaMCPError body (error_envelope platform) env t =
  (Ok (Failure (models.mkMetaError (code_name code) text (models.Known p) None
                  (now_isoformat env t'))), t').
Proof.
  intros Hp Hb. unfold except_MetaMCPError, error_envelope, models.new_error.
  rewrite Hb, Hp. reflexivity.
Qed.

(** X24.  On a known platform whose configuration is incomplete every
    handler that gets as far as the adapter lookup answers with an
    AUTH_FAILED envelope and sends nothing: the insights handler always,
    the send handler unless the whatsapp recipient check refuses first, the
    history handler when an identifier is given. *)
Theorem handlers_report_missing_configuration (client : MetaClient)
    (platform recipient_id content metric period : string)
    (media_url conversation_id recipient : option string) (limit : Z)
    (env : Env) (t : Trace) :
  known_platform platform = true ->
  validate_platform_config (settings client) platform = false ->
  (let answer := handle_get_analytics client platform metric period env t in
   failure_code answer = Some "AUTH_FAILED" /\ snd answer = t) /\
  (platform <> "whatsapp" \/ validate_e164_phone recipient_id = true ->
   let answer :=
     handle_send_message client platform recipient_id content media_url env t in
   failure_code answer = Some "AUTH_FAILED" /\ snd answer = t) /\
  (Py.truthy_opt conversation_id = true \/ Py.truthy_opt recipient = true ->
   let answer :=
     handle_get_messages client platform conversation_id recipient limit env t in
   failure_code answer = Some "AUTH_FAILED" /\ snd answer = t).
Proof.
  intros Hk Hv. destruct (known_platform_envelope _ Hk) as (p & Hp & Hpu).
  assert (Hd : demo_mode (settings client) = false).
  { now apply validate_platform_config_false in Hv. }
  pose proof (get_adapter_incomplete client platform Hd Hv) as Hg.
  assert (Hlookup : forall (A : Type) (k : BasePlatformAdapter -> M A) t0,
            bind (lift (get_adapter client platform)) k env t0 =
            (Raise (MetaMCPError AUTH_FAILED
                      ("Platform '" +++ platform +++ "' is not configured. "
                         +++ "Please provide the required access token in .env file.")),
             t0)).
  { intros A k t0. apply bind_raise. unfold lift. now rewrite Hg. }
  split; [|split].
  - cbv zeta. unfold handle_get_analytics, failure_code.
    rewrite (except_meta_failure _ _ _ _ _ _ _ _ Hpu (Hlookup _ _ t)).
    split; reflexivity.
  - intros Hr. cbv zeta. unfold handle_send_message, failure_code.
    assert (Hcheck :
      (if String.eqb platform "whatsapp"
       then lift (validate_whatsapp_recipient recipient_id)
       else ret tt) env t = (Ok tt, t)).
    { destruct (String.eqb_spec platform "whatsapp") as [->|Hne];
        [|reflexivity].
      destruct Hr as [Hr|Hr]; [contradiction|].
      unfold validate_whatsapp_recipient, lift. now rewrite Hr. }
    erewrite except_meta_failure.
    2: exact Hpu.
    2: { erewrite bind_ok by exact Hcheck. apply Hlookup. }
    split; reflexivity.
  - intros Hi. cbv zeta. unfold handle_get_messages, failure_code.
    assert (Hcheck :
      lift (validate_get_messages_request conversation_id recipient) env t
      = (Ok tt, t)).
    { unfold validate_get_messages_request, lift.
      destruct Hi as [-> | ->]; cbn; now rewrite ?andb_false_r. }
    erewrite except_meta_failure.
    2: exact Hpu.
    2: { erewrite bind_ok by exact Hcheck. apply Hlookup. }
    split; reflexivity.
Qed.

Lemma handlers_report_missing_configuration_witness :
  let client :=
    MetaClient_init
      (mkSettings "" "" "" "" "wa-token" "" "v21.0" "INFO" false) in
  failure_code (handle_get_analytics client "whatsapp" "reach" "day"
                  (stub_env []) []) = Some "AUTH_FAILED" /\
  failure_code (handle_send_message client "whatsapp" "+380991234567" "hi"
                  None (stub_env []) []) = Some "AUTH_FAILED" /\
  failure_code (handle_get_messages client "whatsapp" (Some "t_1") None 10
                  (stub_env []) []) = Some "AUTH_FAILED".
Proof.
  intros client.
  destruct (handlers_report_missing_configuration client "whatsapp"
              "+380991234567" "hi" "reach" "day" None (Some "t_1") None 10
              (stub_env []) [] eq_refl eq_refl) as (Ha & Hs & Hm).
  repeat apply conj.
  - apply Ha.
  - apply Hs. now right.
  - apply Hm. now left.
Defined.

(** X25.  When the adapter is found and its [send_message] returns a
    dict, [handle_send_message] hands that dict back unchanged inside a
    success envelope for the platform, with the text "Message sent
    successfully", and adds nothing to the trace. *)
Theorem handle_send_message_success (client : MetaClient)
    (platform recipient_id content : string) (media_url : option string)
    (adapter : BasePlatformAdapter) (p : models.Platform)
    (fields : list (string * json)) (env : Env) (t t' : Trace) :
  models.Platform_of platform = Some p ->
  platform <> "whatsapp" \/ validate_e164_phone recipient_id = true ->
  get_adapter client platform = Ok adapter ->
  send_message adapter recipient_id content media_url env t
    = (Ok (JObj fields), t') ->
  handle_send_message client platform recipient_id content media_url env t =
  (Ok (Success (models.mkMetaResponse true p (JObj fields)
                  (Some "Message sent successfully") (now_isoformat env t'))),
   t').
Proof.
  intros Hp Hr Hg Hs. unfold handle_send_message, except_MetaMCPError.
  assert (Hcheck :
    (if String.eqb platform "whatsapp"
     then lift (validate_whatsapp_recipient recipient_id)
     else ret tt) env t = (Ok tt, t)).
  { destruct (String.eqb_spec platform "whatsapp") as [->|Hne];
      [|reflexivity].
    destruct Hr as [Hr|Hr]; [contradiction|].
    unfold validate_whatsapp_recipient, lift. now rewrite Hr. }
  erewrite bind_ok by exact Hcheck.
  erewrite bind_ok by (unfold lift; rewrite Hg; reflexivity).
  erewrite bind_ok by exact Hs.
  unfold models.new_response, bind, ret, ask. rewrite Hp. reflexivity.
Qed.

Lemma handle_send_message_success_witness :
  let client :=
    MetaClient_init
      (mkSettings "" "" "" "" "wa-token" "12345" "v21.0" "INFO" false) in
  let wa := WhatsAppAdapter.init "wa-token" "12345" "v21.0" in
  handle_send_message client "whatsapp" "+380991234567" "hi" None
    (stub_env [Answer 200
                 (Some (JObj [("messages",
                               JArr [JObj [("id", JStr "wamid.1")]])]))]) [] =
  (Ok (Success (models.mkMetaResponse true models.WHATSAPP
                  (JObj [("message_id", JStr "wamid.1")])
                  (Some "Message sent successfully")
                  "1970-01-01T00:00:00+00:00")),
   [EvHttp (whatsapp_send_request wa "+380991234567" "hi" None)]).
Proof.
  intros client wa.
  apply (handle_send_message_success client "whatsapp" "+380991234567" "hi"
           None (WhatsApp wa) models.WHATSAPP
           [("message_id", JStr "wamid.1")]
           (stub_env [Answer 200
                        (Some (JObj [("messages",
                                      JArr [JObj [("id", JStr "wamid.1")]])]))])
           [] [EvHttp (whatsapp_send_request wa "+380991234567" "hi" None)]);
    try reflexivity.
  now right.
Defined.

(** ** Concrete instances *)


Lemma get_platform_token_iff_witness :
  get_platform_token
    (mkSettings "" "" "fb-token" "" "" "" "v21.0" "INFO" false) "facebook"
  = Some "fb-token".
Proof.
  apply (get_platform_token_iff
           (mkSettings "" "" "fb-token" "" "" "" "v21.0" "INFO" false)
           "facebook" "fb-token").
  split; [discriminate | left; split; reflexivity].
Defined.
